(** * Digest schedules of inbox-zero: canonical time of day, next occurrence,
      and the digest cron dispatcher.

    Timestamps are JavaScript [Date] time values: an integer number of
    milliseconds since 1970-01-01T00:00:00Z, here a [Z].  All calendar
    arithmetic is in UTC, as every accessor the scripts use is a [getUTC*]
    or [setUTC*] one. *)

From Stdlib Require Import ZArith List String Bool Lia Permutation.
From Stdlib Require Import Ascii DecimalString.
Import ListNotations.
Local Open Scope Z_scope.

(** ** ECMAScript date arithmetic (the built-ins the sources call) *)

Module JSDate.

Definition msPerSecond : Z := 1000.
Definition msPerMinute : Z := 60000.
Definition msPerHour : Z := 3600000.
Definition msPerDay : Z := 86400000.

(** [Day(t)] and [TimeWithinDay(t)]; [Z.div] and [Z.modulo] round towards
    minus infinity, as ECMAScript's floor and modulo do. *)
Definition Day (t : Z) : Z := t / msPerDay.
Definition TimeWithinDay (t : Z) : Z := t mod msPerDay.

Definition HourFromTime (t : Z) : Z := (t / msPerHour) mod 24.
Definition MinFromTime (t : Z) : Z := (t / msPerMinute) mod 60.
Definition SecFromTime (t : Z) : Z := (t / msPerSecond) mod 60.
Definition msFromTime (t : Z) : Z := t mod msPerSecond.

(** 1970-01-01 was a Thursday; 0 is Sunday, 6 is Saturday. *)
Definition WeekDay (t : Z) : Z := (Day t + 4) mod 7.

Definition MakeTime (hour min sec ms : Z) : Z :=
  hour * msPerHour + min * msPerMinute + sec * msPerSecond + ms.
Definition MakeDate (day time : Z) : Z := day * msPerDay + time.

(** A time value outside +-8.64e15 ms is not a date: [None] stands for the
    time value NaN of an invalid [Date]. *)
Definition TimeClip (v : Z) : option Z :=
  if Z.abs v <=? 8640000000000000 then Some v else None.

(** The civil (proleptic Gregorian) date of a day number, year first, the
    month counted from 0 as [getUTCMonth] does, the day of the month from 1. *)
Definition civilFromDay (day : Z) : Z * Z * Z :=
  let z := day + 719468 in
  let era := z / 146097 in
  let doe := z - era * 146097 in
  let yoe := (doe - doe / 1460 + doe / 36524 - doe / 146096) / 365 in
  let doy := doe - (365 * yoe + yoe / 4 - yoe / 100) in
  let mp := (5 * doy + 2) / 153 in
  let d := doy - (153 * mp + 2) / 5 + 1 in
  let m := if mp <? 10 then mp + 2 else mp - 10 in
  let y := yoe + era * 400 + (if m <=? 1 then 1 else 0) in
  (y, m, d).

Definition YearFromTime (t : Z) : Z := fst (fst (civilFromDay (Day t))).
Definition MonthFromTime (t : Z) : Z := snd (fst (civilFromDay (Day t))).
Definition DateFromTime (t : Z) : Z := snd (civilFromDay (Day t)).

(** A [Date] object: its time value, or NaN. *)
Definition Date : Type := option Z.

(** [new Date("1970-01-01T00:00:00Z")] and
    [new Date('1970-01-01T00:00:00.000Z')]: both strings denote the epoch. *)
Definition epoch : Date := Some 0.

(** [Date.prototype.setUTCHours(hour, min, sec, ms)] with all four arguments
    given: the day of the receiver is kept, the time within the day is
    rebuilt, the result is clipped. *)
Definition setUTCHours (d : Date) (hour min sec ms : Z) : Date :=
  match d with
  | None => None
  | Some t => TimeClip (MakeDate (Day t) (MakeTime hour min sec ms))
  end.

Definition getUTCFullYear (d : Date) : option Z := option_map YearFromTime d.
Definition getUTCMonth (d : Date) : option Z := option_map MonthFromTime d.
Definition getUTCDate (d : Date) : option Z := option_map DateFromTime d.
Definition getUTCHours (d : Date) : option Z := option_map HourFromTime d.
Definition getUTCMinutes (d : Date) : option Z := option_map MinFromTime d.
Definition getUTCSeconds (d : Date) : option Z := option_map SecFromTime d.
Definition getUTCMilliseconds (d : Date) : option Z := option_map msFromTime d.

End JSDate.

(** ** JavaScript operators the scripts and forms apply to numbers *)

Module JSValue.
Import JSDate.

(** [a % b] on integers: the remainder takes the sign of the dividend. *)
Definition remainder (a b : Z) : Z := Z.rem a b.

(** [x || 0] for a number [x]; [None] is NaN or undefined, and 0 is falsy
    as well. *)
Definition orZero (x : option Z) : Z :=
  match x with
  | Some n => if n =? 0 then 0 else n
  | None => 0
  end.

(** [d?.getUTCHours()] and [d?.getUTCMinutes()] for a nullable [Date]. *)
Definition optUTCHours (d : option Date) : option Z :=
  match d with
  | Some d' => getUTCHours d'
  | None => None
  end.
Definition optUTCMinutes (d : option Date) : option Z :=
  match d with
  | Some d' => getUTCMinutes d'
  | None => None
  end.

End JSValue.

(** ** [createCanonicalTimeOfDay], as the schedule scripts define it *)

(** The script that creates several schedules for one user. *)
Module MultipleSchedules.
Import JSDate.

Definition createCanonicalTimeOfDay (hour24 minute : Z) : Date :=
  let canonicalDate := epoch in
  setUTCHours canonicalDate hour24 minute 0 0.

(** [pstToUtc]: PST is UTC-8. *)
Definition pstToUtc (pstHour : Z) : Z := Z.rem (pstHour + 8) 24.

(** The PST times the script asks for, hour and minute. *)
Definition pstTimes : list (Z * Z) :=
  [(11, 0); (8, 0); (9, 0); (13, 0); (17, 0)].

(** The time of day the script stores for a requested PST time. *)
Definition scheduleTimeOfDay (hour minute : Z) : Date :=
  let utcHour := pstToUtc hour in
  createCanonicalTimeOfDay utcHour minute.

(** The summary line of a stored schedule: the PST hour, the minute and the
    UTC hour it prints. *)
Definition summaryLine (timeOfDay : option Date) : Z * Z * Z :=
  let hour := JSValue.orZero (JSValue.optUTCHours timeOfDay) in
  let minute := JSValue.orZero (JSValue.optUTCMinutes timeOfDay) in
  let pstHour := JSValue.remainder (hour - 8 + 24) 24 in
  (pstHour, minute, hour).

End MultipleSchedules.

(** scripts/create-rameel-cst-schedules.ts *)
Module CstSchedules.
Import JSDate.

Definition createCanonicalTimeOfDay (hour24 minute : Z) : Date :=
  let date := epoch in
  setUTCHours date hour24 minute 0 0.

Definition cstToUtcHour (cstHour : Z) : Z :=
  let utcHour := cstHour + 6 in
  if 24 <=? utcHour then utcHour - 24 else utcHour.

Definition cstTimes : list Z := [8; 12; 17].

(** The time of day stored for a CST hour: minute 0. *)
Definition scheduleTimeOfDay (cstHour : Z) : Date :=
  let utcHour := cstToUtcHour cstHour in
  createCanonicalTimeOfDay utcHour 0.

(** The summary line of a stored schedule: the CST hour, the minute and the
    UTC hour it prints. *)
Definition summaryLine (timeOfDay : option Date) : Z * Z * Z :=
  let hour := JSValue.orZero (JSValue.optUTCHours timeOfDay) in
  let minute := JSValue.orZero (JSValue.optUTCMinutes timeOfDay) in
  let cstHour := JSValue.remainder (hour - 6 + 24) 24 in
  (cstHour, minute, hour).

End CstSchedules.

(** ** The weekday mask, as [readUserSchedules] decodes it *)

Module ReadUserSchedules.

(** [a & b] on integers; only the seven low bits are ever tested, and they
    are the same before and after JavaScript's conversion to 32 bits. *)
Definition bitand (a b : Z) : Z := Z.land a b.
Definition truthy (n : Z) : bool := negb (n =? 0).

Definition push (days : list string) (c : bool) (name : string) : list string :=
  if c then days ++ [name] else days.

(** The [days] array built inside [if (schedule.daysOfWeek)]. *)
Definition decodeDays (daysOfWeek : Z) : list string :=
  let days := [] in
  let days := push days (truthy (bitand daysOfWeek 1)) "Sunday" in
  let days := push days (truthy (bitand daysOfWeek 2)) "Monday" in
  let days := push days (truthy (bitand daysOfWeek 4)) "Tuesday" in
  let days := push days (truthy (bitand daysOfWeek 8)) "Wednesday" in
  let days := push days (truthy (bitand daysOfWeek 16)) "Thursday" in
  let days := push days (truthy (bitand daysOfWeek 32)) "Friday" in
  let days := push days (truthy (bitand daysOfWeek 64)) "Saturday" in
  days.

Definition daysDescription (daysOfWeek : option Z) : string :=
  match daysOfWeek with
  | None => "Every day"
  | Some m =>
      if truthy m then
        let days := decodeDays m in
        if 0 <? Z.of_nat (List.length days) then String.concat ", " days
        else "Every day"
      else "Every day"
  end.

(** The name the decoding gives to the weekday numbered [wd] by
    [getUTCDay]. *)
Definition dayName (wd : Z) : string :=
  nth (Z.to_nat wd)
    ["Sunday"; "Monday"; "Tuesday"; "Wednesday"; "Thursday"; "Friday";
     "Saturday"]%string EmptyString.

End ReadUserSchedules.

(** ** The next-occurrence calculator *)

Module ScheduleCalc.
Import JSDate.

(** Modelled from the spec: the input record of section 6; the file that
    declares it, utils/schedule.ts, is not among the sources. *)
Record Schedule : Type := mkSchedule {
  intervalDays : Z;
  daysOfWeek : option Z;
  timeOfDay : Z;
  occurrences : Z;
  lastOccurrenceAt : option Z
}.

(** Modelled from the spec: section 4.1 leaves the mask without a weekday
    bit to the implementer, who either fails (returns null) or treats it as
    every day.  Both resolutions are kept, as a parameter of the
    calculator. *)
Inductive MaskPolicy : Type :=
| FailOnEmptyMask
| EveryDayOnEmptyMask.

Definition addDays (t n : Z) : Z := t + n * msPerDay.

(** Modelled from the spec: "snap the time-of-day to the schedule's
    timeOfDay (hour/minute, UTC)": the day of [t], at the hour and minute of
    [tod], seconds and milliseconds zero. *)
Definition snapTimeOfDay (tod t : Z) : Z :=
  MakeDate (Day t) (MakeTime (HourFromTime tod) (MinFromTime tod) 0 0).

Definition weekdays : list Z := [0; 1; 2; 3; 4; 5; 6].

(** Modelled from the spec: "bit 0 = Sunday ... bit 6 = Saturday", the
    encoding [readUserSchedules] decodes. *)
Definition weekdayAllowed (mask t : Z) : bool := Z.testbit mask (WeekDay t).
Definition hasWeekdayBit (mask : Z) : bool := existsb (Z.testbit mask) weekdays.

(** Modelled from the spec: "advance further to the next date whose weekday
    bit is set in the mask": the first date from [t] on whose weekday bit is
    set, looking at [fuel] consecutive days. *)
Fixpoint advanceToAllowedDay (fuel : nat) (mask t : Z) : option Z :=
  match fuel with
  | O => None
  | S fuel' =>
      if weekdayAllowed mask t then Some t
      else advanceToAllowedDay fuel' mask (addDays t 1)
  end.

(** Modelled from the spec: "starting from lastOccurrenceAt (or current time
    if absent), advance by intervalDays days, then snap the time-of-day". *)
Definition naiveAdvance (s : Schedule) (now : Z) : Z :=
  let start := match lastOccurrenceAt s with Some l => l | None => now end in
  snapTimeOfDay (timeOfDay s) (addDays start (intervalDays s)).

(** Modelled from the spec: "if naive advancement lands in the past, roll
    forward one additional interval/day": a candidate that is not strictly
    after [now] moves by one more interval (one day for a daily schedule). *)
Definition rollForward (s : Schedule) (now cand : Z) : Z :=
  if cand <=? now then addDays cand (intervalDays s) else cand.

(** Modelled from the spec: [calculateNextScheduleDate] of utils/schedule.ts
    (the spec's [calculateNext]), which the scripts and the settings action
    import and whose file is not among the sources.  Section 4.1, sentence
    by sentence: a non-positive [intervalDays] gives null; otherwise the
    naive advancement, rolled forward once when it lands in the past, and,
    when [daysOfWeek] is set, advanced further to the next date whose
    weekday bit is set.  The weekday search comes last, so that the date it
    finds is the one returned.  [occurrences] is reserved and not read.  The
    ambient clock is the explicit argument [now]; [None] is null. *)
Definition calculateNext (pol : MaskPolicy) (s : Schedule) (now : Z) : option Z :=
  if intervalDays s <=? 0 then None
  else
    let cand := rollForward s now (naiveAdvance s now) in
    match daysOfWeek s with
    | None => Some cand
    | Some mask =>
        if hasWeekdayBit mask then advanceToAllowedDay 7 mask cand
        else
          match pol with
          | FailOnEmptyMask => None
          | EveryDayOnEmptyMask => Some cand
          end
    end.

(** The daily 09:00 UTC schedule of the scripts, never sent yet. *)
Definition daily0900 : Schedule :=
  mkSchedule 1 None 32400000 1 None.

(** What the first testable property of the spec's section 8 expects of
    [daily0900]: today at 09:00 UTC before 09:00, tomorrow at 09:00 UTC
    otherwise. *)
Definition todayOrTomorrow0900 (now : Z) : Z :=
  if TimeWithinDay now <? 9 * msPerHour
  then MakeDate (Day now) (9 * msPerHour)
  else MakeDate (Day now + 1) (9 * msPerHour).

End ScheduleCalc.

(** ** The digest cron dispatcher: app/api/resend/digest/all/route.ts *)

Module DigestAll.

Record Premium : Type := mkPremium {
  lemonSqueezyRenewsAt : option Z;
  stripeSubscriptionStatus : option string
}.

Record User : Type := mkUser { premium : option Premium }.

Record EmailAccount : Type := mkEmailAccount {
  id : string;
  email : string;
  createdAt : Z;
  user : User
}.

(** A schedule row with its [emailAccount] included, as [findMany] returns
    it; only the fields the dispatcher reads. *)
Record ScheduleRow : Type := mkScheduleRow {
  nextOccurrenceAt : option Z;
  emailAccount : EmailAccount
}.

(** The argument of one [publishToQstashQueue] call. *)
Record QueueMessage : Type := mkQueueMessage {
  queueName : string;
  parallelism : Z;
  url : string;
  emailAccountId : string
}.

(** What a run leaves behind: the publish calls made, in order, and the
    emails logged for the calls that threw. *)
Record Outbox : Type := mkOutbox {
  requests : list QueueMessage;
  errorLog : list string
}.

(** A JavaScript [Set] of strings: its elements in insertion order. *)
Definition Set_has (s : list string) (x : string) : bool :=
  existsb (String.eqb x) s.
Definition Set_add (s : list string) (x : string) : list string :=
  if Set_has s x then s else s ++ [x].
Definition newSet (l : list string) : list string := fold_left Set_add l [].

(** [xs.map(f)] where [f] may throw: [None] is the exception. *)
Fixpoint mapThrowing {A B : Type} (f : A -> option B) (l : list A)
  : option (list B) :=
  match l with
  | [] => Some []
  | x :: l' =>
      match f x with
      | None => None
      | Some y =>
          match mapThrowing f l' with
          | None => None
          | Some ys => Some (y :: ys)
          end
      end
  end.

Section Cron.

(** date-fns [subDays], the deployment's base URL, and whether the n-th
    call of [publishToQstashQueue] throws. *)
Variable subDays : Z -> Z -> Z.
Variable NEXT_PUBLIC_BASE_URL : string.
Variable qstashThrows : nat -> QueueMessage -> bool.

(** [where: { nextOccurrenceAt: { lte: now } }]; a null column never
    matches. *)
Definition findManyDue (db : list ScheduleRow) (now : Z) : list ScheduleRow :=
  filter (fun s => match nextOccurrenceAt s with
                   | Some t => t <=? now
                   | None => false
                   end) db.

Definition isPremium (now : Z) (a : EmailAccount) : bool :=
  match premium (user a) with
  | None => false
  | Some p =>
      (match lemonSqueezyRenewsAt p with
       | Some r => now <? r
       | None => false
       end)
      || existsb
           (String.eqb
              (match stripeSubscriptionStatus p with
               | Some st => st
               | None => EmptyString
               end))
           ["active"; "trialing"]%string
  end.

Definition isOldEnough (now : Z) (a : EmailAccount) : bool :=
  createdAt a <? subDays now 1.

Definition eligible (now : Z) (dueSchedules : list ScheduleRow)
  : list ScheduleRow :=
  filter (fun schedule =>
            let a := emailAccount schedule in
            isPremium now a && isOldEnough now a) dueSchedules.

(** [Array.from(emailAccountIds).map(...)]: the id with the email of the
    first eligible schedule of that account; [schedule!] throws when
    [find] gives undefined. *)
Definition emailAccountsOf (eligibleSchedules : list ScheduleRow)
  : option (list (string * string)) :=
  let emailAccountIds :=
    newSet (map (fun s => id (emailAccount s)) eligibleSchedules) in
  mapThrowing
    (fun i =>
       match find (fun s => String.eqb (id (emailAccount s)) i)
               eligibleSchedules with
       | Some schedule => Some (i, email (emailAccount schedule))
       | None => None
       end)
    emailAccountIds.

(** One turn of the publish loop; a throwing call is caught and logged. *)
Definition publishOne (o : Outbox) (a : string * string) : Outbox :=
  let msg :=
    mkQueueMessage "email-digest-all" 3
      (NEXT_PUBLIC_BASE_URL ++ "/api/resend/digest") (fst a) in
  if qstashThrows (List.length (requests o)) msg
  then mkOutbox (requests o ++ [msg]) (errorLog o ++ [snd a])
  else mkOutbox (requests o ++ [msg]) (errorLog o).

(** [sendDigestAllUpdate]: the returned count and the outbox after the
    run; [None] if the run threw.  [db] is the table [findMany] reads: a
    [findMany] that throws leaves the function before any call is made, and
    is not among the outcomes here. *)
Definition sendDigestAllUpdate (db : list ScheduleRow) (now : Z)
  : option (Z * Outbox) :=
  let dueSchedules := findManyDue db now in
  let eligibleSchedules := eligible now dueSchedules in
  match emailAccountsOf eligibleSchedules with
  | None => None
  | Some emailAccounts =>
      Some (Z.of_nat (List.length emailAccounts),
            fold_left publishOne emailAccounts (mkOutbox [] []))
  end.

(** The jobs that reached the queue: the calls that did not throw. *)
Definition publishedJobs (o : Outbox) : list QueueMessage :=
  map snd
    (filter (fun p => negb (qstashThrows (fst p) (snd p)))
       (combine (seq 0 (List.length (requests o))) (requests o))).

End Cron.

(** How many of the messages are for the account [i]. *)
Definition jobsFor (i : string) (msgs : list QueueMessage) : nat :=
  List.length (filter (fun m => String.eqb (emailAccountId m) i) msgs).

End DigestAll.

(** ** The Schedule table and the Prisma calls made on it *)

Module ScheduleTable.
Import JSDate.

(** The [emailAccount] included with a schedule row. *)
Record EmailAccount : Type := mkEmailAccount {
  accountId : string;
  userId : string;
  email : string
}.

(** A row of the Schedule table; every scalar column but [id] is
    nullable. *)
Record Row : Type := mkRow {
  id : string;
  emailAccount : EmailAccount;
  intervalDays : option Z;
  occurrences : option Z;
  daysOfWeek : option Z;
  timeOfDay : option Date;
  lastOccurrenceAt : option Z;
  nextOccurrenceAt : option Z
}.

Definition emailAccountId (r : Row) : string := accountId (emailAccount r).

Definition Table : Type := list Row.

Definition hasId (i : string) (r : Row) : bool := String.eqb (id r) i.

(** [prisma.schedule.findUnique({ where: { id } })] *)
Definition findUnique (t : Table) (i : string) : option Row := find (hasId i) t.

Definition remove (t : Table) (i : string) : Table :=
  filter (fun r => negb (hasId i r)) t.

(** [data: { intervalDays: 1, daysOfWeek: null }] *)
Definition setDaily (r : Row) : Row :=
  mkRow (id r) (emailAccount r) (Some 1) (occurrences r) None (timeOfDay r)
    (lastOccurrenceAt r) (nextOccurrenceAt r).

Section Calls.

(** Whether the write on the row with a given id throws (connection lost,
    constraint violated). *)
Variable throws : string -> bool.

(** [prisma.schedule.delete({ where: { id } })]: [None] when the call
    throws, which it also does when no row has the id. *)
Definition delete (t : Table) (i : string) : option Table :=
  if existsb (hasId i) t && negb (throws i) then Some (remove t i) else None.

(** [prisma.schedule.update({ where: { id }, data: { intervalDays: 1,
    daysOfWeek: null } })] *)
Definition updateDaily (t : Table) (i : string) : option Table :=
  if existsb (hasId i) t && negb (throws i)
  then Some (map (fun r => if hasId i r then setDaily r else r) t)
  else None.

End Calls.

End ScheduleTable.

(** ** scripts/cleanup-rameel-pst-schedules.ts *)

Module CleanupPst.
Import JSDate ScheduleTable.

Definition utcToCstHour (utcHour : Z) : Z :=
  let cstHour := utcHour - 6 in
  if cstHour <? 0 then cstHour + 24 else cstHour.

Definition keepCstTimes : list Z := [8; 12; 17].
Definition keepUtcTimes : list Z :=
  map (fun cst => JSValue.remainder (cst + 6) 24) keepCstTimes.

(** [xs.includes(x)] on integers. *)
Definition includes (xs : list Z) (x : Z) : bool := existsb (Z.eqb x) xs.

Definition shouldKeep (schedule : Row) : bool :=
  let utcHour := JSValue.orZero (JSValue.optUTCHours (timeOfDay schedule)) in
  includes keepUtcTimes utcHour.

(** The table and the two counters the loop maintains. *)
Record Run : Type := mkRun {
  table : Table;
  deletedCount : Z;
  keptCount : Z
}.

Section Loop.
Variable deleteThrows : string -> bool.

Definition step (st : Run) (schedule : Row) : Run :=
  if shouldKeep schedule
  then mkRun (table st) (deletedCount st) (keptCount st + 1)
  else
    match delete deleteThrows (table st) (id schedule) with
    | Some t' => mkRun t' (deletedCount st + 1) (keptCount st)
    | None => st
    end.

(** [cleanupPSTSchedules], from the user found ([None]: not found, the
    script returns at once) to the end of the loop. *)
Definition cleanupPSTSchedules (user : option string) (t : Table) : Run :=
  match user with
  | None => mkRun t 0 0
  | Some uid =>
      let allSchedules :=
        filter (fun r => String.eqb (userId (emailAccount r)) uid) t in
      fold_left step allSchedules (mkRun t 0 0)
  end.

End Loop.

End CleanupPst.

(** ** The script that turns every schedule into a daily one *)

Module EnsureDaily.
Import JSDate ScheduleTable.

Definition isDaily (schedule : Row) : bool :=
  match intervalDays schedule, daysOfWeek schedule with
  | Some n, None => n =? 1
  | _, _ => false
  end.

Record Run : Type := mkRun {
  table : Table;
  updatedCount : Z;
  alreadyDailyCount : Z
}.

Section Loop.
Variable updateThrows : string -> bool.

Definition step (st : Run) (schedule : Row) : Run :=
  if isDaily schedule
  then mkRun (table st) (updatedCount st) (alreadyDailyCount st + 1)
  else
    match updateDaily updateThrows (table st) (id schedule) with
    | Some t' => mkRun t' (updatedCount st + 1) (alreadyDailyCount st)
    | None => st
    end.

(** [ensureAllDigestsAreDaily] up to the end of its loop; [allSchedules] is
    what the first [findMany] returned, the rows of the table in the order
    of their [timeOfDay]. *)
Definition ensureAllDigestsAreDaily (allSchedules : list Row) (t : Table)
  : Run :=
  fold_left step allSchedules (mkRun t 0 0).

End Loop.

End EnsureDaily.

(** ** app/api/user/digest-schedule/[id]/route.ts *)

Module DigestScheduleIdRoute.
Import ScheduleTable.

(** The 404 response, the success response, or an exception that leaves
    the handler. *)
Inductive Response : Type :=
| NotFound404
| Success200
| Thrown.

Section Handler.
Variable findThrows : string -> bool.
Variable deleteThrows : string -> bool.

Definition DELETE (t : Table) (authEmailAccountId i : string)
  : Response * Table :=
  if findThrows i then (Thrown, t)
  else
    match findUnique t i with
    | None => (NotFound404, t)
    | Some schedule =>
        if negb (String.eqb (emailAccountId schedule) authEmailAccountId)
        then (NotFound404, t)
        else
          match delete deleteThrows t i with
          | Some t' => (Success200, t')
          | None => (Thrown, t)
          end
    end.

End Handler.

End DigestScheduleIdRoute.

(** ** app/api/user/digest-schedule/route.ts: creating a schedule *)

Module DigestScheduleRoute.
Import JSDate.

(** A JSON value as [createScheduleSchema] tells them apart: absent,
    null, a number that is an integer, a number that is not, a string, or
    anything else (boolean, array, object). *)
Inductive JSON : Type :=
| JUndefined
| JNull
| JInteger (n : Z)
| JFraction
| JString (s : string)
| JOther.

(** The four keys of the request body the schema reads; other keys are
    stripped. *)
Record Body : Type := mkBody {
  b_timeOfDay : JSON;
  b_intervalDays : JSON;
  b_occurrences : JSON;
  b_daysOfWeek : JSON
}.

(** A value that may be absent or null. *)
Inductive Nullish : Type :=
| Undefined
| Null
| Num (n : Z).

Record Parsed : Type := mkParsed {
  p_timeOfDay : string;
  p_intervalDays : option Z;
  p_occurrences : option Z;
  p_daysOfWeek : Nullish
}.

(** [z.string()] *)
Definition zString (v : JSON) : option string :=
  match v with
  | JString s => Some s
  | _ => None
  end.

(** [z.number().int().positive().optional()]: the outer [None] is a
    validation issue, the inner one is undefined. *)
Definition zPositiveIntOptional (v : JSON) : option (option Z) :=
  match v with
  | JUndefined => Some None
  | JInteger n => if 0 <? n then Some (Some n) else None
  | _ => None
  end.

(** [z.number().int().min(0).max(127).optional().nullable()] *)
Definition zMaskOptionalNullable (v : JSON) : option Nullish :=
  match v with
  | JUndefined => Some Undefined
  | JNull => Some Null
  | JInteger n => if (0 <=? n) && (n <=? 127) then Some (Num n) else None
  | _ => None
  end.

(** [createScheduleSchema.parse(body)]; [None] when it throws. *)
Definition parse (body : Body) : option Parsed :=
  match zString (b_timeOfDay body),
        zPositiveIntOptional (b_intervalDays body),
        zPositiveIntOptional (b_occurrences body),
        zMaskOptionalNullable (b_daysOfWeek body) with
  | Some tod, Some iv, Some occ, Some dow => Some (mkParsed tod iv occ dow)
  | _, _, _, _ => None
  end.

(** [n || 1] for a number that may be undefined. *)
Definition orOne (n : option Z) : Z :=
  match n with
  | Some k => if k =? 0 then 1 else k
  | None => 1
  end.

(** The [data] handed to [prisma.schedule.create]. *)
Record CreateData : Type := mkCreateData {
  emailAccountId : string;
  timeOfDay : Date;
  intervalDays : Z;
  occurrences : Z;
  daysOfWeek : Nullish
}.

(** The created schedule as JSON, or the 500 response of the catch
    block. *)
Inductive Response : Type :=
| Created (data : CreateData)
| Error500.

Section Handler.

(** [new Date(isoString)], and whether [prisma.schedule.create] throws on
    a given [data] (invalid date, unique constraint, connection). *)
Variable newDate : string -> Date.
Variable createThrows : CreateData -> bool.

(** [POST]: the response and the rows created. *)
Definition POST (authEmailAccountId : string) (body : Body)
  : Response * list CreateData :=
  match parse body with
  | None => (Error500, [])
  | Some parsed =>
      let data :=
        mkCreateData authEmailAccountId (newDate (p_timeOfDay parsed))
          (orOne (p_intervalDays parsed)) (orOne (p_occurrences parsed))
          (p_daysOfWeek parsed) in
      if createThrows data then (Error500, []) else (Created data, [data])
  end.

End Handler.

End DigestScheduleRoute.

(** ** Strings of digits, as the forms write and read them *)

Module JSString.

(** NaN is [None]. *)
Definition Number : Type := option Z.

(** [n.toString()] for an integer or NaN. *)
Definition toString (n : Number) : string :=
  match n with
  | Some z => NilZero.string_of_int (Z.to_int z)
  | None => "NaN"
  end.

(** [s.padStart(2, "0")] *)
Definition padStart2 (s : string) : string :=
  match String.length s with
  | O => "00"
  | S O => String "0" s
  | _ => s
  end.

Definition isWhiteSpace (c : ascii) : bool :=
  let n := nat_of_ascii c in
  (Nat.eqb n 32 || Nat.eqb n 9 || Nat.eqb n 10 || Nat.eqb n 11
   || Nat.eqb n 12 || Nat.eqb n 13)%bool.

Fixpoint trimStart (s : string) : string :=
  match s with
  | String c s' => if isWhiteSpace c then trimStart s' else s
  | EmptyString => s
  end.

Definition digitOf (c : ascii) : option Z :=
  let n := nat_of_ascii c in
  if (Nat.leb 48 n && Nat.leb n 57)%bool then Some (Z.of_nat (n - 48))
  else None.

(** The value of the longest prefix of decimal digits, [acc] being the
    value read so far ([None]: no digit yet). *)
Fixpoint digitsPrefix (s : string) (acc : Number) : Number :=
  match s with
  | String c s' =>
      match digitOf c with
      | Some d =>
          digitsPrefix s'
            (Some (10 * (match acc with Some a => a | None => 0 end) + d))
      | None => acc
      end
  | EmptyString => acc
  end.

(** [Number.parseInt(s, 10)]: leading white space (the ASCII one here), an
    optional sign, then the longest prefix of digits; NaN without digit.
    The value is the exact integer, as in JavaScript up to 2^53; a longer
    run of digits is rounded to a double there, which the form fields of at
    most two digits never reach. *)
Definition parseInt (s : string) : Number :=
  match trimStart s with
  | String "-" s' => option_map Z.opp (digitsPrefix s' None)
  | String "+" s' => digitsPrefix s' None
  | s' => digitsPrefix s' None
  end.

(** Equality of two numbers that are not NaN; NaN equals nothing, as with
    [===], but is told from a number. *)
Definition Number_eqb (a b : Number) : bool :=
  match a, b with
  | Some x, Some y => x =? y
  | None, None => true
  | _, _ => false
  end.

(** The integers [lo], [lo + 1], ..., [n] of them. *)
Definition range (lo : Z) (n : nat) : list Z :=
  map (fun k => lo + Z.of_nat k) (seq 0 n).

(** [s.split(":")] *)
Fixpoint splitColon (s : string) : list string :=
  match s with
  | EmptyString => [EmptyString]
  | String c s' =>
      if Ascii.eqb c ":" then EmptyString :: splitColon s'
      else
        match splitColon s' with
        | first :: rest => String c first :: rest
        | [] => [String c EmptyString]
        end
  end.

End JSString.

(** ** The schedule form of the settings page: [DigestScheduleForm] *)

Module DigestScheduleForm.
Import JSString.

(** The [switch] of [onSubmit]. *)
Definition intervalDaysOf (schedule : string) : Z :=
  if String.eqb schedule "daily" then 1
  else if String.eqb schedule "weekly" then 7
  else if String.eqb schedule "biweekly" then 14
  else if String.eqb schedule "monthly" then 30
  else 1.


(** The 24-hour value [onSubmit] computes from the [hour] and [ampm]
    fields. *)
Definition hour24Of (hour ampm : string) : Number :=
  let hour24 := parseInt hour in
  if String.eqb ampm "AM" && (match hour24 with Some 12 => true | _ => false end)
  then Some 0
  else if String.eqb ampm "PM"
          && negb (match hour24 with Some 12 => true | _ => false end)
  then option_map (fun h => h + 12) hour24
  else hour24.

Definition minuteOf (minute : string) : Number := parseInt minute.

(** [n % 12 || 12] for a number that may be NaN. *)
Definition mod12or12 (n : Number) : Number :=
  match n with
  | Some h => if JSValue.remainder h 12 =? 0 then Some 12
              else Some (JSValue.remainder h 12)
  | None => Some 12
  end.

(** The [hour], [minute] and [ampm] fields [getInitialScheduleProps]
    derives from the stored time of day: [None] when it is null, otherwise
    the local hours and minutes the [Date] reports. *)
Definition initialTimeFields (timeOfDay : option (Number * Number))
  : string * string * string :=
  let initialTimeOfDay :=
    match timeOfDay with
    | Some (h, m) =>
        (padStart2 (toString h) ++ ":" ++ padStart2 (toString m))%string
    | None => "09:00"%string
    end in
  let parts := splitColon initialTimeOfDay in
  let initHour24 := nth_error parts 0 in
  let initMinute := nth_error parts 1 in
  let parsed :=
    match initHour24 with
    | Some h => parseInt h
    | None => None
    end in
  let hour12 := padStart2 (toString (mod12or12 parsed)) in
  let ampm :=
    match parsed with
    | Some h => if h <? 12 then "AM"%string else "PM"%string
    | None => "PM"%string
    end in
  let minute :=
    match initMinute with
    | Some m => if String.eqb m EmptyString then "00"%string else m
    | None => "00"%string
    end in
  (hour12, minute, ampm).

(** The values of the hour select: "01" to "12". *)
Definition hours : list string :=
  map (fun i => padStart2 (toString (Some (Z.of_nat i + 1)))) (seq 0 12).

End DigestScheduleForm.

(** ** The schedule part of [DigestSettingsForm] *)

Module DigestSettingsForm.
Import JSString.

(** The [switch] of its [onSubmit]: only "daily" and "weekly". *)
Definition intervalDaysOf (schedule : string) : Z :=
  if String.eqb schedule "daily" then 1
  else if String.eqb schedule "weekly" then 7
  else 1.

(** [const [hourStr, minuteStr] = time.split(":")] and the two
    [parseInt]; a missing part is undefined, which parses to NaN. *)
Definition hourMinuteOf (time : string) : Number * Number :=
  let parts := splitColon time in
  let parse := fun p => match p with Some x => parseInt x | None => None end in
  (parse (nth_error parts 0), parse (nth_error parts 1)).

(** The [time] field its [getInitialScheduleProps] derives. *)
Definition initialTime (timeOfDay : option (Number * Number)) : string :=
  match timeOfDay with
  | Some (h, m) =>
      (padStart2 (toString h) ++ ":" ++ padStart2 (toString m))%string
  | None => "09:00"%string
  end.

End DigestSettingsForm.

(** ** scripts/migrate-digest-defaults.ts *)

Module DigestMigration.
Import JSDate.

(** [SystemType] and [ActionType] are Prisma enums: at run time, the
    strings of their names. *)
Definition ALL_DIGEST_CATEGORIES : list string :=
  ["TO_REPLY"; "NEWSLETTER"; "MARKETING"; "CALENDAR"; "RECEIPT";
   "NOTIFICATION"]%string.

Definition DIGEST : string := "DIGEST".
Definition LABEL : string := "LABEL".
Definition ARCHIVE : string := "ARCHIVE".
Definition MOVE_FOLDER : string := "MOVE_FOLDER".

(** The tables. *)
Record AccountRow : Type := mkAccountRow {
  accountId : string;
  accountEmail : string;
  digestMigrationCompleted : bool;
  coldEmailDigest : bool
}.

Record RuleRow : Type := mkRuleRow {
  rowId : string;
  rowName : string;
  rowSystemType : option string;
  rowEmailAccountId : string
}.

Record ActionRow : Type := mkActionRow {
  actionRuleId : string;
  actionType : string
}.

Record ScheduleRow : Type := mkScheduleRow {
  scheduleEmailAccountId : string;
  intervalDays : Z;
  occurrences : Z;
  daysOfWeek : option Z;
  timeOfDay : Date;
  lastOccurrenceAt : option Z;
  nextOccurrenceAt : option Z
}.

Record DB : Type := mkDB {
  accounts : list AccountRow;
  ruleRows : list RuleRow;
  actionRows : list ActionRow;
  scheduleRows : list ScheduleRow
}.

(** A rule with its actions included, as the script maps it. *)
Record Rule : Type := mkRule {
  ruleId : string;
  name : string;
  systemType : option string;
  actions : list string
}.

(** The [user] argument of [migrateUserDigestDefaults]. *)
Record User : Type := mkUser {
  id : string;
  email : string;
  rules : list Rule
}.

Record MigrationResult : Type := mkMigrationResult {
  userId : string;
  userEmail : string;
  status : string;
  rulesUpdated : list string;
  scheduleCreated : option bool;
  error : option string
}.

Record Summary : Type := mkSummary {
  totalUsers : Z;
  migrated : Z;
  skipped : Z;
  errors : Z;
  results : list MigrationResult
}.

(** The Prisma calls of the script, for the oracle that says which of them
    throw. *)
Inductive Call : Type :=
| AccountFindMany
| AccountFindUnique (i : string)
| AccountUpdate (i : string)
| ActionCreate (rule : string)
| ActionDeleteMany (rule : string)
| ScheduleFindFirst (account : string)
| ScheduleCreate (account : string).

(** A call returns with the database it leaves, or throws an error with
    its message, the writes made before staying. *)
Inductive Outcome (A : Type) : Type :=
| Returned (a : A) (db : DB)
| Thrown (message : string) (db : DB).
Arguments Returned {A} _ _.
Arguments Thrown {A} _ _.

Definition dbOf {A : Type} (o : Outcome A) : DB :=
  match o with
  | Returned _ db => db
  | Thrown _ db => db
  end.

(** A rule row with the types of its actions, as the script maps it. *)
Definition ruleOf (acts : list ActionRow) (r : RuleRow) : Rule :=
  mkRule (rowId r) (rowName r) (rowSystemType r)
    (map actionType
       (filter (fun a => String.eqb (actionRuleId a) (rowId r)) acts)).

(** [include: { rules: { include: { actions: true } } }] *)
Definition includeRules (db : DB) (account : string) : list Rule :=
  map (ruleOf (actionRows db))
    (filter (fun r => String.eqb (rowEmailAccountId r) account) (ruleRows db)).

Definition userOf (db : DB) (a : AccountRow) : User :=
  mkUser (accountId a) (accountEmail a) (includeRules db (accountId a)).

Definition isCategory (c : string) (r : Rule) : bool :=
  match systemType r with
  | Some st => String.eqb st c
  | None => false
  end.

Definition hasDigest (r : Rule) : bool :=
  existsb (fun t => String.eqb t DIGEST) (actions r).

Definition hasCustomActions (r : Rule) : bool :=
  existsb (fun t => negb (String.eqb t LABEL) && negb (String.eqb t ARCHIVE)
                    && negb (String.eqb t MOVE_FOLDER)) (actions r).

Definition addAction (db : DB) (rule type : string) : DB :=
  mkDB (accounts db) (ruleRows db) (actionRows db ++ [mkActionRow rule type])
    (scheduleRows db).

Definition deleteDigestActions (db : DB) (rule : string) : DB :=
  mkDB (accounts db) (ruleRows db)
    (filter (fun a => negb (String.eqb (actionRuleId a) rule
                            && String.eqb (actionType a) DIGEST))
       (actionRows db))
    (scheduleRows db).

Definition setFlags (db : DB) (i : string) (flag : bool) : DB :=
  mkDB
    (map (fun a => if String.eqb (accountId a) i
                   then mkAccountRow (accountId a) (accountEmail a) flag flag
                   else a) (accounts db))
    (ruleRows db) (actionRows db) (scheduleRows db).

Definition hasAccount (db : DB) (i : string) : bool :=
  existsb (fun a => String.eqb (accountId a) i) (accounts db).

Definition addSchedule (db : DB) (s : ScheduleRow) : DB :=
  mkDB (accounts db) (ruleRows db) (actionRows db) (scheduleRows db ++ [s]).

(** The rule a category stands for in a user's rules, when the migration
    is to give it a digest action: the first rule of the category, unless
    it has a digest action already or an action other than label, archive
    and move. *)
Definition ruleToUpdate (user : User) (categoryType : string) : list Rule :=
  match find (isCategory categoryType) (rules user) with
  | Some rule =>
      if hasDigest rule || hasCustomActions rule then [] else [rule]
  | None => []
  end.

Definition rulesToUpdate (categories : list string) (user : User)
  : list Rule :=
  flat_map (ruleToUpdate user) categories.

(** The rules the categories stand for in a user's rules: for each
    category, the first rule of it. *)
Definition categoryRules (categories : list string) (user : User)
  : list Rule :=
  flat_map (fun c => match find (isCategory c) (rules user) with
                     | Some rule => [rule]
                     | None => []
                     end) categories.

(** Whether an action row is a digest action of one of these rules. *)
Definition isDigestOf (rs : list Rule) (a : ActionRow) : bool :=
  String.eqb (actionType a) DIGEST
  && existsb (String.eqb (actionRuleId a)) (map ruleId rs).

(** The action rows [prisma.action.create] adds for these rules. *)
Definition digestRows (rs : list Rule) : list ActionRow :=
  map (fun r => mkActionRow (ruleId r) DIGEST) rs.

Section Script.

(** [createCanonicalTimeOfDay] of utils/schedule, the calls that throw and
    the message of the error they throw. *)
Variable createCanonicalTimeOfDay : Z -> Z -> Date.
Variable throws : Call -> bool.
Variable messageOf : Call -> string.

(** The loop over the categories of [migrateUserDigestDefaults]. *)
Fixpoint categoryLoop (categories : list string) (user : User)
  (dryRun : bool) (db : DB) (rulesUpdated : list string)
  : Outcome (list string) :=
  match categories with
  | [] => Returned rulesUpdated db
  | categoryType :: rest =>
      match find (isCategory categoryType) (rules user) with
      | None => categoryLoop rest user dryRun db rulesUpdated
      | Some rule =>
          if hasDigest rule
          then categoryLoop rest user dryRun db rulesUpdated
          else if hasCustomActions rule
          then categoryLoop rest user dryRun db rulesUpdated
          else if dryRun
          then categoryLoop rest user dryRun db (rulesUpdated ++ [name rule])
          else if throws (ActionCreate (ruleId rule))
          then Thrown (messageOf (ActionCreate (ruleId rule))) db
          else categoryLoop rest user dryRun
                 (addAction db (ruleId rule) DIGEST)
                 (rulesUpdated ++ [name rule])
      end
  end.

Definition defaultSchedule (account : string) : ScheduleRow :=
  mkScheduleRow account 1 1 None (createCanonicalTimeOfDay 9 0) None None.

Definition migrateUserDigestDefaults (user : User) (dryRun : bool) (db : DB)
  : Outcome MigrationResult :=
  match categoryLoop ALL_DIGEST_CATEGORIES user dryRun db [] with
  | Thrown message db1 => Thrown message db1
  | Returned rulesUpdated db1 =>
      if dryRun
      then Returned
             (mkMigrationResult (id user) (email user) "success" rulesUpdated
                (Some false) None) db1
      else if throws (AccountUpdate (id user)) || negb (hasAccount db1 (id user))
      then Thrown (messageOf (AccountUpdate (id user))) db1
      else
        let db2 := setFlags db1 (id user) true in
        if throws (ScheduleFindFirst (id user))
        then Thrown (messageOf (ScheduleFindFirst (id user))) db2
        else
          match find (fun s => String.eqb (scheduleEmailAccountId s) (id user))
                  (scheduleRows db2) with
          | Some _ =>
              Returned
                (mkMigrationResult (id user) (email user) "success"
                   rulesUpdated (Some false) None) db2
          | None =>
              if throws (ScheduleCreate (id user))
              then Returned
                     (mkMigrationResult (id user) (email user) "success"
                        rulesUpdated (Some false) None) db2
              else Returned
                     (mkMigrationResult (id user) (email user) "success"
                        rulesUpdated (Some true) None)
                     (addSchedule db2 (defaultSchedule (id user)))
          end
  end.

(** The accounts [findMany] selects: those with a rule of one of the
    categories. *)
Definition hasCategoryRule (db : DB) (a : AccountRow) : bool :=
  existsb
    (fun r => existsb (fun c => isCategory c r) ALL_DIGEST_CATEGORIES)
    (includeRules db (accountId a)).

Record Tally : Type := mkTally {
  tallyDb : DB;
  tallyMigrated : Z;
  tallySkipped : Z;
  tallyErrors : Z;
  tallyResults : list MigrationResult
}.

Definition tallyStep (dryRun : bool) (t : Tally) (user : User) : Tally :=
  match migrateUserDigestDefaults user dryRun (tallyDb t) with
  | Returned result db' =>
      if String.eqb (status result) "success"
      then mkTally db' (tallyMigrated t + 1) (tallySkipped t) (tallyErrors t)
             (tallyResults t ++ [result])
      else if String.eqb (status result) "skipped"
      then mkTally db' (tallyMigrated t) (tallySkipped t + 1) (tallyErrors t)
             (tallyResults t ++ [result])
      else mkTally db' (tallyMigrated t) (tallySkipped t) (tallyErrors t + 1)
             (tallyResults t ++ [result])
  | Thrown message db' =>
      mkTally db' (tallyMigrated t) (tallySkipped t) (tallyErrors t + 1)
        (tallyResults t
         ++ [mkMigrationResult (id user) (email user) "error" [] None
               (Some message)])
  end.

(** [migrateUsersToDigestDefaults]; the users are read once, before the
    loop. *)
Definition migrateUsersToDigestDefaults (dryRun : bool) (db : DB)
  : Outcome Summary :=
  if throws AccountFindMany then Thrown (messageOf AccountFindMany) db
  else
    let users := map (userOf db) (filter (hasCategoryRule db) (accounts db)) in
    let t := fold_left (tallyStep dryRun) users (mkTally db 0 0 0 []) in
    Returned
      (mkSummary (Z.of_nat (List.length users)) (tallyMigrated t)
         (tallySkipped t) (tallyErrors t) (tallyResults t))
      (tallyDb t).

(** The loop over the categories of [rollbackUserMigration]. *)
Fixpoint rollbackLoop (categories : list string) (user : User) (db : DB)
  : Outcome unit :=
  match categories with
  | [] => Returned tt db
  | categoryType :: rest =>
      match find (isCategory categoryType) (rules user) with
      | None => rollbackLoop rest user db
      | Some rule =>
          if throws (ActionDeleteMany (ruleId rule))
          then Thrown (messageOf (ActionDeleteMany (ruleId rule))) db
          else rollbackLoop rest user (deleteDigestActions db (ruleId rule))
      end
  end.

Definition rollbackUserMigration (i : string) (db : DB) : Outcome unit :=
  if throws (AccountFindUnique i)
  then Thrown (messageOf (AccountFindUnique i)) db
  else
    match find (fun a => String.eqb (accountId a) i) (accounts db) with
    | None => Thrown "User not found" db
    | Some a =>
        match rollbackLoop ALL_DIGEST_CATEGORIES (userOf db a) db with
        | Thrown message db1 => Thrown message db1
        | Returned _ db1 =>
            if throws (AccountUpdate i)
            then Thrown (messageOf (AccountUpdate i)) db1
            else Returned tt (setFlags db1 i false)
        end
    end.

End Script.

(** A small database to run the script on: one account, three category
    rules (one of them with an action of the user's own) and a rule without
    category. *)
Definition exampleAccount : AccountRow :=
  mkAccountRow "acc1" "a@example.com" false false.

Definition exampleDb : DB :=
  mkDB [exampleAccount]
    [mkRuleRow "r1" "To Reply" (Some "TO_REPLY"%string) "acc1";
     mkRuleRow "r2" "Newsletter" (Some "NEWSLETTER"%string) "acc1";
     mkRuleRow "r3" "Marketing" (Some "MARKETING"%string) "acc1";
     mkRuleRow "r4" "Mine" None "acc1"]
    [mkActionRow "r1" "LABEL"; mkActionRow "r2" "ARCHIVE";
     mkActionRow "r3" "FORWARD"; mkActionRow "r4" "DIGEST"]
    [].

End DigestMigration.

(** ** [updateReplyTrackingAction] of the settings actions *)

Module ReplyTracking.

Definition LABEL : string := "LABEL".
Definition TRACK_THREAD : string := "TRACK_THREAD".

Record Account : Type := mkAccount {
  accountId : string;
  needsReplyLabelId : option string;
  awaitingReplyLabelId : option string;
  coldEmailLabelId : option string;
  outboundReplyTracking : bool
}.

Record Rule : Type := mkRule {
  ruleId : string;
  ruleEmailAccountId : string
}.

Record Action : Type := mkAction {
  actionRuleId : string;
  actionType : string;
  label : option string;
  labelId : option string
}.

Record DB : Type := mkDB {
  accounts : list Account;
  rules : list Rule;
  actions : list Action
}.

Definition optEqb (a : option string) (s : string) : bool :=
  match a with
  | Some x => String.eqb x s
  | None => false
  end.

(** [data: { outboundReplyTracking: enabled }] *)
Definition setTracking (enabled : bool) (a : Account) : Account :=
  mkAccount (accountId a) (needsReplyLabelId a) (awaitingReplyLabelId a)
    (coldEmailLabelId a) enabled.

(** [data: { needsReplyLabelId, awaitingReplyLabelId, coldEmailLabelId }] *)
Definition setLabelIds (needs awaiting cold : option string) (a : Account)
  : Account :=
  mkAccount (accountId a) needs awaiting cold (outboundReplyTracking a).

(** [data: { labelId, label: null }] *)
Definition relabel (l : string) (a : Action) : Action :=
  mkAction (actionRuleId a) (actionType a) None (Some l).

(** A label id that may be null or undefined, as a condition: the empty
    string is falsy too. *)
Definition truthyId (v : option string) : option string :=
  match v with
  | Some l => if String.eqb l EmptyString then None else Some l
  | None => None
  end.

Section Action.

(** [NEEDS_REPLY_LABEL_NAME] of utils/reply-tracker/consts, and whether the
    transaction fails. *)
Variable NEEDS_REPLY_LABEL_NAME : string.
Variable transactionThrows : bool.

(** [emailAccount?.needsReplyLabelId], truthy or not. *)
Definition needsReplyLabelOf (db : DB) (account : string) : option string :=
  match find (fun a => String.eqb (accountId a) account) (accounts db) with
  | Some a =>
      match needsReplyLabelId a with
      | Some l => if String.eqb l EmptyString then None else Some l
      | None => None
      end
  | None => None
  end.

(** The [some] condition on an action of the rule. *)
Definition isToReplyLabel (needs : option string) (a : Action) : bool :=
  String.eqb (actionType a) LABEL
  && ((match needs with
       | Some l => optEqb (labelId a) l
       | None => false
       end)
      || optEqb (label a) NEEDS_REPLY_LABEL_NAME).

Definition actionsOf (db : DB) (r : Rule) : list Action :=
  filter (fun a => String.eqb (actionRuleId a) (ruleId r)) (actions db).

Definition toReplyRules (db : DB) (account : string) : list Rule :=
  filter
    (fun r =>
       String.eqb (ruleEmailAccountId r) account
       && existsb (isToReplyLabel (needsReplyLabelOf db account))
            (actionsOf db r))
    (rules db).

Definition hasTrackThread (db : DB) (r : Rule) : bool :=
  existsb (fun a => String.eqb (actionType a) TRACK_THREAD) (actionsOf db r).

(** The three groups of writes of the transaction, in order. *)
Definition updateReplyTrackingAction (enabled : bool) (account : string)
  (db : DB) : option DB :=
  let toReply := toReplyRules db account in
  let rulesToAddTrackThread :=
    filter (fun r => enabled && negb (hasTrackThread db r)) toReply in
  let rulesToRemoveTrackThread :=
    filter (fun r => negb enabled && hasTrackThread db r) toReply in
  if transactionThrows
     || negb (existsb (fun a => String.eqb (accountId a) account)
                (accounts db))
  then None
  else
    let accounts' :=
      map (fun a => if String.eqb (accountId a) account
                    then setTracking enabled a else a) (accounts db) in
    let created :=
      map (fun r => mkAction (ruleId r) TRACK_THREAD None None)
        rulesToAddTrackThread in
    let actions' :=
      fold_left
        (fun acts r =>
           filter (fun a => negb (String.eqb (actionRuleId a) (ruleId r)
                                  && String.eqb (actionType a) TRACK_THREAD))
             acts)
        rulesToRemoveTrackThread (actions db ++ created) in
    Some (mkDB accounts' (rules db) actions').

End Action.

(** The Prisma calls of [updateSystemLabelsAction], which are not in a
    transaction: a call that throws leaves the writes made before it. *)
Inductive Call : Type :=
| AccountFindUnique
| AccountUpdate
| ActionUpdateMany.

Inductive Outcome : Type :=
| Returned (db : DB)
| Thrown (db : DB).

Section SystemLabels.
Variable NEEDS_REPLY_LABEL_NAME : string.
Variable throws : Call -> bool.

(** [rule: { emailAccountId }]: the action belongs to a rule of the
    account. *)
Definition ofAccount (db : DB) (account : string) (a : Action) : bool :=
  existsb (fun r => String.eqb (ruleId r) (actionRuleId a)
                    && String.eqb (ruleEmailAccountId r) account) (rules db).

(** [needsReplyLabelId], [awaitingReplyLabelId] and [coldEmailLabelId] are
    the parsed input, [None] for null and for undefined. *)
Definition updateSystemLabelsAction
  (needsReplyLabelId awaitingReplyLabelId coldEmailLabelId : option string)
  (account : string) (db : DB) : Outcome :=
  if throws AccountFindUnique then Thrown db
  else
    let oldNeedsReplyLabelId := needsReplyLabelOf db account in
    if throws AccountUpdate
       || negb (existsb (fun a => String.eqb (accountId a) account)
                  (accounts db))
    then Thrown db
    else
      let accounts' :=
        map (fun a => if String.eqb (accountId a) account
                      then setLabelIds needsReplyLabelId awaitingReplyLabelId
                             coldEmailLabelId a
                      else a) (accounts db) in
      let db1 := mkDB accounts' (rules db) (actions db) in
      match truthyId needsReplyLabelId with
      | None => Returned db1
      | Some l =>
          if throws ActionUpdateMany then Thrown db1
          else
            Returned
              (mkDB accounts' (rules db)
                 (map (fun a =>
                         if ofAccount db1 account a
                            && isToReplyLabel NEEDS_REPLY_LABEL_NAME
                                 oldNeedsReplyLabelId a
                         then relabel l a else a) (actions db)))
      end.

End SystemLabels.

End ReplyTracking.


(** * Properties *)

(** ** Date arithmetic *)

Module JSDateFacts.
Import JSDate.

Ltac unfold_time :=
  unfold snd, fst, HourFromTime, MinFromTime, SecFromTime, msFromTime, WeekDay,
    TimeWithinDay, Day, MakeDate, MakeTime, msPerDay, msPerHour, msPerMinute,
    msPerSecond in *.

Ltac solve_time := unfold_time; Z.div_mod_to_equations; lia.

Lemma Day_MakeDate (day time : Z) :
  0 <= time < msPerDay -> Day (MakeDate day time) = day.
Proof. intros H. solve_time. Qed.

Lemma TimeWithinDay_MakeDate (day time : Z) :
  0 <= time < msPerDay -> TimeWithinDay (MakeDate day time) = time.
Proof. intros H. solve_time. Qed.

Lemma MakeDate_Day (t : Z) : MakeDate (Day t) (TimeWithinDay t) = t.
Proof. solve_time. Qed.

Lemma HourFromTime_range (t : Z) : 0 <= HourFromTime t < 24.
Proof. solve_time. Qed.

Lemma MinFromTime_range (t : Z) : 0 <= MinFromTime t < 60.
Proof. solve_time. Qed.

Lemma MakeTime_range (h m : Z) :
  0 <= h < 24 -> 0 <= m < 60 -> 0 <= MakeTime h m 0 0 < msPerDay.
Proof. intros Hh Hm. unfold_time. lia. Qed.

Lemma HourFromTime_MakeDate (day h m : Z) :
  0 <= h < 24 -> 0 <= m < 60 ->
  HourFromTime (MakeDate day (MakeTime h m 0 0)) = h.
Proof. intros Hh Hm. solve_time. Qed.

Lemma MinFromTime_MakeDate (day h m : Z) :
  0 <= h < 24 -> 0 <= m < 60 ->
  MinFromTime (MakeDate day (MakeTime h m 0 0)) = m.
Proof. intros Hh Hm. solve_time. Qed.

Lemma SecFromTime_MakeDate (day h m : Z) :
  SecFromTime (MakeDate day (MakeTime h m 0 0)) = 0.
Proof. solve_time. Qed.

Lemma msFromTime_MakeDate (day h m : Z) :
  msFromTime (MakeDate day (MakeTime h m 0 0)) = 0.
Proof. solve_time. Qed.

Lemma WeekDay_range (t : Z) : 0 <= WeekDay t < 7.
Proof. solve_time. Qed.

Lemma Day_lt (a b : Z) : Day a < Day b -> a < b.
Proof. solve_time. Qed.

Lemma Day_le (a b : Z) : a <= b -> Day a <= Day b.
Proof. solve_time. Qed.

End JSDateFacts.

(** ** The canonical time of day *)

Module CanonicalFacts.
Import JSDate JSDateFacts.

Lemma createCanonicalTimeOfDay_value (hour24 minute : Z) :
  0 <= hour24 <= 23 -> 0 <= minute <= 59 ->
  MultipleSchedules.createCanonicalTimeOfDay hour24 minute
  = Some (MakeDate 0 (MakeTime hour24 minute 0 0)).
Proof.
  intros Hh Hm.
  unfold MultipleSchedules.createCanonicalTimeOfDay, setUTCHours, epoch.
  change (Day 0) with 0.
  unfold TimeClip.
  assert (Hr : 0 <= MakeTime hour24 minute 0 0 < msPerDay)
    by (apply MakeTime_range; lia).
  destruct (Z.leb_spec (Z.abs (MakeDate 0 (MakeTime hour24 minute 0 0)))
              8640000000000000) as [_ | Hbig]; [reflexivity | exfalso].
  unfold MakeDate, msPerDay in *. lia.
Qed.

(** C9: for [hour24] in 0..23 and [minute] in 0..59, both copies of
    [createCanonicalTimeOfDay] return the same valid date; its date
    component is 1970-01-01 (the month is counted from 0), its UTC hour and
    minute are [hour24] and [minute], its seconds and milliseconds are 0. *)
Theorem createCanonicalTimeOfDay_epoch_date (hour24 minute : Z) :
  0 <= hour24 <= 23 -> 0 <= minute <= 59 ->
  let d := MultipleSchedules.createCanonicalTimeOfDay hour24 minute in
  CstSchedules.createCanonicalTimeOfDay hour24 minute = d /\
  getUTCFullYear d = Some 1970 /\
  getUTCMonth d = Some 0 /\
  getUTCDate d = Some 1 /\
  getUTCHours d = Some hour24 /\
  getUTCMinutes d = Some minute /\
  getUTCSeconds d = Some 0 /\
  getUTCMilliseconds d = Some 0.
Proof.
  intros Hh Hm d. split; [reflexivity |].
  subst d. rewrite createCanonicalTimeOfDay_value by assumption.
  assert (Hr : 0 <= MakeTime hour24 minute 0 0 < msPerDay)
    by (apply MakeTime_range; lia).
  unfold getUTCFullYear, getUTCMonth, getUTCDate, getUTCHours, getUTCMinutes,
    getUTCSeconds, getUTCMilliseconds, option_map,
    YearFromTime, MonthFromTime, DateFromTime.
  rewrite (Day_MakeDate 0 _ Hr).
  rewrite HourFromTime_MakeDate, MinFromTime_MakeDate, SecFromTime_MakeDate,
    msFromTime_MakeDate by lia.
  repeat split; reflexivity.
Qed.

Lemma createCanonicalTimeOfDay_epoch_date_witness :
  let d := MultipleSchedules.createCanonicalTimeOfDay 17 30 in
  CstSchedules.createCanonicalTimeOfDay 17 30 = d /\
  JSDate.getUTCFullYear d = Some 1970 /\
  JSDate.getUTCMonth d = Some 0 /\
  JSDate.getUTCDate d = Some 1 /\
  JSDate.getUTCHours d = Some 17 /\
  JSDate.getUTCMinutes d = Some 30 /\
  JSDate.getUTCSeconds d = Some 0 /\
  JSDate.getUTCMilliseconds d = Some 0.
Proof. apply (createCanonicalTimeOfDay_epoch_date 17 30); lia. Defined.

Example canonical_9_00 :
  MultipleSchedules.createCanonicalTimeOfDay 9 0 = Some 32400000.
Proof. reflexivity. Qed.

Example civil_2025_10_24 : civilFromDay 20385 = (2025, 9, 24).
Proof. reflexivity. Qed.

End CanonicalFacts.

(** ** The weekday mask *)

Module MaskFacts.
Import JSDate JSDateFacts ReadUserSchedules ScheduleCalc.

Lemma In_push (x : string) (days : list string) (c : bool) (name : string) :
  In x (push days c name) <-> In x days \/ (c = true /\ x = name).
Proof.
  unfold push. destruct c.
  - rewrite in_app_iff. simpl. intuition congruence.
  - intuition congruence.
Qed.

Lemma truthy_bitand (mask i : Z) :
  0 <= i -> Z.testbit mask i = true -> truthy (bitand mask (2 ^ i)) = true.
Proof.
  intros Hi Hb. unfold truthy, bitand.
  destruct (Z.eqb_spec (Z.land mask (2 ^ i)) 0) as [E | _]; [| reflexivity].
  assert (Hbit : Z.testbit (Z.land mask (2 ^ i)) i = true).
  { rewrite Z.land_spec, Hb, Z.pow2_bits_true by assumption. reflexivity. }
  rewrite E, Z.bits_0 in Hbit. discriminate.
Qed.

Lemma weekday_cases (w : Z) :
  0 <= w < 7 -> w = 0 \/ w = 1 \/ w = 2 \/ w = 3 \/ w = 4 \/ w = 5 \/ w = 6.
Proof. lia. Qed.

(** A weekday whose bit is set is among the names the script decodes. *)
Lemma decodeDays_complete (mask w : Z) :
  0 <= w < 7 -> Z.testbit mask w = true ->
  In (dayName w) (decodeDays mask).
Proof.
  intros Hw Hb.
  assert (Ht : truthy (bitand mask (2 ^ w)) = true)
    by (apply truthy_bitand; [lia | assumption]).
  unfold decodeDays. rewrite !In_push.
  destruct (weekday_cases w Hw) as [E | [E | [E | [E | [E | [E | E]]]]]];
    subst w; change (2 ^ _) with 1 in Ht || idtac; cbn in Ht;
    unfold dayName; cbn; tauto.
Qed.

Lemma hasWeekdayBit_true (mask : Z) :
  hasWeekdayBit mask = true <->
  exists b, 0 <= b < 7 /\ Z.testbit mask b = true.
Proof.
  unfold hasWeekdayBit, weekdays. rewrite existsb_exists. split.
  - intros [b [Hin Hb]]. exists b. split; [| assumption].
    simpl in Hin. lia.
  - intros [b [Hr Hb]]. exists b. split; [| assumption].
    simpl. lia.
Qed.

Lemma only_monday (w : Z) : 0 <= w < 7 -> Z.testbit 2 w = true -> w = 1.
Proof.
  intros Hw Hb.
  destruct (weekday_cases w Hw) as [E | [E | [E | [E | [E | [E | E]]]]]];
    subst w; try reflexivity; discriminate.
Qed.

End MaskFacts.

(** ** The next-occurrence calculator *)

Module ScheduleFacts.
Import JSDate JSDateFacts ReadUserSchedules ScheduleCalc MaskFacts.

Lemma Day_addDays (t n : Z) : Day (addDays t n) = Day t + n.
Proof. unfold addDays. solve_time. Qed.

Lemma addDays_addDays (t n m : Z) : addDays (addDays t n) m = addDays t (n + m).
Proof. unfold addDays. lia. Qed.

Lemma addDays_0 (t : Z) : addDays t 0 = t.
Proof. unfold addDays. lia. Qed.

Lemma WeekDay_addDays (t n : Z) : WeekDay (addDays t n) = (WeekDay t + n) mod 7.
Proof.
  unfold WeekDay. rewrite Day_addDays.
  rewrite Zplus_mod_idemp_l. f_equal. lia.
Qed.

(** What the weekday search returns: an allowed day, at or after the start,
    fewer than [fuel] days later, at the same time of day. *)
Lemma advanceToAllowedDay_sound (fuel : nat) (mask : Z) :
  forall t r, advanceToAllowedDay fuel mask t = Some r ->
  weekdayAllowed mask r = true /\
  exists k, 0 <= k < Z.of_nat fuel /\ r = addDays t k.
Proof.
  induction fuel as [| fuel IH]; intros t r H; simpl in H; [discriminate |].
  destruct (weekdayAllowed mask t) eqn:E.
  - injection H as <-. split; [assumption |].
    exists 0. rewrite addDays_0. split; [lia | reflexivity].
  - destruct (IH _ _ H) as [Ha [k [Hk ->]]]. split; [assumption |].
    exists (1 + k). rewrite addDays_addDays. split; [lia | reflexivity].
Qed.

(** The search succeeds as soon as an allowed day lies within its reach. *)
Lemma advanceToAllowedDay_finds (fuel : nat) (mask : Z) :
  forall t k, 0 <= k < Z.of_nat fuel ->
  weekdayAllowed mask (addDays t k) = true ->
  exists r, advanceToAllowedDay fuel mask t = Some r.
Proof.
  induction fuel as [| fuel IH]; intros t k Hk Ha; [lia |].
  simpl. destruct (weekdayAllowed mask t) eqn:E; [eauto |].
  assert (k <> 0) by (intros ->; rewrite addDays_0 in Ha; congruence).
  apply (IH (addDays t 1) (k - 1)); [lia |].
  rewrite addDays_addDays. replace (1 + (k - 1)) with k by lia. assumption.
Qed.

(** Seven days are enough for a mask that has a weekday bit. *)
Lemma advanceToAllowedDay_week (mask t : Z) :
  hasWeekdayBit mask = true ->
  exists r, advanceToAllowedDay 7 mask t = Some r.
Proof.
  intros Hm. apply hasWeekdayBit_true in Hm. destruct Hm as [b [Hb Hbit]].
  apply (advanceToAllowedDay_finds 7 mask t ((b - WeekDay t) mod 7)).
  - pose proof (Z.mod_pos_bound (b - WeekDay t) 7). lia.
  - unfold weekdayAllowed. rewrite WeekDay_addDays.
    rewrite Zplus_mod_idemp_r.
    replace (WeekDay t + (b - WeekDay t)) with b by lia.
    rewrite Z.mod_small by lia. assumption.
Qed.

End ScheduleFacts.

Module NextOccurrence.
Import JSDate JSDateFacts ReadUserSchedules ScheduleCalc MaskFacts ScheduleFacts.

(** C2: a schedule with a positive interval whose mask has a weekday bit set
    gets a timestamp, and it falls on a UTC weekday whose bit is set (bit 0
    Sunday ... bit 6 Saturday), a day the script's decoding of the mask
    names; for the mask 0b0000010 it falls on a Monday. *)
Theorem calculateNext_on_allowed_weekday
  (pol : MaskPolicy) (s : Schedule) (now mask : Z) :
  0 < intervalDays s ->
  daysOfWeek s = Some mask ->
  hasWeekdayBit mask = true ->
  exists r, calculateNext pol s now = Some r /\
    Z.testbit mask (WeekDay r) = true /\
    In (dayName (WeekDay r)) (decodeDays mask) /\
    (mask = 2 -> WeekDay r = 1).
Proof.
  intros Hpos Hmask Hbit.
  unfold calculateNext.
  destruct (Z.leb_spec (intervalDays s) 0) as [| _]; [lia |].
  rewrite Hmask, Hbit.
  destruct (advanceToAllowedDay_week mask
              (rollForward s now (naiveAdvance s now)) Hbit) as [r Hr].
  exists r. split; [assumption |].
  apply advanceToAllowedDay_sound in Hr. destruct Hr as [Hallowed _].
  unfold weekdayAllowed in Hallowed.
  pose proof (WeekDay_range r) as Hw.
  split; [assumption | split].
  - apply decodeDays_complete; assumption.
  - intros ->. apply only_monday; assumption.
Qed.

Lemma calculateNext_on_allowed_weekday_witness :
  exists r,
    calculateNext FailOnEmptyMask
      (mkSchedule 1 (Some 2) 32400000 1 None) 1761307200000 = Some r /\
    Z.testbit 2 (WeekDay r) = true /\
    In (dayName (WeekDay r)) (decodeDays 2) /\
    (2 = 2 -> WeekDay r = 1).
Proof.
  apply (calculateNext_on_allowed_weekday FailOnEmptyMask
           (mkSchedule 1 (Some 2) 32400000 1 None) 1761307200000 2);
    reflexivity.
Defined.

(** C3: a record with [intervalDays <= 0] gets null. *)
Theorem calculateNext_nonpositive_interval
  (pol : MaskPolicy) (s : Schedule) (now : Z) :
  intervalDays s <= 0 -> calculateNext pol s now = None.
Proof.
  intros H. unfold calculateNext.
  destruct (Z.leb_spec (intervalDays s) 0); [reflexivity | lia].
Qed.

Lemma calculateNext_nonpositive_interval_witness :
  calculateNext EveryDayOnEmptyMask
    (mkSchedule 0 None 32400000 1 None) 1761307200000 = None.
Proof.
  apply (calculateNext_nonpositive_interval EveryDayOnEmptyMask
           (mkSchedule 0 None 32400000 1 None) 1761307200000).
  simpl. lia.
Defined.

(** *** The properties against one another

    Three remarks that hold of every calculator [f], not only of the model.
    Rolling forward by exactly one interval, or returning exactly seven days
    after [lastOccurrenceAt], cannot go together with a result that is
    always after [now]; and advancing from the current time by the interval
    before snapping cannot go together with "today at 09:00 UTC" for the
    daily schedule that was never sent.  Which of the sentences gives way is
    for [calculateNextScheduleDate] to say. *)

Lemma one_roll_excludes_strict_future (f : Schedule -> Z -> option Z) :
  (forall s now,
     0 < intervalDays s -> daysOfWeek s = None ->
     naiveAdvance s now <= now ->
     f s now = Some (addDays (naiveAdvance s now) (intervalDays s))) ->
  ~ (forall s now r, 0 < intervalDays s -> f s now = Some r -> now < r).
Proof.
  intros Hroll Hfuture.
  pose (s := mkSchedule 1 None 32400000 1 (Some 1756717200000)).
  assert (Hr : f s 1761307200000 = Some 1756890000000).
  { rewrite Hroll; [reflexivity | reflexivity | reflexivity |].
    vm_compute. discriminate. }
  specialize (Hfuture s 1761307200000 _ eq_refl Hr).
  vm_compute in Hfuture. discriminate.
Qed.

Lemma seven_days_excludes_strict_future (f : Schedule -> Z -> option Z) :
  (forall s now l,
     intervalDays s = 7 -> daysOfWeek s = None ->
     lastOccurrenceAt s = Some l ->
     f s now = Some (snapTimeOfDay (timeOfDay s) (addDays l 7))) ->
  ~ (forall s now r, 0 < intervalDays s -> f s now = Some r -> now < r).
Proof.
  intros Hweek Hfuture.
  pose (s := mkSchedule 7 None 32400000 1 (Some 1756717200000)).
  pose proof (Hweek s 1761307200000 1756717200000 eq_refl eq_refl eq_refl)
    as Hr.
  specialize (Hfuture s 1761307200000 _ eq_refl Hr).
  vm_compute in Hfuture. discriminate.
Qed.

Lemma advance_from_now_excludes_today (f : Schedule -> Z -> option Z) :
  (forall s now,
     0 < intervalDays s -> daysOfWeek s = None ->
     now < naiveAdvance s now ->
     f s now = Some (naiveAdvance s now)) ->
  ~ (forall now, f daily0900 now = Some (todayOrTomorrow0900 now)).
Proof.
  intros Hadvance Htoday.
  specialize (Htoday 1761292800000).
  rewrite Hadvance in Htoday;
    [| reflexivity | reflexivity | vm_compute; reflexivity].
  vm_compute in Htoday. discriminate.
Qed.

End NextOccurrence.

(** ** The digest cron dispatcher *)

Module DigestAllFacts.
Import DigestAll.

Lemma Set_has_In (s : list string) (x : string) :
  Set_has s x = true <-> In x s.
Proof.
  unfold Set_has. rewrite existsb_exists. split.
  - intros [y [Hin Heq]]. apply String.eqb_eq in Heq. subst y. assumption.
  - intros Hin. exists x. split; [assumption | apply String.eqb_refl].
Qed.

Lemma Set_add_NoDup (s : list string) (x : string) :
  NoDup s -> NoDup (Set_add s x).
Proof.
  intros Hs. unfold Set_add. destruct (Set_has s x) eqn:E; [assumption |].
  apply NoDup_app; [assumption | repeat constructor; intros [] |].
  intros a Ha [<- | []].
  apply Set_has_In in Ha. congruence.
Qed.

Lemma Set_add_In (s : list string) (x y : string) :
  In y (Set_add s x) <-> In y s \/ y = x.
Proof.
  unfold Set_add. destruct (Set_has s x) eqn:E.
  - apply Set_has_In in E. split; [auto | intros [H | ->]; assumption].
  - rewrite in_app_iff. simpl. intuition congruence.
Qed.

Lemma fold_Set_add_NoDup (l acc : list string) :
  NoDup acc -> NoDup (fold_left Set_add l acc).
Proof.
  revert acc. induction l as [| x l IH]; intros acc Hacc; simpl.
  - assumption.
  - apply IH, Set_add_NoDup, Hacc.
Qed.

Lemma fold_Set_add_In (l acc : list string) (y : string) :
  In y (fold_left Set_add l acc) <-> In y acc \/ In y l.
Proof.
  revert acc. induction l as [| x l IH]; intros acc; simpl.
  - tauto.
  - rewrite IH, Set_add_In. intuition congruence.
Qed.

(** A [Set] holds each of its elements once. *)
Lemma newSet_NoDup (l : list string) : NoDup (newSet l).
Proof. apply fold_Set_add_NoDup. constructor. Qed.

Lemma newSet_In (l : list string) (y : string) : In y (newSet l) <-> In y l.
Proof. unfold newSet. rewrite fold_Set_add_In. simpl. tauto. Qed.

Lemma mapThrowing_Some {A B : Type} (f : A -> option B) (g : A -> B)
  (l : list A) :
  (forall x, In x l -> f x = Some (g x)) ->
  mapThrowing f l = Some (map g l).
Proof.
  induction l as [| x l IH]; intros H; simpl.
  - reflexivity.
  - rewrite (H x) by (left; reflexivity).
    rewrite IH by (intros y Hy; apply H; right; assumption).
    reflexivity.
Qed.

Lemma find_account (eligibleSchedules : list ScheduleRow) (i : string) :
  In i (map (fun s => id (emailAccount s)) eligibleSchedules) ->
  exists schedule,
    find (fun s => String.eqb (id (emailAccount s)) i) eligibleSchedules
    = Some schedule.
Proof.
  intros Hin. apply in_map_iff in Hin. destruct Hin as [s [Hid Hs]].
  destruct (find (fun s => String.eqb (id (emailAccount s)) i)
              eligibleSchedules) as [schedule |] eqn:E; [eauto |].
  pose proof (find_none _ _ E s Hs) as Hf. simpl in Hf.
  rewrite Hid, String.eqb_refl in Hf. discriminate.
Qed.

(** [schedule!] never throws, and the accounts come out one per id of the
    set, in its order. *)
Lemma emailAccountsOf_ids (eligibleSchedules : list ScheduleRow) :
  exists emailAccounts,
    emailAccountsOf eligibleSchedules = Some emailAccounts /\
    map fst emailAccounts
    = newSet (map (fun s => id (emailAccount s)) eligibleSchedules).
Proof.
  unfold emailAccountsOf.
  set (ids := newSet (map (fun s => id (emailAccount s)) eligibleSchedules)).
  set (g := fun i : string =>
              (i, match find (fun s => String.eqb (id (emailAccount s)) i)
                          eligibleSchedules with
                  | Some schedule => email (emailAccount schedule)
                  | None => EmptyString
                  end)).
  exists (map g ids). split.
  - apply mapThrowing_Some. intros i Hi.
    unfold ids in Hi. apply (proj1 (newSet_In _ _)) in Hi.
    destruct (find_account _ _ Hi) as [sch E].
    unfold g. rewrite E. reflexivity.
  - rewrite map_map. unfold g. simpl. apply map_id.
Qed.

Section Loop.
Variable NEXT_PUBLIC_BASE_URL : string.
Variable qstashThrows : nat -> QueueMessage -> bool.

Lemma publishOne_requests (o : Outbox) (a : string * string) :
  map emailAccountId
    (requests (publishOne NEXT_PUBLIC_BASE_URL qstashThrows o a))
  = map emailAccountId (requests o) ++ [fst a].
Proof.
  unfold publishOne.
  destruct (qstashThrows _ _); simpl; rewrite map_app; reflexivity.
Qed.

(** The loop calls [publishToQstashQueue] once per account of the list. *)
Lemma publish_loop_requests (accounts : list (string * string)) (o : Outbox) :
  map emailAccountId
    (requests
       (fold_left (publishOne NEXT_PUBLIC_BASE_URL qstashThrows) accounts o))
  = map emailAccountId (requests o) ++ map fst accounts.
Proof.
  revert o. induction accounts as [| a accounts IH]; intros o; simpl.
  - rewrite app_nil_r. reflexivity.
  - rewrite IH, publishOne_requests, <- app_assoc. reflexivity.
Qed.

End Loop.

Lemma jobsFor_NoDup (i : string) (msgs : list QueueMessage) :
  NoDup (map emailAccountId msgs) -> (jobsFor i msgs <= 1)%nat.
Proof.
  unfold jobsFor. induction msgs as [| m msgs IH]; intros Hnd; simpl.
  - lia.
  - inversion Hnd as [| ? ? Hnotin Hnd']; subst.
    destruct (String.eqb_spec (emailAccountId m) i) as [E | _].
    + simpl. subst i.
      assert (Hnil : filter (fun m0 => String.eqb (emailAccountId m0)
                                         (emailAccountId m)) msgs = []).
      { destruct (filter _ msgs) as [| m' rest] eqn:F; [reflexivity |].
        exfalso. apply Hnotin.
        assert (Hin : In m' (filter (fun m0 => String.eqb (emailAccountId m0)
                                               (emailAccountId m)) msgs))
          by (rewrite F; left; reflexivity).
        apply filter_In in Hin. destruct Hin as [Hin Heq].
        apply String.eqb_eq in Heq. rewrite <- Heq.
        apply in_map. assumption. }
      rewrite Hnil. simpl. lia.
    + apply IH. assumption.
Qed.

Lemma filter_sub_length {A B : Type} (p : B -> bool) (q : A * B -> bool)
  (ps : list (A * B)) :
  (List.length (filter p (map snd (filter q ps)))
   <= List.length (filter p (map snd ps)))%nat.
Proof.
  induction ps as [| [a b] ps IH]; simpl; [lia |].
  destruct (q (a, b)); simpl; destruct (p b); simpl; lia.
Qed.

Lemma map_snd_combine_seq {B : Type} (l : list B) (start : nat) :
  map snd (combine (seq start (List.length l)) l) = l.
Proof.
  revert start. induction l as [| b l IH]; intros start; simpl.
  - reflexivity.
  - rewrite IH. reflexivity.
Qed.

(** The jobs that reached the queue are among the calls made. *)
Lemma jobsFor_published (qstashThrows : nat -> QueueMessage -> bool)
  (i : string) (o : Outbox) :
  (jobsFor i (publishedJobs qstashThrows o) <= jobsFor i (requests o))%nat.
Proof.
  unfold jobsFor, publishedJobs.
  etransitivity; [apply filter_sub_length |].
  rewrite map_snd_combine_seq. lia.
Qed.

(** C10: a run of [sendDigestAllUpdate] does not throw, and calls
    [publishToQstashQueue] once per id of the set of eligible accounts: no
    account id occurs twice among the calls, so for every account at most
    one call is made and at most one job is published, however many of its
    schedules are due. *)
Theorem sendDigestAllUpdate_one_job_per_account
  (subDays : Z -> Z -> Z) (NEXT_PUBLIC_BASE_URL : string)
  (qstashThrows : nat -> QueueMessage -> bool)
  (db : list ScheduleRow) (now : Z) :
  exists count o,
    sendDigestAllUpdate subDays NEXT_PUBLIC_BASE_URL qstashThrows db now
    = Some (count, o) /\
    map emailAccountId (requests o)
    = newSet (map (fun s => id (emailAccount s))
                (eligible subDays now (findManyDue db now))) /\
    NoDup (map emailAccountId (requests o)) /\
    forall i,
      (jobsFor i (requests o) <= 1)%nat /\
      (jobsFor i (publishedJobs qstashThrows o) <= 1)%nat.
Proof.
  unfold sendDigestAllUpdate.
  destruct (emailAccountsOf_ids (eligible subDays now (findManyDue db now)))
    as [accounts [E Hids]].
  rewrite E. eexists _, _. split; [reflexivity |].
  rewrite publish_loop_requests. simpl. rewrite Hids.
  split; [reflexivity |]. split; [apply newSet_NoDup |].
  intros i.
  assert (H1 : (jobsFor i
                  (requests
                     (fold_left
                        (publishOne NEXT_PUBLIC_BASE_URL qstashThrows)
                        accounts (mkOutbox [] []))) <= 1)%nat).
  { apply jobsFor_NoDup. rewrite publish_loop_requests. simpl.
    rewrite Hids. apply newSet_NoDup. }
  split; [exact H1 |].
  etransitivity; [apply jobsFor_published | exact H1].
Qed.

(** Two due schedules of one premium account, one of another: two calls. *)
Example two_schedules_one_job :
  let premiumUser := mkUser (Some (mkPremium None (Some "active"%string))) in
  let a := mkEmailAccount "acc1" "a@example.com" 0 premiumUser in
  let b := mkEmailAccount "acc2" "b@example.com" 0 premiumUser in
  let db := [mkScheduleRow (Some 1761296400000) a;
             mkScheduleRow (Some 1761300000000) b;
             mkScheduleRow (Some 1761303600000) a] in
  option_map
    (fun r => (fst r, map emailAccountId (requests (snd r))))
    (sendDigestAllUpdate (fun d n => d - n * 86400000) "https://example.com"
       (fun _ _ => false) db 1761307200000)
  = Some (2, ["acc1"; "acc2"]%string).
Proof. vm_compute. reflexivity. Qed.

End DigestAllFacts.

(** ** Hour conversions of the schedule scripts *)

Module TimeZoneFacts.
Import JSDate JSDateFacts JSValue.

Ltac solve_hours :=
  unfold MultipleSchedules.pstToUtc, CstSchedules.cstToUtcHour,
    CleanupPst.utcToCstHour, remainder in *;
  repeat match goal with
         | |- context [?a <=? ?b] => destruct (Z.leb_spec a b)
         | |- context [?a <? ?b] => destruct (Z.ltb_spec a b)
         end;
  Z.quot_rem_to_equations; lia.

(** For a PST hour 0..23, [pstToUtc] gives a UTC hour 0..23, and the
    formula the summary uses, [(hour - 8 + 24) % 24], gives the PST hour
    back. *)
Theorem pstToUtc_roundtrip (pstHour : Z) :
  0 <= pstHour <= 23 ->
  0 <= MultipleSchedules.pstToUtc pstHour <= 23 /\
  remainder (MultipleSchedules.pstToUtc pstHour - 8 + 24) 24 = pstHour.
Proof. intros H. split; solve_hours. Qed.

Lemma pstToUtc_roundtrip_witness :
  0 <= MultipleSchedules.pstToUtc 17 <= 23 /\
  remainder (MultipleSchedules.pstToUtc 17 - 8 + 24) 24 = 17.
Proof. apply (pstToUtc_roundtrip 17). lia. Defined.

(** On the hours 0..23, [cstToUtcHour] and [utcToCstHour] stay within
    0..23 and undo each other. *)
Theorem cst_utc_roundtrip (hour : Z) :
  0 <= hour <= 23 ->
  0 <= CstSchedules.cstToUtcHour hour <= 23 /\
  0 <= CleanupPst.utcToCstHour hour <= 23 /\
  CleanupPst.utcToCstHour (CstSchedules.cstToUtcHour hour) = hour /\
  CstSchedules.cstToUtcHour (CleanupPst.utcToCstHour hour) = hour.
Proof. intros H. repeat split; solve_hours. Qed.

Lemma cst_utc_roundtrip_witness :
  0 <= CstSchedules.cstToUtcHour 20 <= 23 /\
  0 <= CleanupPst.utcToCstHour 20 <= 23 /\
  CleanupPst.utcToCstHour (CstSchedules.cstToUtcHour 20) = 20 /\
  CstSchedules.cstToUtcHour (CleanupPst.utcToCstHour 20) = 20.
Proof. apply (cst_utc_roundtrip 20). lia. Defined.

(** On the hours 0..23 the two ways the scripts write each conversion
    agree: [cstToUtcHour] with [(cst + 6) % 24] of the cleanup's keep list,
    [utcToCstHour] with [(hour - 6 + 24) % 24] of the creation summary. *)
Theorem cst_formulas_agree (hour : Z) :
  0 <= hour <= 23 ->
  CstSchedules.cstToUtcHour hour = remainder (hour + 6) 24 /\
  CleanupPst.utcToCstHour hour = remainder (hour - 6 + 24) 24.
Proof. intros H. split; solve_hours. Qed.

Lemma cst_formulas_agree_witness :
  CstSchedules.cstToUtcHour 18 = remainder (18 + 6) 24 /\
  CleanupPst.utcToCstHour 3 = remainder (3 - 6 + 24) 24.
Proof.
  split; [apply (cst_formulas_agree 18) | apply (cst_formulas_agree 3)]; lia.
Defined.

(** Outside 0..23 the two CST conversions are not normalised: one
    subtraction or addition of 24 is all they do. *)
Lemma cstToUtcHour_unnormalised :
  CstSchedules.cstToUtcHour 42 = 24 /\ CleanupPst.utcToCstHour (-19) = -1.
Proof. split; reflexivity. Qed.

Lemma canonical_time_value (hour24 minute : Z) :
  0 <= hour24 <= 23 -> 0 <= minute <= 59 ->
  optUTCHours
    (Some (MultipleSchedules.createCanonicalTimeOfDay hour24 minute))
  = Some hour24 /\
  optUTCMinutes
    (Some (MultipleSchedules.createCanonicalTimeOfDay hour24 minute))
  = Some minute.
Proof.
  intros Hh Hm. unfold optUTCHours, optUTCMinutes.
  rewrite CanonicalFacts.createCanonicalTimeOfDay_value by assumption.
  unfold getUTCHours, getUTCMinutes, option_map.
  rewrite HourFromTime_MakeDate, MinFromTime_MakeDate by lia.
  split; reflexivity.
Qed.

Lemma orZero_Some (n : Z) : orZero (Some n) = n.
Proof. unfold orZero. destruct (Z.eqb_spec n 0); congruence. Qed.

(** The multi-schedule script reads back what it stored: for a PST hour
    0..23 and a minute 0..59, the summary of the stored time of day shows
    that PST hour and minute, beside the UTC hour [pstToUtc] gave. *)
Theorem pst_schedule_summary (hour minute : Z) :
  0 <= hour <= 23 -> 0 <= minute <= 59 ->
  MultipleSchedules.summaryLine
    (Some (MultipleSchedules.scheduleTimeOfDay hour minute))
  = (hour, minute, MultipleSchedules.pstToUtc hour).
Proof.
  intros Hh Hm.
  assert (Hr : 0 <= MultipleSchedules.pstToUtc hour <= 23) by solve_hours.
  assert (Hback :
    remainder (MultipleSchedules.pstToUtc hour - 8 + 24) 24 = hour)
    by solve_hours.
  unfold MultipleSchedules.summaryLine, MultipleSchedules.scheduleTimeOfDay.
  destruct (canonical_time_value (MultipleSchedules.pstToUtc hour) minute
              Hr Hm) as [-> ->].
  rewrite !orZero_Some, Hback. reflexivity.
Qed.

Lemma pst_schedule_summary_witness :
  MultipleSchedules.summaryLine
    (Some (MultipleSchedules.scheduleTimeOfDay 17 0))
  = (17, 0, MultipleSchedules.pstToUtc 17).
Proof. apply (pst_schedule_summary 17 0); lia. Defined.

(** The CST script reads back what it stored: for a CST hour 0..23 the
    summary of the stored time of day shows that hour, minute 0, and the UTC
    hour [cstToUtcHour] gave. *)
Theorem cst_schedule_summary (cstHour : Z) :
  0 <= cstHour <= 23 ->
  CstSchedules.summaryLine (Some (CstSchedules.scheduleTimeOfDay cstHour))
  = (cstHour, 0, CstSchedules.cstToUtcHour cstHour).
Proof.
  intros Hh.
  assert (Hr : 0 <= CstSchedules.cstToUtcHour cstHour <= 23) by solve_hours.
  assert (Hback :
    remainder (CstSchedules.cstToUtcHour cstHour - 6 + 24) 24 = cstHour)
    by solve_hours.
  unfold CstSchedules.summaryLine, CstSchedules.scheduleTimeOfDay.
  change (CstSchedules.createCanonicalTimeOfDay
            (CstSchedules.cstToUtcHour cstHour) 0)
    with (MultipleSchedules.createCanonicalTimeOfDay
            (CstSchedules.cstToUtcHour cstHour) 0).
  destruct (canonical_time_value (CstSchedules.cstToUtcHour cstHour) 0 Hr)
    as [-> ->]; [lia |].
  rewrite !orZero_Some, Hback. reflexivity.
Qed.

Lemma cst_schedule_summary_witness :
  CstSchedules.summaryLine (Some (CstSchedules.scheduleTimeOfDay 17))
  = (17, 0, CstSchedules.cstToUtcHour 17).
Proof. apply (cst_schedule_summary 17); lia. Defined.

End TimeZoneFacts.

(** ** The Schedule table *)

Module ScheduleTableFacts.
Import JSDate ScheduleTable.

Lemma hasId_true (i : string) (r : Row) : hasId i r = true <-> id r = i.
Proof. unfold hasId. apply String.eqb_eq. Qed.

Lemma hasId_self (r : Row) : hasId (id r) r = true.
Proof. apply hasId_true. reflexivity. Qed.

Lemma existsb_hasId (t : Table) (r : Row) :
  In r t -> existsb (hasId (id r)) t = true.
Proof.
  intros Hin. apply existsb_exists. exists r. split; [assumption |].
  apply hasId_self.
Qed.

(** Rows of a table with distinct ids are identified by their id. *)
Lemma same_id_same_row (t : Table) (a b : Row) :
  NoDup (map id t) -> In a t -> In b t -> id a = id b -> a = b.
Proof.
  induction t as [| x t IH]; intros Hnd Ha Hb Heq; [contradiction |].
  simpl in Hnd. inversion Hnd as [| ? ? Hnotin Hnd']; subst.
  destruct Ha as [-> | Ha], Hb as [-> | Hb].
  - reflexivity.
  - exfalso. apply Hnotin. rewrite Heq. apply in_map. assumption.
  - exfalso. apply Hnotin. rewrite <- Heq. apply in_map. assumption.
  - apply IH; assumption.
Qed.

(** Filtering the rows kept by a first test with a second one. *)
Lemma filter_twice (A : Type) (inner outer : A -> bool) :
  forall rows : list A,
  filter outer (filter inner rows)
  = filter (fun row => andb (inner row) (outer row)) rows.
Proof.
  intros rows. induction rows as [| row rows IH]; cbn [filter].
  - reflexivity.
  - case (inner row); cbn [filter andb]; rewrite <- IH; reflexivity.
Qed.

Lemma remove_In (t : Table) (i : string) (r : Row) :
  In r (remove t i) <-> In r t /\ id r <> i.
Proof.
  unfold remove. rewrite filter_In.
  destruct (String.eqb_spec (id r) i) as [E | E]; unfold hasId.
  - rewrite (proj2 (String.eqb_eq _ _) E). simpl. intuition congruence.
  - rewrite (proj2 (String.eqb_neq _ _) E). simpl. intuition congruence.
Qed.

Lemma delete_Some (throws : string -> bool) (t : Table) (r : Row) :
  In r t -> throws (id r) = false ->
  delete throws t (id r) = Some (remove t (id r)).
Proof.
  intros Hin Hth. unfold delete. rewrite existsb_hasId, Hth by assumption.
  reflexivity.
Qed.

Lemma delete_None (throws : string -> bool) (t : Table) (i : string) :
  throws i = true -> delete throws t i = None.
Proof.
  intros Hth. unfold delete. rewrite Hth, andb_false_r. reflexivity.
Qed.

Lemma updateDaily_Some (throws : string -> bool) (t : Table) (r : Row) :
  In r t -> throws (id r) = false ->
  updateDaily throws t (id r)
  = Some (map (fun x => if hasId (id r) x then setDaily x else x) t).
Proof.
  intros Hin Hth. unfold updateDaily.
  rewrite existsb_hasId, Hth by assumption. reflexivity.
Qed.

Lemma updateDaily_None (throws : string -> bool) (t : Table) (i : string) :
  throws i = true -> updateDaily throws t i = None.
Proof.
  intros Hth. unfold updateDaily. rewrite Hth, andb_false_r. reflexivity.
Qed.

End ScheduleTableFacts.

(** ** The cleanup script *)

Module CleanupPstFacts.
Import JSDate JSValue ScheduleTable ScheduleTableFacts CleanupPst.

Lemma filter_all {A : Type} (p : A -> bool) (l : list A) :
  (forall x, In x l -> p x = true) -> filter p l = l.
Proof.
  induction l as [| x l IH]; intros H; simpl; [reflexivity |].
  rewrite (H x) by (left; reflexivity).
  rewrite IH by (intros y Hy; apply H; right; assumption). reflexivity.
Qed.

(** Rows with distinct keys still have distinct keys when some are
    dropped. *)
Lemma distinct_keys_filter (A B : Type) (key : A -> B) (keep : A -> bool) :
  forall rows : list A,
  NoDup (map key rows) -> NoDup (map key (filter keep rows)).
Proof.
  intros rows. induction rows as [| row rows IH]; cbn [filter map].
  - intros _. constructor.
  - intros Hrows. apply NoDup_cons_iff in Hrows.
    destruct Hrows as [Hfresh Hrest]. specialize (IH Hrest).
    case (keep row); [| exact IH].
    cbn [map]. apply NoDup_cons_iff. split; [| exact IH].
    intros Hin. apply Hfresh. apply in_map_iff in Hin.
    destruct Hin as [other [Hkey Hother]]. apply filter_In in Hother.
    rewrite <- Hkey. apply in_map. apply Hother.
Qed.

Section Loop.
Variable deleteThrows : string -> bool.

(** One turn of the loop, on a row that is in the table. *)
Lemma cleanup_step_cases (st : Run) (s : Row) :
  In s (table st) ->
  step deleteThrows st s
  = mkRun
      (if negb (shouldKeep s) && negb (deleteThrows (id s))
       then remove (table st) (id s) else table st)
      (deletedCount st
       + (if negb (shouldKeep s) && negb (deleteThrows (id s))
          then 1 else 0))
      (keptCount st + (if shouldKeep s then 1 else 0)).
Proof.
  intros Hin. unfold step. destruct (shouldKeep s); simpl.
  - f_equal. lia.
  - destruct (deleteThrows (id s)) eqn:Hth; simpl.
    + rewrite delete_None by assumption. destruct st; simpl. f_equal; lia.
    + rewrite delete_Some by assumption. f_equal. lia.
Qed.

Lemma cleanup_loop (snap : list Row) :
  forall st,
  NoDup (map id snap) ->
  (forall s, In s snap -> In s (table st)) ->
  table (fold_left (step deleteThrows) snap st)
  = filter
      (fun r =>
         negb (existsb
                 (fun s => (negb (shouldKeep s) && negb (deleteThrows (id s)))
                           && hasId (id s) r) snap)) (table st) /\
  deletedCount (fold_left (step deleteThrows) snap st)
  = deletedCount st
    + Z.of_nat
        (List.length
           (filter (fun s => negb (shouldKeep s)
                             && negb (deleteThrows (id s))) snap)) /\
  keptCount (fold_left (step deleteThrows) snap st)
  = keptCount st + Z.of_nat (List.length (filter shouldKeep snap)).
Proof.
  induction snap as [| s snap IH]; intros st Hnd Hincl.
  - simpl. rewrite filter_all by reflexivity. repeat split; lia.
  - simpl in Hnd. inversion Hnd as [| ? ? Hnotin Hnd']; subst.
    cbn [fold_left]. rewrite cleanup_step_cases by (apply Hincl; left; reflexivity).
    match goal with
    | |- context [fold_left _ snap ?st'] =>
        destruct (IH st' Hnd') as [Ht [Hd Hk]]
    end.
    { intros x Hx. cbn [table].
      assert (Hxt : In x (table st)) by (apply Hincl; right; assumption).
      destruct (negb (shouldKeep s) && negb (deleteThrows (id s)));
        [| assumption].
      apply remove_In. split; [assumption |].
      intros E. apply Hnotin. rewrite <- E. apply in_map. assumption. }
    rewrite Ht, Hd, Hk. cbn [table deletedCount keptCount filter existsb].
    destruct (shouldKeep s), (deleteThrows (id s));
      cbn [negb andb orb List.length]; repeat split; try lia.
    unfold remove. rewrite filter_twice. apply filter_ext.
    intros r. rewrite negb_orb. reflexivity.
Qed.

End Loop.

(** With distinct row ids, a run of the cleanup removes exactly the
    schedules of the user whose UTC hour is not in the keep list and whose
    delete did not throw; every other row of the table, of this user or of
    another, stays as it was, and the two counters count the rows deleted
    and the rows of the user with a kept hour. *)
Theorem cleanupPSTSchedules_removes_exactly
  (deleteThrows : string -> bool) (uid : string) (t : Table) :
  NoDup (map id t) ->
  let mine := fun r => String.eqb (userId (emailAccount r)) uid in
  let gone := fun r =>
    mine r && (negb (shouldKeep r) && negb (deleteThrows (id r))) in
  let run := cleanupPSTSchedules deleteThrows (Some uid) t in
  table run = filter (fun r => negb (gone r)) t /\
  deletedCount run = Z.of_nat (List.length (filter gone t)) /\
  keptCount run
  = Z.of_nat (List.length (filter (fun r => mine r && shouldKeep r) t)).
Proof.
  intros Hnd mine gone run. subst run. unfold cleanupPSTSchedules.
  destruct (cleanup_loop deleteThrows (filter mine t) (mkRun t 0 0))
    as [Ht [Hd Hk]].
  - apply distinct_keys_filter. assumption.
  - intros s Hs. apply filter_In in Hs. tauto.
  - fold mine. rewrite Ht, Hd, Hk. cbn [table deletedCount keptCount].
    rewrite !filter_twice. repeat split.
    apply filter_ext_in. intros r Hr. f_equal. subst gone. cbn beta.
    destruct (existsb _ (filter mine t)) eqn:E.
    + apply existsb_exists in E. destruct E as [s [Hs Hp]].
      apply filter_In in Hs. destruct Hs as [Hs Hmine].
      apply andb_prop in Hp. destruct Hp as [Hdel Hid].
      apply hasId_true in Hid.
      assert (s = r) by (eapply same_id_same_row; eauto). subst s.
      rewrite Hmine, Hdel. reflexivity.
    + destruct (mine r) eqn:Hmine; [| reflexivity].
      destruct (negb (shouldKeep r) && negb (deleteThrows (id r))) eqn:Hdel;
        [| reflexivity].
      exfalso. apply Bool.not_true_iff_false in E. apply E.
      apply existsb_exists. exists r. split.
      * apply filter_In. auto.
      * rewrite Hdel, hasId_self. reflexivity.
Qed.

Lemma cleanupPSTSchedules_removes_exactly_witness :
  let acc := mkEmailAccount "acc1" "u1" "r@example.com" in
  let other := mkEmailAccount "acc2" "u2" "o@example.com" in
  let row := fun i a h =>
    mkRow i a (Some 1) (Some 1) None
      (Some (MultipleSchedules.createCanonicalTimeOfDay h 0)) None None in
  let t := [row "s1" acc 14; row "s2" acc 19; row "s3" other 19;
            row "s4" acc 16]%string in
  let run := cleanupPSTSchedules (fun i => String.eqb i "s4") (Some "u1"%string) t in
  map id (table run) = ["s1"; "s3"; "s4"]%string /\
  deletedCount run = 1 /\ keptCount run = 1.
Proof.
  pose (acc := mkEmailAccount "acc1" "u1" "r@example.com").
  pose (other := mkEmailAccount "acc2" "u2" "o@example.com").
  pose (row := fun i a h =>
    mkRow i a (Some 1) (Some 1) None
      (Some (MultipleSchedules.createCanonicalTimeOfDay h 0)) None None).
  pose (t := [row "s1" acc 14; row "s2" acc 19; row "s3" other 19;
              row "s4" acc 16]%string).
  assert (Hnd : NoDup (map id t)).
  { repeat constructor; simpl; intuition discriminate. }
  destruct (cleanupPSTSchedules_removes_exactly
              (fun i => String.eqb i "s4") "u1" t Hnd) as [Ht [Hd Hk]].
  cbv zeta. fold acc other row t. rewrite Ht, Hd, Hk.
  repeat split.
Defined.

(** What the keep list means for the other two scripts: a schedule the CST
    script creates (8, 12 or 17 CST) is kept, a schedule the PST script
    creates is not, and neither is a schedule without time of day, whose
    hour reads as 0. *)
Theorem shouldKeep_cst_not_pst :
  (forall r c, In c CstSchedules.cstTimes ->
     timeOfDay r = Some (CstSchedules.scheduleTimeOfDay c) ->
     shouldKeep r = true) /\
  (forall r h m, In (h, m) MultipleSchedules.pstTimes ->
     timeOfDay r = Some (MultipleSchedules.scheduleTimeOfDay h m) ->
     shouldKeep r = false) /\
  (forall r, timeOfDay r = None -> shouldKeep r = false).
Proof.
  repeat split.
  - intros r c Hc Ht. unfold shouldKeep. rewrite Ht.
    simpl in Hc. destruct Hc as [<- | [<- | [<- | []]]]; reflexivity.
  - intros r h m Hc Ht. unfold shouldKeep. rewrite Ht.
    simpl in Hc.
    destruct Hc as [E | [E | [E | [E | [E | []]]]]];
      injection E as <- <-; reflexivity.
  - intros r Ht. unfold shouldKeep. rewrite Ht. reflexivity.
Qed.

End CleanupPstFacts.

(** ** The script that makes every schedule daily *)

Module EnsureDailyFacts.
Import JSDate ScheduleTable ScheduleTableFacts EnsureDaily.

Lemma Permutation_filter {A : Type} (p : A -> bool) (l l' : list A) :
  Permutation l l' -> Permutation (filter p l) (filter p l').
Proof.
  induction 1 as [| x l l' _ IH | x y l | l l' l'' _ IH1 _ IH2]; simpl.
  - constructor.
  - destruct (p x); [constructor |]; assumption.
  - destruct (p x), (p y); try apply Permutation_refl. constructor.
  - eapply Permutation_trans; eassumption.
Qed.

Lemma isDaily_setDaily (r : Row) : isDaily (setDaily r) = true.
Proof. reflexivity. Qed.

Lemma setDaily_isDaily (r : Row) : isDaily r = true -> setDaily r = r.
Proof.
  unfold isDaily, setDaily. destruct r as [i a iv oc dw tod la nx]; simpl.
  destruct iv as [n |]; [| discriminate].
  destruct dw; [discriminate |].
  intros E. apply Z.eqb_eq in E. subst n. reflexivity.
Qed.

Lemma existsb_hasId_map (f : Row -> Row) (t : Table) (i : string) :
  (forall r, id (f r) = id r) ->
  existsb (hasId i) (map f t) = existsb (hasId i) t.
Proof.
  intros Hid. induction t as [| r t IH]; simpl; [reflexivity |].
  unfold hasId at 1 3. rewrite Hid, IH. reflexivity.
Qed.

Section Loop.
Variable updateThrows : string -> bool.

(** One turn of the loop, on a row whose id is in the table. *)
Lemma ensure_step_cases (st : Run) (s : Row) :
  existsb (hasId (id s)) (table st) = true ->
  step updateThrows st s
  = mkRun
      (if negb (isDaily s) && negb (updateThrows (id s))
       then map (fun x => if hasId (id s) x then setDaily x else x) (table st)
       else table st)
      (updatedCount st
       + (if negb (isDaily s) && negb (updateThrows (id s)) then 1 else 0))
      (alreadyDailyCount st + (if isDaily s then 1 else 0)).
Proof.
  intros Hex. unfold step, updateDaily. rewrite Hex.
  destruct (isDaily s); simpl.
  - f_equal. lia.
  - destruct (updateThrows (id s)); simpl.
    + destruct st; simpl. f_equal; lia.
    + f_equal. lia.
Qed.

Lemma ensure_loop (snap : list Row) :
  forall st,
  (forall s, In s snap -> existsb (hasId (id s)) (table st) = true) ->
  table (fold_left (step updateThrows) snap st)
  = map
      (fun r =>
         if existsb
              (fun s => (negb (isDaily s) && negb (updateThrows (id s)))
                        && hasId (id s) r) snap
         then setDaily r else r) (table st) /\
  updatedCount (fold_left (step updateThrows) snap st)
  = updatedCount st
    + Z.of_nat
        (List.length
           (filter (fun s => negb (isDaily s)
                             && negb (updateThrows (id s))) snap)) /\
  alreadyDailyCount (fold_left (step updateThrows) snap st)
  = alreadyDailyCount st + Z.of_nat (List.length (filter isDaily snap)).
Proof.
  induction snap as [| s snap IH]; intros st Hex.
  - simpl. rewrite map_id. repeat split; lia.
  - cbn [fold_left]. rewrite ensure_step_cases by (apply Hex; left; reflexivity).
    match goal with
    | |- context [fold_left _ snap ?st'] => destruct (IH st') as [Ht [Hu Ha]]
    end.
    { intros x Hx. cbn [table].
      assert (Hxt : existsb (hasId (id x)) (table st) = true)
        by (apply Hex; right; assumption).
      destruct (negb (isDaily s) && negb (updateThrows (id s)));
        [| assumption].
      rewrite existsb_hasId_map; [assumption |].
      intros r. destruct (hasId (id s) r); reflexivity. }
    rewrite Ht, Hu, Ha.
    cbn [table updatedCount alreadyDailyCount filter existsb].
    destruct (isDaily s), (updateThrows (id s));
      cbn [negb andb orb List.length]; repeat split; try lia.
    rewrite map_map. apply map_ext. intros r.
    destruct (hasId (id s) r) eqn:Hid.
    + assert (E : forall s', hasId (id s') (setDaily r) = hasId (id s') r)
        by reflexivity.
      destruct (existsb _ snap); reflexivity.
    + reflexivity.
Qed.

(** A snapshot whose rows are all daily leaves the table alone. *)
Lemma ensure_loop_daily (snap : list Row) :
  forall st,
  (forall s, In s snap -> isDaily s = true) ->
  fold_left (step updateThrows) snap st
  = mkRun (table st) (updatedCount st)
      (alreadyDailyCount st + Z.of_nat (List.length snap)).
Proof.
  induction snap as [| s snap IH]; intros st Hd.
  - destruct st; simpl. f_equal. lia.
  - cbn [fold_left]. unfold step at 2.
    rewrite (Hd s) by (left; reflexivity).
    rewrite IH by (intros x Hx; apply Hd; right; assumption).
    cbn [table updatedCount alreadyDailyCount List.length]. f_equal. lia.
Qed.

End Loop.

(** The table a run leaves, when the snapshot lists the rows of the table
    and the ids are distinct. *)
Lemma ensure_run_table
  (updateThrows : string -> bool) (allSchedules : list Row) (t : Table) :
  NoDup (map id t) ->
  Permutation allSchedules t ->
  table (ensureAllDigestsAreDaily updateThrows allSchedules t)
  = map (fun r => if negb (isDaily r) && negb (updateThrows (id r))
                  then setDaily r else r) t.
Proof.
  intros Hnd Hperm. unfold ensureAllDigestsAreDaily.
  set (changed := fun r => negb (isDaily r) && negb (updateThrows (id r))).
  destruct (ensure_loop updateThrows allSchedules (mkRun t 0 0))
    as [Ht _].
  { intros s Hs. cbn [table]. apply existsb_hasId.
    eapply Permutation_in; eassumption. }
  rewrite Ht. cbn [table].
  apply map_ext_in. intros r Hr.
  replace (existsb _ allSchedules) with (changed r); [reflexivity |].
  symmetry. destruct (existsb _ allSchedules) eqn:E.
  + apply existsb_exists in E. destruct E as [s [Hs Hp]].
    apply andb_prop in Hp. destruct Hp as [Hch Hid].
    apply hasId_true in Hid.
    assert (s = r).
    { eapply same_id_same_row; eauto.
      eapply Permutation_in; eassumption. }
    subst s. symmetry. exact Hch.
  + destruct (changed r) eqn:Hch; [| reflexivity].
    exfalso. apply Bool.not_true_iff_false in E. apply E.
    apply existsb_exists. exists r. split.
    * eapply Permutation_in; [apply Permutation_sym |]; eassumption.
    * fold (changed r). rewrite Hch, hasId_self. reflexivity.
Qed.

(** With distinct row ids and a snapshot that lists the rows of the table,
    a run turns into a daily schedule exactly the rows that were not daily
    and whose update did not throw, leaves the others as they were, and
    counts the rows updated and the rows already daily. *)
Theorem ensureAllDigestsAreDaily_result
  (updateThrows : string -> bool) (allSchedules : list Row) (t : Table) :
  NoDup (map id t) ->
  Permutation allSchedules t ->
  let changed := fun r => negb (isDaily r) && negb (updateThrows (id r)) in
  let run := ensureAllDigestsAreDaily updateThrows allSchedules t in
  table run = map (fun r => if changed r then setDaily r else r) t /\
  updatedCount run = Z.of_nat (List.length (filter changed t)) /\
  alreadyDailyCount run = Z.of_nat (List.length (filter isDaily t)).
Proof.
  intros Hnd Hperm changed run. subst run.
  split; [apply ensure_run_table; assumption |].
  unfold ensureAllDigestsAreDaily.
  destruct (ensure_loop updateThrows allSchedules (mkRun t 0 0))
    as [_ [Hu Ha]].
  { intros s Hs. cbn [table]. apply existsb_hasId.
    eapply Permutation_in; eassumption. }
  rewrite Hu, Ha. cbn [table updatedCount alreadyDailyCount].
  split.
  - rewrite Z.add_0_l. f_equal.
    apply Permutation_length, Permutation_filter. assumption.
  - rewrite Z.add_0_l. f_equal.
    apply Permutation_length, Permutation_filter. assumption.
Qed.

Lemma ensureAllDigestsAreDaily_result_witness :
  let acc := mkEmailAccount "acc1" "u1" "r@example.com" in
  let t := [mkRow "s1" acc (Some 7) (Some 1) (Some 2) None None (Some 5);
            mkRow "s2" acc (Some 1) (Some 1) None None None None;
            mkRow "s3" acc None (Some 1) None None None None]%string in
  let snap := [nth 1 t (mkRow EmptyString acc None None None None None None);
               nth 0 t (mkRow EmptyString acc None None None None None None);
               nth 2 t (mkRow EmptyString acc None None None None None None)] in
  let run :=
    ensureAllDigestsAreDaily (fun i => String.eqb i "s3") snap t in
  map intervalDays (table run) = [Some 1; Some 1; None] /\
  map daysOfWeek (table run) = [None; None; None] /\
  updatedCount run = 1 /\ alreadyDailyCount run = 1.
Proof.
  pose (acc := mkEmailAccount "acc1" "u1" "r@example.com").
  pose (t := [mkRow "s1" acc (Some 7) (Some 1) (Some 2) None None (Some 5);
              mkRow "s2" acc (Some 1) (Some 1) None None None None;
              mkRow "s3" acc None (Some 1) None None None None]%string).
  pose (d := mkRow EmptyString acc None None None None None None).
  assert (Hnd : NoDup (map id t)).
  { repeat constructor; simpl; intuition discriminate. }
  assert (Hperm : Permutation [nth 1 t d; nth 0 t d; nth 2 t d] t).
  { simpl. apply perm_swap. }
  destruct (ensureAllDigestsAreDaily_result
              (fun i => String.eqb i "s3")
              [nth 1 t d; nth 0 t d; nth 2 t d] t Hnd Hperm)
    as [Ht [Hu Ha]].
  cbv zeta. fold acc t d. rewrite Ht, Hu, Ha. repeat split.
Defined.

(** When no update throws, every row is daily after the run, and a second
    run, over any snapshot of the new table and whatever its updates do,
    updates nothing and leaves the table as it is. *)
Theorem ensureAllDigestsAreDaily_idempotent
  (updateThrows : string -> bool) (allSchedules snapshot2 : list Row)
  (t : Table) :
  NoDup (map id t) ->
  Permutation allSchedules t ->
  let run := ensureAllDigestsAreDaily (fun _ => false) allSchedules t in
  Permutation snapshot2 (table run) ->
  forallb isDaily (table run) = true /\
  ensureAllDigestsAreDaily updateThrows snapshot2 (table run)
  = mkRun (table run) 0 (Z.of_nat (List.length t)).
Proof.
  intros Hnd Hperm run Hperm2.
  pose proof (ensure_run_table (fun _ => false) allSchedules t Hnd Hperm)
    as Ht.
  fold run in Ht.
  assert (Hall : forall r, In r (table run) -> isDaily r = true).
  { intros r Hr. rewrite Ht in Hr. apply in_map_iff in Hr.
    destruct Hr as [x [<- _]]. cbn [negb andb].
    destruct (isDaily x) eqn:E; simpl; [assumption | reflexivity]. }
  split.
  - apply forallb_forall. assumption.
  - unfold ensureAllDigestsAreDaily at 1. rewrite ensure_loop_daily.
    + cbn [table updatedCount alreadyDailyCount]. f_equal.
      rewrite (Permutation_length Hperm2), Ht, length_map. reflexivity.
    + intros s Hs. apply Hall. eapply Permutation_in; eassumption.
Qed.

Lemma ensureAllDigestsAreDaily_idempotent_witness :
  let acc := mkEmailAccount "acc1" "u1" "r@example.com" in
  let t := [mkRow "s1" acc (Some 7) (Some 1) (Some 2) None None (Some 5);
            mkRow "s2" acc (Some 1) (Some 1) None None None None]%string in
  let run := ensureAllDigestsAreDaily (fun _ => false) t t in
  forallb isDaily (table run) = true /\
  ensureAllDigestsAreDaily (fun _ => true) (table run) (table run)
  = mkRun (table run) 0 (Z.of_nat (List.length t)).
Proof.
  pose (acc := mkEmailAccount "acc1" "u1" "r@example.com").
  pose (t := [mkRow "s1" acc (Some 7) (Some 1) (Some 2) None None (Some 5);
              mkRow "s2" acc (Some 1) (Some 1) None None None None]%string).
  assert (Hnd : NoDup (map id t)).
  { repeat constructor; simpl; intuition discriminate. }
  exact (ensureAllDigestsAreDaily_idempotent (fun _ => true) t
           (table (ensureAllDigestsAreDaily (fun _ => false) t t)) t Hnd
           (Permutation_refl t) (Permutation_refl _)).
Defined.


End EnsureDailyFacts.

(** ** Deleting a schedule through the API *)

Module DigestScheduleIdRouteFacts.
Import ScheduleTable ScheduleTableFacts DigestScheduleIdRoute.

(** A DELETE for an id that no schedule of the caller's email account has
    (no such row, or a row of another account) never succeeds and leaves
    the table as it is. *)
Theorem DELETE_foreign_schedule
  (findThrows deleteThrows : string -> bool)
  (t : Table) (authEmailAccountId i : string) :
  (forall r, In r t -> id r = i -> emailAccountId r <> authEmailAccountId) ->
  fst (DELETE findThrows deleteThrows t authEmailAccountId i) <> Success200 /\
  snd (DELETE findThrows deleteThrows t authEmailAccountId i) = t.
Proof.
  intros Hforeign. unfold DELETE.
  destruct (findThrows i); [split; [discriminate | reflexivity] |].
  destruct (findUnique t i) as [schedule |] eqn:E;
    [| split; [discriminate | reflexivity]].
  apply find_some in E. destruct E as [Hin Hid]. apply hasId_true in Hid.
  specialize (Hforeign schedule Hin Hid).
  apply String.eqb_neq in Hforeign. rewrite Hforeign. simpl.
  split; [discriminate | reflexivity].
Qed.

Lemma DELETE_foreign_schedule_witness :
  let a := mkEmailAccount "acc1" "u1" "a@example.com" in
  let t := [mkRow "s1" a (Some 1) (Some 1) None None None None]%string in
  fst (DELETE (fun _ => false) (fun _ => false) t "acc2" "s1") <> Success200 /\
  snd (DELETE (fun _ => false) (fun _ => false) t "acc2" "s1") = t.
Proof.
  apply (DELETE_foreign_schedule (fun _ => false) (fun _ => false)
           [mkRow "s1" (mkEmailAccount "acc1" "u1" "a@example.com")
              (Some 1) (Some 1) None None None None]%string "acc2" "s1").
  intros r [<- | []] _. simpl. discriminate.
Defined.

(** With distinct row ids, a DELETE that succeeds was for a schedule of the
    caller's own email account, and it removes that row and no other: every
    other row, of any account, is in the table afterwards. *)
Theorem DELETE_success_removes_one
  (findThrows deleteThrows : string -> bool)
  (t : Table) (authEmailAccountId i : string) :
  NoDup (map id t) ->
  fst (DELETE findThrows deleteThrows t authEmailAccountId i) = Success200 ->
  exists schedule,
    In schedule t /\ id schedule = i /\
    emailAccountId schedule = authEmailAccountId /\
    forall r,
      In r (snd (DELETE findThrows deleteThrows t authEmailAccountId i))
      <-> In r t /\ r <> schedule.
Proof.
  intros Hnd. unfold DELETE.
  destruct (findThrows i); [discriminate |].
  destruct (findUnique t i) as [schedule |] eqn:E; [| discriminate].
  apply find_some in E. destruct E as [Hin Hid]. apply hasId_true in Hid.
  destruct (String.eqb_spec (emailAccountId schedule) authEmailAccountId)
    as [Hown | _]; [| discriminate]. simpl.
  destruct (delete deleteThrows t i) as [t' |] eqn:D; [| discriminate].
  intros _. exists schedule. repeat split; try assumption.
  - simpl in H. unfold delete in D.
    destruct (existsb (hasId i) t && negb (deleteThrows i)); [| discriminate].
    injection D as <-. apply remove_In in H. tauto.
  - simpl in H. unfold delete in D.
    destruct (existsb (hasId i) t && negb (deleteThrows i)); [| discriminate].
    injection D as <-. apply remove_In in H. destruct H as [_ Hne].
    intros ->. contradiction.
  - intros [Hr Hne]. simpl. unfold delete in D.
    destruct (existsb (hasId i) t && negb (deleteThrows i)); [| discriminate].
    injection D as <-. apply remove_In. split; [assumption |].
    intros Hri. apply Hne.
    eapply same_id_same_row; eauto. congruence.
Qed.

Lemma DELETE_success_removes_one_witness :
  let a := mkEmailAccount "acc1" "u1" "a@example.com" in
  let b := mkEmailAccount "acc2" "u2" "b@example.com" in
  let t := [mkRow "s1" a (Some 1) (Some 1) None None None None;
            mkRow "s2" b (Some 1) (Some 1) None None None None]%string in
  exists schedule,
    In schedule t /\ id schedule = "s1"%string /\
    emailAccountId schedule = "acc1"%string /\
    forall r,
      In r (snd (DELETE (fun _ => false) (fun _ => false) t "acc1" "s1"))
      <-> In r t /\ r <> schedule.
Proof.
  apply (DELETE_success_removes_one (fun _ => false) (fun _ => false)
           [mkRow "s1" (mkEmailAccount "acc1" "u1" "a@example.com")
              (Some 1) (Some 1) None None None None;
            mkRow "s2" (mkEmailAccount "acc2" "u2" "b@example.com")
              (Some 1) (Some 1) None None None None]%string "acc1" "s1").
  - repeat constructor; simpl; intuition discriminate.
  - reflexivity.
Defined.

End DigestScheduleIdRouteFacts.

(** ** More on the digest cron dispatcher *)

Module DigestAllRun.
Import DigestAll DigestAllFacts.

Lemma combine_snoc {A B : Type} (l1 : list A) (l2 : list B) (a : A) (b : B) :
  List.length l1 = List.length l2 ->
  combine (l1 ++ [a]) (l2 ++ [b]) = combine l1 l2 ++ [(a, b)].
Proof.
  revert l2. induction l1 as [| x l1 IH]; intros [| y l2] Hlen;
    simpl in *; try discriminate; [reflexivity |].
  rewrite IH by lia. reflexivity.
Qed.

Section Run.
Variable subDays : Z -> Z -> Z.
Variable NEXT_PUBLIC_BASE_URL : string.
Variable qstashThrows : nat -> QueueMessage -> bool.

Lemma publishedJobs_snoc (reqs : list QueueMessage) (errs errs' : list string)
  (msg : QueueMessage) :
  publishedJobs qstashThrows (mkOutbox (reqs ++ [msg]) errs')
  = publishedJobs qstashThrows (mkOutbox reqs errs)
    ++ (if qstashThrows (List.length reqs) msg then [] else [msg]).
Proof.
  unfold publishedJobs. cbn [requests].
  rewrite length_app. cbn [List.length]. rewrite Nat.add_1_r, seq_S.
  rewrite combine_snoc by apply length_seq.
  rewrite filter_app, map_app. cbn [filter fst snd Nat.add].
  destruct (qstashThrows (List.length reqs) msg); reflexivity.
Qed.

(** One turn of the loop adds one call, and one published job or one
    logged error. *)
Lemma publishOne_balance (o : Outbox) (a : string * string) :
  let o' := publishOne NEXT_PUBLIC_BASE_URL qstashThrows o a in
  List.length (requests o') = S (List.length (requests o)) /\
  (List.length (publishedJobs qstashThrows o') + List.length (errorLog o')
   = S (List.length (publishedJobs qstashThrows o)
        + List.length (errorLog o)))%nat /\
  (forall e, In e (errorLog o') -> In e (errorLog o) \/ e = snd a).
Proof.
  destruct o as [reqs errs]. unfold publishOne. cbn [requests errorLog].
  destruct (qstashThrows (List.length reqs) _) eqn:E; cbn zeta.
  - rewrite (publishedJobs_snoc reqs errs), E.
    cbn [requests errorLog]. rewrite app_nil_r, !length_app.
    cbn [List.length]. repeat split; try lia.
    intros e He. apply in_app_or in He.
    destruct He as [He | [He | []]]; [left; assumption | right; auto].
  - rewrite (publishedJobs_snoc reqs errs), E.
    cbn [requests errorLog]. rewrite !length_app.
    cbn [List.length]. repeat split; try lia. auto.
Qed.

Lemma publish_loop_balance (accounts : list (string * string)) :
  forall o,
  let o' :=
    fold_left (publishOne NEXT_PUBLIC_BASE_URL qstashThrows) accounts o in
  (List.length (requests o')
   = List.length (requests o) + List.length accounts)%nat /\
  (List.length (publishedJobs qstashThrows o') + List.length (errorLog o')
   = List.length (publishedJobs qstashThrows o) + List.length (errorLog o)
     + List.length accounts)%nat /\
  (forall e, In e (errorLog o') ->
     In e (errorLog o) \/ In e (map snd accounts)).
Proof.
  induction accounts as [| a accounts IH]; intros o.
  - simpl. repeat split; try lia. auto.
  - cbn [fold_left]. cbn zeta.
    destruct (IH (publishOne NEXT_PUBLIC_BASE_URL qstashThrows o a))
      as [Hr [Hb He]].
    destruct (publishOne_balance o a) as [Hr1 [Hb1 He1]].
    cbn zeta in *. rewrite Hr, Hb, Hr1, Hb1. cbn [List.length map].
    repeat split; try lia.
    intros e Hin. destruct (He e Hin) as [H | H];
      [| right; right; exact H].
    destruct (He1 e H) as [H1 | H1];
      [left; exact H1 | right; left; symmetry; exact H1].
Qed.

Lemma publish_loop_messages (accounts : list (string * string)) :
  forall o,
  requests (fold_left (publishOne NEXT_PUBLIC_BASE_URL qstashThrows)
              accounts o)
  = requests o
    ++ map (fun a => mkQueueMessage "email-digest-all" 3
                       (NEXT_PUBLIC_BASE_URL ++ "/api/resend/digest") (fst a))
         accounts.
Proof.
  induction accounts as [| a accounts IH]; intros o; simpl.
  - rewrite app_nil_r. reflexivity.
  - rewrite IH. unfold publishOne.
    destruct (qstashThrows _ _); cbn [requests]; rewrite <- app_assoc;
      reflexivity.
Qed.

(** Every job that reached the queue is one of the calls made, and when no
    call throws they all are. *)
Lemma publishedJobs_requests (o : Outbox) :
  (forall m, In m (publishedJobs qstashThrows o) -> In m (requests o)) /\
  ((forall n m, qstashThrows n m = false) ->
   publishedJobs qstashThrows o = requests o).
Proof.
  unfold publishedJobs. split.
  - intros m Hm. apply in_map_iff in Hm. destruct Hm as [[n m'] [Hs Hin]].
    cbn [snd] in Hs. subst m'. apply filter_In in Hin.
    destruct Hin as [Hin _]. eapply in_combine_r. exact Hin.
  - intros Hnone. rewrite CleanupPstFacts.filter_all.
    + apply map_snd_combine_seq.
    + intros [n m] _. cbn [fst snd]. rewrite Hnone. reflexivity.
Qed.

(** In a run that returns, a publish call is made for exactly the accounts
    with a schedule that is due (a non-null [nextOccurrenceAt] not after
    [now]), whose user is premium and whose account was created before
    [subDays(now, 1)]; an account without a due schedule, not premium or too
    recent gets none.  The jobs that reach the queue are among these calls,
    and are all of them when no call throws. *)
Theorem sendDigestAllUpdate_who_gets_a_call
  (db : list ScheduleRow) (now count : Z) (o : Outbox) :
  sendDigestAllUpdate subDays NEXT_PUBLIC_BASE_URL qstashThrows db now
  = Some (count, o) ->
  (forall i,
     In i (map emailAccountId (requests o)) <->
     exists s t,
       In s db /\ id (emailAccount s) = i /\
       nextOccurrenceAt s = Some t /\ t <= now /\
       isPremium now (emailAccount s) = true /\
       createdAt (emailAccount s) < subDays now 1) /\
  (forall m, In m (publishedJobs qstashThrows o) -> In m (requests o)) /\
  ((forall n m, qstashThrows n m = false) ->
   publishedJobs qstashThrows o = requests o).
Proof.
  unfold sendDigestAllUpdate.
  destruct (emailAccountsOf_ids (eligible subDays now (findManyDue db now)))
    as [accounts [E Hids]].
  rewrite E. intros H. injection H as _ <-.
  split; [| apply publishedJobs_requests].
  intros i. rewrite publish_loop_requests. simpl. rewrite Hids, newSet_In.
  rewrite in_map_iff. unfold eligible, findManyDue. split.
  - intros [s [Hid Hs]]. apply filter_In in Hs. destruct Hs as [Hs Hel].
    apply filter_In in Hs. destruct Hs as [Hs Hdue].
    destruct (nextOccurrenceAt s) as [t |] eqn:Hn; [| discriminate].
    apply andb_prop in Hel. destruct Hel as [Hp Ho].
    exists s, t. unfold isOldEnough in Ho.
    repeat split; try assumption; lia.
  - intros [s [t [Hs [Hid [Hn [Hdue [Hp Ho]]]]]]].
    exists s. split; [assumption |].
    apply filter_In. split.
    + apply filter_In. split; [assumption |]. rewrite Hn. lia.
    + rewrite Hp. unfold isOldEnough. simpl. lia.
Qed.

(** The count a run returns is the number of calls it made; every call is
    for the queue "email-digest-all" with parallelism 3 and the digest URL of
    the deployment; a call that throws does not stop the loop, and each
    call ends either as a published job or as one logged error, the logged
    email being the email of an eligible schedule. *)
Theorem sendDigestAllUpdate_count_and_errors
  (db : list ScheduleRow) (now : Z) :
  exists count o,
    sendDigestAllUpdate subDays NEXT_PUBLIC_BASE_URL qstashThrows db now
    = Some (count, o) /\
    count = Z.of_nat (List.length (requests o)) /\
    count = Z.of_nat (List.length (publishedJobs qstashThrows o))
            + Z.of_nat (List.length (errorLog o)) /\
    (forall m, In m (requests o) ->
       queueName m = "email-digest-all"%string /\ parallelism m = 3 /\
       url m = (NEXT_PUBLIC_BASE_URL ++ "/api/resend/digest")%string) /\
    (forall e, In e (errorLog o) ->
       exists s, In s (eligible subDays now (findManyDue db now)) /\
                 email (emailAccount s) = e).
Proof.
  unfold sendDigestAllUpdate.
  destruct (emailAccountsOf (eligible subDays now (findManyDue db now)))
    as [accounts |] eqn:E.
  2: { destruct (emailAccountsOf_ids
                   (eligible subDays now (findManyDue db now)))
         as [accounts [E' _]]. congruence. }
  eexists _, _. split; [reflexivity |].
  destruct (publish_loop_balance accounts (mkOutbox [] []))
    as [Hr [Hb He]].
  cbn zeta in *. cbn [requests errorLog List.length Nat.add] in *.
  change (List.length (publishedJobs qstashThrows (mkOutbox [] [])))
    with 0%nat in Hb.
  repeat split.
  - rewrite Hr. reflexivity.
  - lia.
  - rewrite publish_loop_messages in H. simpl in H.
    apply in_map_iff in H. destruct H as [a [<- _]]. reflexivity.
  - rewrite publish_loop_messages in H. simpl in H.
    apply in_map_iff in H. destruct H as [a [<- _]]. reflexivity.
  - rewrite publish_loop_messages in H. simpl in H.
    apply in_map_iff in H. destruct H as [a [<- _]]. reflexivity.
  - intros e Hin. destruct (He e Hin) as [[] | Hacc].
    apply in_map_iff in Hacc. destruct Hacc as [[i e'] [He' Ha]].
    simpl in He'. subst e'.
    clear - E Ha. unfold emailAccountsOf in E.
    revert accounts E Ha.
    generalize (newSet (map (fun s => id (emailAccount s))
                          (eligible subDays now (findManyDue db now)))).
    induction l as [| x l IH]; intros accounts E Ha; simpl in E.
    + injection E as <-. contradiction.
    + destruct (find _ _) as [schedule |] eqn:F; [| discriminate].
      destruct (mapThrowing _ l) as [ys |] eqn:M; [| discriminate].
      injection E as <-. destruct Ha as [Ha | Ha].
      * injection Ha as <- <-. apply find_some in F.
        exists schedule. tauto.
      * eapply IH; [reflexivity | eassumption].
Qed.

End Run.

Lemma sendDigestAllUpdate_who_gets_a_call_witness :
  let premiumUser := mkUser (Some (mkPremium None (Some "active"%string))) in
  let plainUser := mkUser None in
  let a := mkEmailAccount "acc1" "a@example.com" 0 premiumUser in
  let b := mkEmailAccount "acc2" "b@example.com" 0 plainUser in
  let db := [mkScheduleRow (Some 1761296400000) a;
             mkScheduleRow (Some 1761300000000) b;
             mkScheduleRow None a] in
  let throwing := fun (n : nat) (_ : QueueMessage) => Nat.eqb n 0 in
  exists count o,
    sendDigestAllUpdate (fun d n => d - n * 86400000) "https://example.com"
      throwing db 1761307200000 = Some (count, o) /\
    In "acc1"%string (map emailAccountId (requests o)) /\
    ~ In "acc2"%string (map emailAccountId (requests o)) /\
    publishedJobs throwing o = [].
Proof.
  cbv zeta. eexists _, _. split; [vm_compute; reflexivity |].
  match goal with
  | |- In _ (map _ (requests ?o)) /\ _ =>
      destruct (sendDigestAllUpdate_who_gets_a_call
                  (fun d n => d - n * 86400000) "https://example.com"
                  (fun (n : nat) (_ : QueueMessage) => Nat.eqb n 0)
                  [mkScheduleRow (Some 1761296400000)
                     (mkEmailAccount "acc1" "a@example.com" 0
                        (mkUser (Some (mkPremium None
                                         (Some "active"%string)))));
                   mkScheduleRow (Some 1761300000000)
                     (mkEmailAccount "acc2" "b@example.com" 0 (mkUser None));
                   mkScheduleRow None
                     (mkEmailAccount "acc1" "a@example.com" 0
                        (mkUser (Some (mkPremium None
                                         (Some "active"%string)))))]
                  1761307200000 1 o) as [Hcalls _];
        [vm_compute; reflexivity |]
  end.
  split; [| split; [| reflexivity]].
  - apply Hcalls. eexists _, _. split; [left; reflexivity |].
    repeat split; vm_compute; congruence.
  - intros Hin. apply Hcalls in Hin.
    destruct Hin as [s [t [Hs [Hid [_ [_ [Hp _]]]]]]].
    destruct Hs as [<- | [<- | [<- | []]]]; vm_compute in Hid, Hp;
      discriminate.
Defined.

End DigestAllRun.

(** ** Decoding the weekday mask *)

Module DecodeDaysFacts.
Import ReadUserSchedules.

Lemma truthy_land_pow2 (mask i : Z) :
  0 <= i -> truthy (bitand mask (2 ^ i)) = Z.testbit mask i.
Proof.
  intros Hi. unfold truthy, bitand. destruct (Z.testbit mask i) eqn:Hb.
  - destruct (Z.eqb_spec (Z.land mask (2 ^ i)) 0) as [E | _]; [| reflexivity].
    assert (Hbit : Z.testbit (Z.land mask (2 ^ i)) i = true).
    { rewrite Z.land_spec, Hb, Z.pow2_bits_true by assumption. reflexivity. }
    rewrite E, Z.bits_0 in Hbit. discriminate.
  - replace (Z.land mask (2 ^ i)) with 0; [reflexivity |].
    symmetry. apply Z.bits_inj'. intros n Hn.
    rewrite Z.land_spec, Z.bits_0, Z.pow2_bits_eqb by assumption.
    destruct (Z.eqb_spec i n) as [<- | _].
    + rewrite Hb. reflexivity.
    + apply andb_false_r.
Qed.

Lemma decodeDays_filter (mask : Z) :
  decodeDays mask
  = map dayName (filter (Z.testbit mask) [0; 1; 2; 3; 4; 5; 6]).
Proof.
  pose proof (truthy_land_pow2 mask 0 ltac:(lia)) as H0.
  pose proof (truthy_land_pow2 mask 1 ltac:(lia)) as H1.
  pose proof (truthy_land_pow2 mask 2 ltac:(lia)) as H2.
  pose proof (truthy_land_pow2 mask 3 ltac:(lia)) as H3.
  pose proof (truthy_land_pow2 mask 4 ltac:(lia)) as H4.
  pose proof (truthy_land_pow2 mask 5 ltac:(lia)) as H5.
  pose proof (truthy_land_pow2 mask 6 ltac:(lia)) as H6.
  change (2 ^ 0) with 1 in H0. change (2 ^ 1) with 2 in H1.
  change (2 ^ 2) with 4 in H2. change (2 ^ 3) with 8 in H3.
  change (2 ^ 4) with 16 in H4. change (2 ^ 5) with 32 in H5.
  change (2 ^ 6) with 64 in H6.
  unfold decodeDays. rewrite H0, H1, H2, H3, H4, H5, H6.
  cbn [filter].
  destruct (Z.testbit mask 0), (Z.testbit mask 1), (Z.testbit mask 2),
    (Z.testbit mask 3), (Z.testbit mask 4), (Z.testbit mask 5),
    (Z.testbit mask 6); reflexivity.
Qed.

(** The seven low bits of a mask are all clear exactly when
    [mask & 127] is 0. *)
Lemma low_bits_clear (mask : Z) :
  (Z.land mask 127 =? 0) = negb (existsb (Z.testbit mask) [0; 1; 2; 3; 4; 5; 6]).
Proof.
  destruct (existsb _ _) eqn:E; cbn [negb].
  - apply Z.eqb_neq. intros H0.
    apply existsb_exists in E. destruct E as [b [Hin Hb]].
    assert (Hbit : Z.testbit (Z.land mask 127) b = true).
    { rewrite Z.land_spec, Hb. cbn [andb].
      simpl in Hin.
      destruct Hin as [<- | [<- | [<- | [<- | [<- | [<- | [<- | []]]]]]]];
        reflexivity. }
    rewrite H0, Z.bits_0 in Hbit. discriminate.
  - apply Z.eqb_eq. apply Z.bits_inj'. intros n Hn.
    rewrite Z.land_spec, Z.bits_0.
    destruct (Z_lt_le_dec n 7) as [Hlt | Hge].
    + assert (Hclear : Z.testbit mask n = false).
      { destruct (Z.testbit mask n) eqn:Eb; [exfalso | reflexivity].
        apply Bool.not_true_iff_false in E. apply E.
        apply existsb_exists. exists n. split; [simpl; lia | assumption]. }
      rewrite Hclear. reflexivity.
    + rewrite (Z.bits_above_log2 127 n) by (cbn; lia).
      apply andb_false_r.
Qed.

Lemma existsb_filter_nil {A : Type} (p : A -> bool) (l : list A) :
  existsb p l = false -> filter p l = [].
Proof.
  induction l as [| x l IH]; cbn [existsb filter]; [reflexivity |].
  destruct (p x); [discriminate | exact IH].
Qed.

Lemma existsb_filter_cons {A : Type} (p : A -> bool) (l : list A) :
  existsb p l = true -> exists x rest, filter p l = x :: rest.
Proof.
  induction l as [| x l IH]; cbn [existsb filter]; [discriminate |].
  destruct (p x); [eauto | exact IH].
Qed.

(** [decodeDays] lists the names of the weekdays whose bit is set, each
    once, from Sunday to Saturday; bits above the seventh play no part:
    masks that agree on the seven low bits decode alike. *)
Theorem decodeDays_names (mask : Z) :
  decodeDays mask
  = map dayName (filter (Z.testbit mask) [0; 1; 2; 3; 4; 5; 6]) /\
  decodeDays (Z.land mask 127) = decodeDays mask.
Proof.
  split; [apply decodeDays_filter |].
  rewrite !decodeDays_filter. f_equal.
  apply filter_ext_in. intros b Hb. rewrite Z.land_spec.
  simpl in Hb.
  destruct Hb as [<- | [<- | [<- | [<- | [<- | [<- | [<- | []]]]]]]];
    apply andb_true_r.
Qed.

(** The description of a schedule's days: "Every day" for a null mask and
    for a mask without weekday bit (0, or 128), otherwise the names of the
    set weekdays joined by a comma and a space. *)
Theorem daysDescription_cases (daysOfWeek : option Z) :
  daysDescription daysOfWeek =
  match daysOfWeek with
  | None => "Every day"%string
  | Some mask =>
      if Z.land mask 127 =? 0
      then "Every day"%string
      else String.concat ", "
             (map dayName (filter (Z.testbit mask) [0; 1; 2; 3; 4; 5; 6]))
  end.
Proof.
  destruct daysOfWeek as [mask |]; [| reflexivity].
  unfold daysDescription. rewrite decodeDays_filter, low_bits_clear.
  destruct (existsb (Z.testbit mask) [0; 1; 2; 3; 4; 5; 6]) eqn:Hbit;
    cbn [negb].
  - assert (Hm : truthy mask = true).
    { unfold truthy. destruct (Z.eqb_spec mask 0) as [-> | _];
        [discriminate | reflexivity]. }
    rewrite Hm.
    destruct (existsb_filter_cons _ _ Hbit) as [x [rest ->]]. reflexivity.
  - rewrite (existsb_filter_nil _ _ Hbit). destruct (truthy mask); reflexivity.
Qed.

Example daysDescription_weekend :
  daysDescription (Some 65) = "Sunday, Saturday"%string.
Proof. reflexivity. Qed.

End DecodeDaysFacts.

(** ** Creating a schedule through the API *)

Module DigestScheduleRouteFacts.
Import JSDate DigestScheduleRoute.

Lemma zPositiveIntOptional_Some (v : JSON) (r : option Z) :
  zPositiveIntOptional v = Some r ->
  (v = JUndefined /\ r = None) \/ (exists n, v = JInteger n /\ r = Some n /\ 0 < n).
Proof.
  destruct v as [| | n | | s |]; simpl; try discriminate.
  - intros E. injection E as <-. auto.
  - destruct (Z.ltb_spec 0 n); [| discriminate].
    intros E. injection E as <-. right. eauto.
Qed.

Lemma orOne_positive (v : JSON) (r : option Z) :
  zPositiveIntOptional v = Some r -> 1 <= orOne r.
Proof.
  intros H. apply zPositiveIntOptional_Some in H.
  destruct H as [[_ ->] | [n [_ [-> Hn]]]]; simpl; [lia |].
  destruct (Z.eqb_spec n 0); lia.
Qed.

(** Every schedule the POST handler creates belongs to the caller's email
    account and is well formed: [intervalDays] and [occurrences] are at
    least 1 (1 when the body leaves them out, the body's value otherwise),
    [daysOfWeek] is absent, null or within 0..127, and [timeOfDay] is the
    date of the body's string. *)
Theorem POST_creates_valid_schedule
  (newDate : string -> Date) (createThrows : CreateData -> bool)
  (authEmailAccountId : string) (body : Body) (data : CreateData) :
  In data (snd (POST newDate createThrows authEmailAccountId body)) ->
  POST newDate createThrows authEmailAccountId body = (Created data, [data]) /\
  emailAccountId data = authEmailAccountId /\
  1 <= intervalDays data /\
  (b_intervalDays body = JUndefined /\ intervalDays data = 1 \/
   b_intervalDays body = JInteger (intervalDays data)) /\
  1 <= occurrences data /\
  (b_occurrences body = JUndefined /\ occurrences data = 1 \/
   b_occurrences body = JInteger (occurrences data)) /\
  match daysOfWeek data with
  | Num n => 0 <= n <= 127 /\ b_daysOfWeek body = JInteger n
  | Null => b_daysOfWeek body = JNull
  | Undefined => b_daysOfWeek body = JUndefined
  end /\
  exists s, b_timeOfDay body = JString s /\ timeOfDay data = newDate s.
Proof.
  unfold POST, parse.
  destruct (zString (b_timeOfDay body)) as [tod |] eqn:Et;
    [| intros []].
  destruct (zPositiveIntOptional (b_intervalDays body)) as [iv |] eqn:Ei;
    [| intros []].
  destruct (zPositiveIntOptional (b_occurrences body)) as [occ |] eqn:Eo;
    [| intros []].
  destruct (zMaskOptionalNullable (b_daysOfWeek body)) as [dow |] eqn:Ed;
    [| intros []].
  cbn [p_timeOfDay p_intervalDays p_occurrences p_daysOfWeek].
  destruct (createThrows _); [intros [] |].
  intros [<- | []]. cbn [emailAccountId intervalDays occurrences daysOfWeek
                           timeOfDay].
  split; [reflexivity |]. split; [reflexivity |].
  split; [eapply orOne_positive; eassumption |].
  split.
  { apply zPositiveIntOptional_Some in Ei.
    destruct Ei as [[-> ->] | [n [-> [-> Hn]]]]; [left; auto | right].
    simpl. destruct (Z.eqb_spec n 0); [lia | reflexivity]. }
  split; [eapply orOne_positive; eassumption |].
  split.
  { apply zPositiveIntOptional_Some in Eo.
    destruct Eo as [[-> ->] | [n [-> [-> Hn]]]]; [left; auto | right].
    simpl. destruct (Z.eqb_spec n 0); [lia | reflexivity]. }
  split.
  { destruct (b_daysOfWeek body) as [| | n | | s |]; simpl in Ed;
      try discriminate.
    - injection Ed as <-. reflexivity.
    - injection Ed as <-. reflexivity.
    - destruct (Z.leb_spec 0 n), (Z.leb_spec n 127); simpl in Ed;
        try discriminate.
      injection Ed as <-. split; [lia | reflexivity]. }
  destruct (b_timeOfDay body) as [| | n | | s |]; simpl in Et;
    try discriminate.
  injection Et as <-. exists s. split; reflexivity.
Qed.

Lemma POST_creates_valid_schedule_witness :
  let body := mkBody (JString "1970-01-01T09:00:00.000Z") JUndefined
                (JInteger 1) (JInteger 2) in
  let data := mkCreateData "acc1" (Some 32400000) 1 1 (Num 2) in
  POST (fun _ => Some 32400000) (fun _ => false) "acc1" body
  = (Created data, [data]) /\
  emailAccountId data = "acc1"%string /\
  1 <= intervalDays data /\
  (b_intervalDays body = JUndefined /\ intervalDays data = 1 \/
   b_intervalDays body = JInteger (intervalDays data)) /\
  1 <= occurrences data /\
  (b_occurrences body = JUndefined /\ occurrences data = 1 \/
   b_occurrences body = JInteger (occurrences data)) /\
  (0 <= 2 <= 127 /\ b_daysOfWeek body = JInteger 2) /\
  exists s, b_timeOfDay body = JString s /\
            timeOfDay data = (fun _ : string => Some 32400000) s.
Proof.
  apply (POST_creates_valid_schedule (fun _ => Some 32400000)
           (fun _ => false) "acc1"
           (mkBody (JString "1970-01-01T09:00:00.000Z") JUndefined
              (JInteger 1) (JInteger 2))
           (mkCreateData "acc1" (Some 32400000) 1 1 (Num 2))).
  left. reflexivity.
Defined.

(** A body whose [intervalDays] or [occurrences] is present without being
    a positive integer (zero, negative, fractional, null, not a number),
    whose [daysOfWeek] is a number outside the integers 0..127, or whose
    [timeOfDay] is not a string, gets the 500 response and creates
    nothing. *)
Theorem POST_rejects_invalid_body
  (newDate : string -> Date) (createThrows : CreateData -> bool)
  (authEmailAccountId : string) (body : Body) :
  (zString (b_timeOfDay body) = None \/
   (b_intervalDays body <> JUndefined /\
    forall n, b_intervalDays body = JInteger n -> n <= 0) \/
   (b_occurrences body <> JUndefined /\
    forall n, b_occurrences body = JInteger n -> n <= 0) \/
   (b_daysOfWeek body <> JUndefined /\ b_daysOfWeek body <> JNull /\
    forall n, b_daysOfWeek body = JInteger n -> n < 0 \/ 127 < n)) ->
  POST newDate createThrows authEmailAccountId body = (Error500, []).
Proof.
  intros H. unfold POST.
  replace (parse body) with (@None Parsed); [reflexivity |].
  symmetry. unfold parse.
  destruct (zString (b_timeOfDay body)) as [tod |] eqn:Et; [| reflexivity].
  destruct (zPositiveIntOptional (b_intervalDays body)) as [iv |] eqn:Ei;
    [| reflexivity].
  destruct (zPositiveIntOptional (b_occurrences body)) as [occ |] eqn:Eo;
    [| reflexivity].
  destruct (zMaskOptionalNullable (b_daysOfWeek body)) as [dow |] eqn:Ed;
    [| reflexivity].
  exfalso. destruct H as [H | [[Hne H] | [[Hne H] | [Hne [Hnn H]]]]].
  - discriminate.
  - apply zPositiveIntOptional_Some in Ei.
    destruct Ei as [[E _] | [n [E [_ Hn]]]]; [contradiction |].
    specialize (H n E). lia.
  - apply zPositiveIntOptional_Some in Eo.
    destruct Eo as [[E _] | [n [E [_ Hn]]]]; [contradiction |].
    specialize (H n E). lia.
  - destruct (b_daysOfWeek body) as [| | n | | s |]; simpl in Ed;
      try discriminate; try contradiction.
    destruct (Z.leb_spec 0 n), (Z.leb_spec n 127); simpl in Ed;
      try discriminate.
    specialize (H n eq_refl). lia.
Qed.

Lemma POST_rejects_invalid_body_witness :
  POST (fun _ => Some 32400000) (fun _ => false) "acc1"
    (mkBody (JString "1970-01-01T09:00:00.000Z") (JInteger 0) JUndefined
       JNull)
  = (Error500, []).
Proof.
  apply (POST_rejects_invalid_body (fun _ => Some 32400000) (fun _ => false)
           "acc1"
           (mkBody (JString "1970-01-01T09:00:00.000Z") (JInteger 0)
              JUndefined JNull)).
  right. left. split; [discriminate |].
  intros n E. injection E as <-. lia.
Defined.

End DigestScheduleRouteFacts.

(** ** The schedule forms *)

Module FormFacts.
Import JSString.

Lemma range_In (lo : Z) (n : nat) (z : Z) :
  lo <= z < lo + Z.of_nat n -> In z (range lo n).
Proof.
  intros H. unfold range. apply in_map_iff.
  exists (Z.to_nat (z - lo)). split; [lia |].
  apply in_seq. lia.
Qed.

Lemma forallb_range (p : Z -> bool) (lo : Z) (n : nat) :
  forallb p (range lo n) = true ->
  forall z, lo <= z < lo + Z.of_nat n -> p z = true.
Proof.
  intros H z Hz. rewrite forallb_forall in H. apply H, range_In, Hz.
Qed.

Lemma Number_eqb_eq (a b : Number) : Number_eqb a b = true -> a = b.
Proof.
  destruct a, b; simpl; try discriminate; [| reflexivity].
  intros E. apply Z.eqb_eq in E. congruence.
Qed.

(** What the form shows, it submits: for a stored time of day whose local
    hour is 0..23 and minute 0..59, the hour field is one of the options
    "01".."12", the AM/PM field is "AM" or "PM", and [onSubmit] computes
    from the fields that same hour and minute. *)
Theorem DigestScheduleForm_shows_then_submits (h m : Z) :
  0 <= h <= 23 -> 0 <= m <= 59 ->
  let fields := DigestScheduleForm.initialTimeFields (Some (Some h, Some m)) in
  let hour := fst (fst fields) in
  let minute := snd (fst fields) in
  let ampm := snd fields in
  In hour DigestScheduleForm.hours /\
  (ampm = "AM"%string \/ ampm = "PM"%string) /\
  DigestScheduleForm.hour24Of hour ampm = Some h /\
  DigestScheduleForm.minuteOf minute = Some m.
Proof.
  intros Hh Hm.
  pose (check := fun h m : Z =>
    let fields :=
      DigestScheduleForm.initialTimeFields (Some (Some h, Some m)) in
    let hour := fst (fst fields) in
    let minute := snd (fst fields) in
    let ampm := snd fields in
    existsb (String.eqb hour) DigestScheduleForm.hours
    && (String.eqb ampm "AM" || String.eqb ampm "PM")
    && Number_eqb (DigestScheduleForm.hour24Of hour ampm) (Some h)
    && Number_eqb (DigestScheduleForm.minuteOf minute) (Some m)).
  assert (Hall : forallb (fun h => forallb (check h) (range 0 60))
                   (range 0 24) = true) by (vm_compute; reflexivity).
  pose proof (forallb_range _ 0 24 Hall h ltac:(lia)) as Hrow.
  cbv beta in Hrow.
  pose proof (forallb_range _ 0 60 Hrow m ltac:(lia)) as Hc.
  unfold check in Hc. cbv zeta in Hc |- *.
  apply andb_prop in Hc. destruct Hc as [Hc Hmin].
  apply andb_prop in Hc. destruct Hc as [Hc Hhour].
  apply andb_prop in Hc. destruct Hc as [Hin Hampm].
  repeat split.
  - apply existsb_exists in Hin. destruct Hin as [x [Hx Heq]].
    apply String.eqb_eq in Heq. subst x. exact Hx.
  - apply orb_prop in Hampm.
    destruct Hampm as [E | E]; apply String.eqb_eq in E; auto.
  - apply Number_eqb_eq. exact Hhour.
  - apply Number_eqb_eq. exact Hmin.
Qed.

Lemma DigestScheduleForm_shows_then_submits_witness :
  let fields :=
    DigestScheduleForm.initialTimeFields (Some (Some 17, Some 30)) in
  In (fst (fst fields)) DigestScheduleForm.hours /\
  (snd fields = "AM"%string \/ snd fields = "PM"%string) /\
  DigestScheduleForm.hour24Of (fst (fst fields)) (snd fields) = Some 17 /\
  DigestScheduleForm.minuteOf (snd (fst fields)) = Some 30.
Proof. apply (DigestScheduleForm_shows_then_submits 17 30); lia. Defined.

(** What the form submits, it shows again: for an hour option "01".."12"
    and "AM" or "PM", [onSubmit] computes an hour 0..23, and a time of day
    stored with that local hour (and any minute 0..59) is presented with
    the same hour option and the same AM/PM. *)
Theorem DigestScheduleForm_submits_then_shows (hour ampm : string) (m : Z) :
  In hour DigestScheduleForm.hours ->
  ampm = "AM"%string \/ ampm = "PM"%string ->
  0 <= m <= 59 ->
  exists h,
    DigestScheduleForm.hour24Of hour ampm = Some h /\ 0 <= h <= 23 /\
    let fields :=
      DigestScheduleForm.initialTimeFields (Some (Some h, Some m)) in
    fst (fst fields) = hour /\ snd fields = ampm.
Proof.
  intros Hhour Hampm Hm.
  pose (check := fun (hour ampm : string) (m : Z) =>
    match DigestScheduleForm.hour24Of hour ampm with
    | Some h =>
        (0 <=? h) && (h <=? 23)
        && (let fields :=
              DigestScheduleForm.initialTimeFields (Some (Some h, Some m)) in
            String.eqb (fst (fst fields)) hour && String.eqb (snd fields) ampm)
    | None => false
    end).
  assert (Hall :
    forallb (fun hour =>
      forallb (fun ampm => forallb (check hour ampm) (range 0 60))
        ["AM"; "PM"]%string) DigestScheduleForm.hours = true)
    by (vm_compute; reflexivity).
  rewrite forallb_forall in Hall. specialize (Hall hour Hhour).
  rewrite forallb_forall in Hall.
  assert (Hin : In ampm ["AM"; "PM"]%string)
    by (destruct Hampm as [-> | ->]; simpl; auto).
  specialize (Hall ampm Hin).
  pose proof (forallb_range _ 0 60 Hall m ltac:(lia)) as Hc.
  unfold check in Hc.
  destruct (DigestScheduleForm.hour24Of hour ampm) as [h |];
    [| discriminate].
  exists h. split; [reflexivity |].
  apply andb_prop in Hc. destruct Hc as [Hr Hf].
  apply andb_prop in Hr. destruct Hr as [Hlo Hhi].
  cbv zeta in Hf. apply andb_prop in Hf. destruct Hf as [Hf1 Hf2].
  apply String.eqb_eq in Hf1, Hf2.
  split; [lia |]. cbv zeta. split; assumption.
Qed.

Lemma DigestScheduleForm_submits_then_shows_witness :
  exists h,
    DigestScheduleForm.hour24Of "12" "AM" = Some h /\ 0 <= h <= 23 /\
    let fields :=
      DigestScheduleForm.initialTimeFields (Some (Some h, Some 45)) in
    fst (fst fields) = "12"%string /\ snd fields = "AM"%string.
Proof.
  apply (DigestScheduleForm_submits_then_shows "12" "AM" 45).
  - vm_compute. tauto.
  - left. reflexivity.
  - lia.
Defined.

End FormFacts.

Module IntervalNameFacts.




(** The time field of [DigestSettingsForm] reads back: for a local hour
    0..23 and a minute 0..59, the "HH:MM" string the form starts with is
    split and parsed by [onSubmit] into that hour and minute. *)
Theorem DigestSettingsForm_time_roundtrip (h m : Z) :
  0 <= h <= 23 -> 0 <= m <= 59 ->
  DigestSettingsForm.hourMinuteOf
    (DigestSettingsForm.initialTime (Some (Some h, Some m)))
  = (Some h, Some m).
Proof.
  intros Hh Hm.
  pose (check := fun h m : Z =>
    let r := DigestSettingsForm.hourMinuteOf
               (DigestSettingsForm.initialTime (Some (Some h, Some m))) in
    JSString.Number_eqb (fst r) (Some h)
    && JSString.Number_eqb (snd r) (Some m)).
  assert (Hall : forallb (fun h => forallb (check h) (JSString.range 0 60))
                   (JSString.range 0 24) = true) by (vm_compute; reflexivity).
  pose proof (FormFacts.forallb_range _ 0 24 Hall h ltac:(lia)) as Hrow.
  cbv beta in Hrow.
  pose proof (FormFacts.forallb_range _ 0 60 Hrow m ltac:(lia)) as Hc.
  unfold check in Hc. cbv zeta in Hc.
  apply andb_prop in Hc. destruct Hc as [H1 H2].
  apply FormFacts.Number_eqb_eq in H1, H2.
  rewrite (surjective_pairing (DigestSettingsForm.hourMinuteOf _)).
  rewrite H1, H2. reflexivity.
Qed.

Lemma DigestSettingsForm_time_roundtrip_witness :
  DigestSettingsForm.hourMinuteOf
    (DigestSettingsForm.initialTime (Some (Some 9, Some 5)))
  = (Some 9, Some 5).
Proof. apply (DigestSettingsForm_time_roundtrip 9 5); lia. Defined.

End IntervalNameFacts.

(** ** The digest migration *)

Module DigestMigrationFacts.
Import JSDate DigestMigration.

Section Script.
Variable createCanonicalTimeOfDay : Z -> Z -> Date.
Variable throws : Call -> bool.
Variable messageOf : Call -> string.

Lemma categoryLoop_dry (categories : list string) (user : User) :
  forall db acc,
  categoryLoop throws messageOf categories user true db acc
  = Returned (acc ++ map name (rulesToUpdate categories user)) db.
Proof.
  induction categories as [| c cats IH]; intros db acc; simpl.
  - rewrite app_nil_r. reflexivity.
  - unfold ruleToUpdate.
    destruct (find (isCategory c) (rules user)) as [rule |].
    + destruct (hasDigest rule); simpl; [apply IH |].
      destruct (hasCustomActions rule); simpl; [apply IH |].
      rewrite IH, <- app_assoc. reflexivity.
    + apply IH.
Qed.

Lemma categoryLoop_real (categories : list string) (user : User) :
  forall db acc r db',
  categoryLoop throws messageOf categories user false db acc = Returned r db' ->
  r = acc ++ map name (rulesToUpdate categories user) /\
  db' = mkDB (accounts db) (ruleRows db)
          (actionRows db ++ digestRows (rulesToUpdate categories user))
          (scheduleRows db).
Proof.
  induction categories as [| c cats IH]; intros db acc r db'; simpl.
  - intros E. injection E as <- <-. rewrite !app_nil_r.
    destruct db; auto.
  - unfold ruleToUpdate.
    destruct (find (isCategory c) (rules user)) as [rule |].
    + destruct (hasDigest rule); simpl; [apply IH |].
      destruct (hasCustomActions rule); simpl; [apply IH |].
      destruct (throws (ActionCreate (ruleId rule))); [discriminate |].
      intros E. apply IH in E. destruct E as [-> ->].
      unfold addAction. simpl. rewrite <- !app_assoc. auto.
    + apply IH.
Qed.

Lemma categoryLoop_thrown (categories : list string) (user : User) :
  forall db acc message db',
  categoryLoop throws messageOf categories user false db acc
  = Thrown message db' ->
  accounts db' = accounts db /\ ruleRows db' = ruleRows db /\
  scheduleRows db' = scheduleRows db.
Proof.
  induction categories as [| c cats IH]; intros db acc message db'; simpl.
  - discriminate.
  - destruct (find (isCategory c) (rules user)) as [rule |]; [| apply IH].
    destruct (hasDigest rule); [apply IH |].
    destruct (hasCustomActions rule); [apply IH |].
    destruct (throws (ActionCreate (ruleId rule))).
    + intros E. injection E as _ <-. auto.
    + intros E. apply IH in E. simpl in E. exact E.
Qed.

Lemma ruleToUpdate_spec (user : User) (c : string) (r : Rule) :
  In r (ruleToUpdate user c) ->
  In r (rules user) /\ systemType r = Some c /\ hasDigest r = false /\
  hasCustomActions r = false.
Proof.
  unfold ruleToUpdate.
  destruct (find (isCategory c) (rules user)) as [rule |] eqn:F;
    [| intros []].
  destruct (hasDigest rule) eqn:Hd; [intros [] |].
  destruct (hasCustomActions rule) eqn:Hc; [intros [] |].
  intros [<- | []]. apply find_some in F. destruct F as [Hin Hcat].
  unfold isCategory in Hcat.
  destruct (systemType rule) as [st |]; [| discriminate].
  apply String.eqb_eq in Hcat. subst st. auto.
Qed.

Lemma ruleToUpdate_length (user : User) (c : string) :
  (List.length (ruleToUpdate user c) <= 1)%nat.
Proof.
  unfold ruleToUpdate. destruct (find _ _) as [rule |]; simpl; [| lia].
  destruct (hasDigest rule || hasCustomActions rule); simpl; lia.
Qed.

Lemma plain_actions (r : Rule) (t : string) :
  hasCustomActions r = false -> In t (actions r) ->
  t = LABEL \/ t = ARCHIVE \/ t = MOVE_FOLDER.
Proof.
  unfold hasCustomActions. intros H Hin.
  destruct (String.eqb_spec t LABEL) as [| Hl]; [auto |].
  destruct (String.eqb_spec t ARCHIVE) as [| Ha]; [auto |].
  destruct (String.eqb_spec t MOVE_FOLDER) as [| Hm]; [auto |].
  exfalso. apply Bool.not_true_iff_false in H. apply H.
  apply existsb_exists. exists t. split; [assumption |].
  rewrite (proj2 (String.eqb_neq _ _) Hl), (proj2 (String.eqb_neq _ _) Ha),
    (proj2 (String.eqb_neq _ _) Hm). reflexivity.
Qed.

Lemma migrate_dry_equation (user : User) (db : DB) :
  migrateUserDigestDefaults createCanonicalTimeOfDay throws messageOf
    user true db
  = Returned
      (mkMigrationResult (id user) (email user) "success"
         (map name (rulesToUpdate ALL_DIGEST_CATEGORIES user)) (Some false)
         None) db.
Proof.
  unfold migrateUserDigestDefaults. rewrite categoryLoop_dry. reflexivity.
Qed.

(** A dry run never touches the database and never fails: it returns
    "success" with [scheduleCreated] false and, as [rulesUpdated], the names
    of the rules a real run would give a digest action.  These are at most
    six rules of the user, one per category: each has a system category, no
    digest action yet, and no action other than label, archive and move. *)
Theorem migrateUserDigestDefaults_dry_run (user : User) (db : DB) :
  migrateUserDigestDefaults createCanonicalTimeOfDay throws messageOf
    user true db
  = Returned
      (mkMigrationResult (id user) (email user) "success"
         (map name (rulesToUpdate ALL_DIGEST_CATEGORIES user)) (Some false)
         None) db /\
  (List.length (rulesToUpdate ALL_DIGEST_CATEGORIES user) <= 6)%nat /\
  forall r, In r (rulesToUpdate ALL_DIGEST_CATEGORIES user) ->
    In r (rules user) /\
    (exists c, In c ALL_DIGEST_CATEGORIES /\ systemType r = Some c) /\
    hasDigest r = false /\
    forall t, In t (actions r) ->
      t = LABEL \/ t = ARCHIVE \/ t = MOVE_FOLDER.
Proof.
  split; [| split].
  - apply migrate_dry_equation.
  - unfold rulesToUpdate, ALL_DIGEST_CATEGORIES. cbn [flat_map].
    rewrite !length_app. cbn [List.length].
    repeat match goal with
           | |- context [List.length (ruleToUpdate user ?c)] =>
               let H := fresh in
               pose proof (ruleToUpdate_length user c) as H;
               generalize dependent (List.length (ruleToUpdate user c));
               intros
           end.
    lia.
  - intros r Hr. unfold rulesToUpdate in Hr. apply in_flat_map in Hr.
    destruct Hr as [c [Hc Hin]]. apply ruleToUpdate_spec in Hin.
    destruct Hin as [Hin [Hst [Hd Hcu]]].
    split; [assumption |]. split; [eauto |]. split; [assumption |].
    intros t Ht. eapply plain_actions; eassumption.
Qed.

(** What a real run that returns has done. *)
Lemma migrate_real_returned
  (user : User) (db db' : DB) (res : MigrationResult) :
  migrateUserDigestDefaults createCanonicalTimeOfDay throws messageOf
    user false db = Returned res db' ->
  status res = "success"%string /\
  rulesUpdated res = map name (rulesToUpdate ALL_DIGEST_CATEGORIES user) /\
  ruleRows db' = ruleRows db /\
  actionRows db'
  = actionRows db ++ digestRows (rulesToUpdate ALL_DIGEST_CATEGORIES user) /\
  accounts db' = accounts (setFlags db (id user) true) /\
  let created :=
    match find (fun s => String.eqb (scheduleEmailAccountId s) (id user))
            (scheduleRows db) with
    | Some _ => false
    | None => negb (throws (ScheduleCreate (id user)))
    end in
  scheduleCreated res = Some created /\
  scheduleRows db'
  = if created
    then scheduleRows db ++ [defaultSchedule createCanonicalTimeOfDay (id user)]
    else scheduleRows db.
Proof.
  unfold migrateUserDigestDefaults.
  destruct (categoryLoop throws messageOf ALL_DIGEST_CATEGORIES user false db [])
    as [r db1 | m db1] eqn:E; [| discriminate].
  apply categoryLoop_real in E. destruct E as [-> ->]. cbn [app].
  destruct (throws (AccountUpdate (id user)) || negb _); [discriminate |].
  destruct (throws (ScheduleFindFirst (id user))); [discriminate |].
  cbn [setFlags scheduleRows accounts ruleRows actionRows].
  destruct (find _ (scheduleRows db)) as [s |] eqn:F.
  - intros H. injection H as <- <-. cbn. repeat split.
  - destruct (throws (ScheduleCreate (id user))).
    + intros H. injection H as <- <-. cbn. repeat split.
    + intros H. injection H as <- <-. cbn. repeat split.
Qed.

(** A real run that returns reports "success" and the rules the dry run
    announces; it has added one digest action to each of them and nothing
    else to the actions, set both flags of the account and left the rules
    alone.  It reports a schedule created, and has added the default daily
    schedule to the table, exactly when the account had no schedule and the
    creation did not throw; otherwise it reports none created and the
    schedules are as they were. *)
Theorem migrateUserDigestDefaults_real_run
  (user : User) (db db' : DB) (res : MigrationResult) :
  migrateUserDigestDefaults createCanonicalTimeOfDay throws messageOf
    user false db = Returned res db' ->
  status res = "success"%string /\
  rulesUpdated res = map name (rulesToUpdate ALL_DIGEST_CATEGORIES user) /\
  ruleRows db' = ruleRows db /\
  actionRows db'
  = actionRows db ++ digestRows (rulesToUpdate ALL_DIGEST_CATEGORIES user) /\
  accounts db' = accounts (setFlags db (id user) true) /\
  let created :=
    match find (fun s => String.eqb (scheduleEmailAccountId s) (id user))
            (scheduleRows db) with
    | Some _ => false
    | None => negb (throws (ScheduleCreate (id user)))
    end in
  scheduleCreated res = Some created /\
  scheduleRows db'
  = if created
    then scheduleRows db ++ [defaultSchedule createCanonicalTimeOfDay (id user)]
    else scheduleRows db.
Proof. apply migrate_real_returned. Qed.

Lemma find_map_same {A B : Type} (p : B -> bool) (q : A -> bool)
  (f : A -> B) (l : list A) :
  (forall x, p (f x) = q x) ->
  find p (map f l) = option_map f (find q l).
Proof.
  intros Hpq. induction l as [| x l IH]; simpl; [reflexivity |].
  rewrite Hpq. destruct (q x); [reflexivity | exact IH].
Qed.

Lemma isCategory_ruleOf (acts : list ActionRow) (c : string) (row : RuleRow) :
  isCategory c (ruleOf acts row)
  = match rowSystemType row with
    | Some st => String.eqb st c
    | None => false
    end.
Proof. reflexivity. Qed.

Lemma hasDigest_ruleOf_app (acts extra : list ActionRow) (row : RuleRow) :
  hasDigest (ruleOf (acts ++ extra) row)
  = hasDigest (ruleOf acts row) || hasDigest (ruleOf extra row).
Proof.
  unfold hasDigest, ruleOf. cbn [actions].
  rewrite filter_app, map_app, existsb_app. reflexivity.
Qed.

Lemma hasCustomActions_ruleOf_app (acts extra : list ActionRow)
  (row : RuleRow) :
  hasCustomActions (ruleOf (acts ++ extra) row)
  = hasCustomActions (ruleOf acts row) || hasCustomActions (ruleOf extra row).
Proof.
  unfold hasCustomActions, ruleOf. cbn [actions].
  rewrite filter_app, map_app, existsb_app. reflexivity.
Qed.

Lemma hasDigest_digestRows (rs : list Rule) (row : RuleRow) (r : Rule) :
  In r rs -> ruleId r = rowId row ->
  hasDigest (ruleOf (digestRows rs) row) = true.
Proof.
  intros Hin Hid. unfold hasDigest, ruleOf. cbn [actions].
  apply existsb_exists. exists DIGEST. split; [| reflexivity].
  apply in_map_iff. exists (mkActionRow (ruleId r) DIGEST).
  split; [reflexivity |]. apply filter_In. split.
  - unfold digestRows. apply in_map_iff. exists r. auto.
  - cbn [actionRuleId]. rewrite Hid. apply String.eqb_refl.
Qed.

(** Once the digest actions of the rules to update are in the table, no
    rule is left to update. *)
Lemma nothing_left_to_update (i e : string) (acts : list ActionRow)
  (rowsF : list RuleRow) (categories : list string) :
  rulesToUpdate categories
    (mkUser i e
       (map (ruleOf
               (acts ++ digestRows
                          (rulesToUpdate categories
                             (mkUser i e (map (ruleOf acts) rowsF)))))
          rowsF))
  = [].
Proof.
  set (user0 := mkUser i e (map (ruleOf acts) rowsF)).
  set (plan := rulesToUpdate categories user0).
  assert (Hplan : forall c r, In c categories -> In r (ruleToUpdate user0 c) ->
                              In r plan).
  { intros c r Hc Hr. unfold plan, rulesToUpdate. apply in_flat_map. eauto. }
  clearbody plan. unfold rulesToUpdate.
  induction categories as [| c cats IH]; [reflexivity |].
  cbn [flat_map].
  rewrite IH by (intros c' r Hc'; apply Hplan; right; assumption).
  rewrite app_nil_r.
  unfold ruleToUpdate at 1. cbn [rules].
  rewrite (find_map_same _ _ _ _ (isCategory_ruleOf _ c)).
  destruct (find _ rowsF) as [row |] eqn:Hfind; [| reflexivity].
  cbn [option_map].
  rewrite hasDigest_ruleOf_app, hasCustomActions_ruleOf_app.
  destruct (hasDigest (ruleOf acts row)) eqn:Hd; [reflexivity |].
  destruct (hasCustomActions (ruleOf acts row)) eqn:Hc.
  - cbn [orb]. rewrite orb_true_r. reflexivity.
  - cbn [orb].
    rewrite (hasDigest_digestRows plan row (ruleOf acts row));
      [reflexivity | | reflexivity].
    apply (Hplan c); [left; reflexivity |].
    unfold ruleToUpdate, user0. cbn [rules].
    rewrite (find_map_same _ _ _ _ (isCategory_ruleOf _ c)), Hfind.
    cbn [option_map]. rewrite Hd, Hc. left. reflexivity.
Qed.

Lemma setFlags_twice (db db' : DB) (i : string) (flag : bool) :
  accounts db' = accounts (setFlags db i flag) ->
  accounts (setFlags db' i flag) = accounts db'.
Proof.
  intros E. unfold setFlags in *. cbn [accounts] in *. rewrite E.
  rewrite map_map. apply map_ext. intros a.
  destruct (String.eqb (accountId a) i) eqn:Ha; cbn [accountId]; rewrite Ha;
    reflexivity.
Qed.

Lemma migrate_status (user : User) (dryRun : bool) (db db' : DB)
  (res : MigrationResult) :
  migrateUserDigestDefaults createCanonicalTimeOfDay throws messageOf
    user dryRun db = Returned res db' ->
  status res = "success"%string /\ (dryRun = true -> db' = db).
Proof.
  destruct dryRun.
  - rewrite migrate_dry_equation. intros H. injection H as <- <-. auto.
  - intros H. apply migrate_real_returned in H.
    split; [apply H | discriminate].
Qed.

Lemma migrate_dry_returns (user : User) (db : DB) :
  exists res,
    migrateUserDigestDefaults createCanonicalTimeOfDay throws messageOf
      user true db = Returned res db /\ status res = "success"%string.
Proof.
  eexists. split; [apply migrate_dry_equation | reflexivity].
Qed.

Lemma tally_fold (dryRun : bool) (users : list User) :
  forall t,
  let t' :=
    fold_left
      (tallyStep createCanonicalTimeOfDay throws messageOf dryRun) users t in
  tallyMigrated t' + tallyErrors t'
  = tallyMigrated t + tallyErrors t + Z.of_nat (List.length users) /\
  tallyMigrated t <= tallyMigrated t' /\
  tallyErrors t <= tallyErrors t' /\
  tallySkipped t' = tallySkipped t /\
  List.length (tallyResults t')
  = (List.length (tallyResults t) + List.length users)%nat /\
  (dryRun = true -> tallyErrors t' = tallyErrors t /\ tallyDb t' = tallyDb t).
Proof.
  induction users as [| u users IH]; intros t.
  - simpl. repeat split; try lia; reflexivity.
  - cbn [fold_left]. cbn zeta.
    destruct (IH (tallyStep createCanonicalTimeOfDay throws messageOf
                    dryRun t u)) as [Hsum [Hm [He [Hs [Hl Hd]]]]].
    cbn zeta in *.
    assert (Hstep :
      let s := tallyStep createCanonicalTimeOfDay throws messageOf
                 dryRun t u in
      tallyMigrated s + tallyErrors s = tallyMigrated t + tallyErrors t + 1 /\
      tallyMigrated t <= tallyMigrated s /\
      tallyErrors t <= tallyErrors s /\
      tallySkipped s = tallySkipped t /\
      List.length (tallyResults s) = S (List.length (tallyResults t)) /\
      (dryRun = true -> tallyErrors s = tallyErrors t /\ tallyDb s = tallyDb t)).
    { unfold tallyStep.
      destruct (migrateUserDigestDefaults _ _ _ u dryRun (tallyDb t))
        as [res db' | m db'] eqn:E.
      - apply migrate_status in E. destruct E as [-> Hdb]. cbn.
        rewrite length_app. cbn.
        repeat split; try lia; try (apply Hdb; assumption).
      - assert (Hnot : dryRun <> true).
        { intros ->.
          destruct (migrate_dry_returns u (tallyDb t)) as [r [E' _]].
          congruence. }
        cbn. rewrite length_app. cbn.
        repeat split; try lia; contradiction. }
    cbn zeta in Hstep. destruct Hstep as [Hsum1 [Hm1 [He1 [Hs1 [Hl1 Hd1]]]]].
    cbn [List.length].
    split; [lia |]. split; [lia |]. split; [lia |]. split; [lia |].
    split; [lia |].
    intros Hdry. destruct (Hd Hdry), (Hd1 Hdry). split; [lia | congruence].
Qed.

(** The summary of [migrateUsersToDigestDefaults] adds up: there is one
    result per user read, each user is counted as migrated or as an error,
    none as skipped; in a dry run every user is counted as migrated and the
    database is left as it was. *)
Theorem migrateUsersToDigestDefaults_counts
  (dryRun : bool) (db db' : DB) (summary : Summary) :
  migrateUsersToDigestDefaults createCanonicalTimeOfDay throws messageOf
    dryRun db = Returned summary db' ->
  totalUsers summary = Z.of_nat (List.length (results summary)) /\
  migrated summary + errors summary = totalUsers summary /\
  skipped summary = 0 /\
  0 <= migrated summary /\ 0 <= errors summary /\
  (dryRun = true ->
   migrated summary = totalUsers summary /\ errors summary = 0 /\ db' = db).
Proof.
  unfold migrateUsersToDigestDefaults.
  destruct (throws AccountFindMany); [discriminate |].
  intros H. injection H as <- <-.
  cbn [totalUsers migrated skipped errors results].
  match goal with
  | |- context [fold_left _ ?us ?t0] =>
      destruct (tally_fold dryRun us t0) as [Hsum [Hm [He [Hs [Hl Hd]]]]]
  end.
  cbn zeta in *.
  cbn [tallyMigrated tallyErrors tallySkipped tallyResults tallyDb
       List.length] in *.
  split; [rewrite Hl; reflexivity |].
  split; [lia |]. split; [lia |]. split; [lia |]. split; [lia |].
  intros Hdry. destruct (Hd Hdry). repeat split; try lia. assumption.
Qed.

Lemma isDigestOf_app (rs1 rs2 : list Rule) (a : ActionRow) :
  isDigestOf (rs1 ++ rs2) a = isDigestOf rs1 a || isDigestOf rs2 a.
Proof.
  unfold isDigestOf. rewrite map_app, existsb_app.
  destruct (String.eqb (actionType a) DIGEST); reflexivity.
Qed.

Lemma rollbackLoop_returned (categories : list string) (user : User) :
  forall db db',
  rollbackLoop throws messageOf categories user db = Returned tt db' ->
  db' = mkDB (accounts db) (ruleRows db)
          (filter (fun a => negb (isDigestOf (categoryRules categories user) a))
             (actionRows db))
          (scheduleRows db).
Proof.
  induction categories as [| c cats IH]; intros db db'; simpl.
  - intros E. injection E as <-.
    rewrite CleanupPstFacts.filter_all; [destruct db; reflexivity |].
    intros a _. unfold isDigestOf. cbn [map existsb categoryRules flat_map].
    rewrite andb_false_r. reflexivity.
  - destruct (find (isCategory c) (rules user)) as [rule |]; [| apply IH].
    destruct (throws (ActionDeleteMany (ruleId rule))); [discriminate |].
    intros E. apply IH in E. rewrite E. unfold deleteDigestActions.
    cbn [accounts ruleRows actionRows scheduleRows]. f_equal.
    rewrite ScheduleTableFacts.filter_twice. apply filter_ext. intros a.
    change (rule :: categoryRules cats user)
      with ([rule] ++ categoryRules cats user).
    rewrite isDigestOf_app, negb_orb. f_equal. f_equal.
    unfold isDigestOf. cbn [map existsb]. rewrite orb_false_r.
    apply andb_comm.
Qed.

(** The rules the categories stand for are the same rows whatever the
    actions: their ids do not depend on the action table. *)
Lemma categoryRules_ids (i e i' e' : string) (acts acts' : list ActionRow)
  (rowsF : list RuleRow) (categories : list string) :
  map ruleId
    (categoryRules categories (mkUser i e (map (ruleOf acts) rowsF)))
  = map ruleId
      (categoryRules categories (mkUser i' e' (map (ruleOf acts') rowsF))).
Proof.
  unfold categoryRules.
  induction categories as [| c cats IH]; [reflexivity |].
  cbn [flat_map]. rewrite !map_app. f_equal; [| exact IH].
  cbn [rules].
  rewrite !(find_map_same _ _ _ _ (isCategory_ruleOf _ c)).
  destruct (find _ rowsF); reflexivity.
Qed.

Lemma isDigestOf_ids (rs rs' : list Rule) (a : ActionRow) :
  map ruleId rs = map ruleId rs' -> isDigestOf rs a = isDigestOf rs' a.
Proof. unfold isDigestOf. intros ->. reflexivity. Qed.

Lemma categoryRules_In (categories : list string) (i e : string)
  (acts : list ActionRow) (rowsF : list RuleRow) (r : Rule) :
  In r (categoryRules categories (mkUser i e (map (ruleOf acts) rowsF))) ->
  exists row, In row rowsF /\ r = ruleOf acts row.
Proof.
  unfold categoryRules. intros H. apply in_flat_map in H.
  destruct H as [c [_ H]]. cbn [rules] in H.
  destruct (find (isCategory c) (map (ruleOf acts) rowsF)) as [rule |] eqn:F;
    [| contradiction].
  destruct H as [<- | []]. apply find_some in F. destruct F as [Hin _].
  apply in_map_iff in Hin. destruct Hin as [row [<- Hrow]]. eauto.
Qed.

Lemma hasDigest_In (acts : list ActionRow) (row : RuleRow) :
  hasDigest (ruleOf acts row) = true <->
  exists a, In a acts /\ actionRuleId a = rowId row /\ actionType a = DIGEST.
Proof.
  unfold hasDigest, ruleOf. cbn [actions]. rewrite existsb_exists. split.
  - intros [t [Hin Ht]]. apply String.eqb_eq in Ht. subst t.
    apply in_map_iff in Hin. destruct Hin as [a [Ha Hin]].
    apply filter_In in Hin. destruct Hin as [Hin Hid].
    apply String.eqb_eq in Hid. eauto.
  - intros [a [Hin [Hid Ht]]]. exists DIGEST. split; [| reflexivity].
    apply in_map_iff. exists a. split; [assumption |].
    apply filter_In. split; [assumption |]. rewrite Hid.
    apply String.eqb_refl.
Qed.

(** What a rollback that returns has done. *)
Lemma rollback_returned (i : string) (db db' : DB) :
  rollbackUserMigration throws messageOf i db = Returned tt db' ->
  exists a,
    find (fun x => String.eqb (accountId x) i) (accounts db) = Some a /\
    ruleRows db' = ruleRows db /\
    scheduleRows db' = scheduleRows db /\
    accounts db' = accounts (setFlags db i false) /\
    actionRows db'
    = filter
        (fun act =>
           negb (isDigestOf (categoryRules ALL_DIGEST_CATEGORIES (userOf db a))
                   act)) (actionRows db) /\
    forall r,
      In r (categoryRules ALL_DIGEST_CATEGORIES (userOf db' a)) ->
      hasDigest r = false.
Proof.
  unfold rollbackUserMigration.
  destruct (throws (AccountFindUnique i)); [discriminate |].
  destruct (find _ (accounts db)) as [a |] eqn:Fa; [| discriminate].
  destruct (rollbackLoop throws messageOf ALL_DIGEST_CATEGORIES
              (userOf db a) db) as [[] db1 | m db1] eqn:E; [| discriminate].
  apply rollbackLoop_returned in E.
  destruct (throws (AccountUpdate i)); [discriminate |].
  intros H. injection H as <-. subst db1. exists a.
  cbn [setFlags ruleRows scheduleRows accounts actionRows].
  repeat split.
  intros r Hr. unfold userOf, includeRules in Hr.
  cbn [ruleRows actionRows accountId] in Hr.
  pose proof Hr as Hr'. apply categoryRules_In in Hr'.
  destruct Hr' as [row [Hrow ->]].
  destruct (hasDigest (ruleOf _ row)) eqn:Hd; [exfalso | reflexivity].
  apply hasDigest_In in Hd. destruct Hd as [act [Hin [Hid Ht]]].
  apply filter_In in Hin. destruct Hin as [_ Hkeep].
  apply Bool.negb_true_iff in Hkeep.
  apply Bool.not_true_iff_false in Hkeep. apply Hkeep.
  unfold isDigestOf. rewrite Ht, String.eqb_refl. cbn [andb].
  unfold userOf, includeRules.
  erewrite categoryRules_ids.
  apply existsb_exists. exists (rowId row). split.
  - change (rowId row) with (ruleId (ruleOf
      (filter (fun act => negb (isDigestOf (categoryRules ALL_DIGEST_CATEGORIES
         (userOf db a)) act)) (actionRows db)) row)).
    apply in_map. exact Hr.
  - rewrite Hid. apply String.eqb_refl.
Qed.

(** A rollback that returns has removed from the action table exactly the
    digest actions of the rules the six categories stand for among the
    account's rules, whoever added them, and set both flags of the account
    to false; rules and schedules are as before, the schedule the migration
    may have created included, and none of those rules has a digest action
    any more. *)
Theorem rollbackUserMigration_effect (i : string) (db db' : DB) :
  rollbackUserMigration throws messageOf i db = Returned tt db' ->
  exists a,
    find (fun x => String.eqb (accountId x) i) (accounts db) = Some a /\
    ruleRows db' = ruleRows db /\
    scheduleRows db' = scheduleRows db /\
    accounts db' = accounts (setFlags db i false) /\
    actionRows db'
    = filter
        (fun act =>
           negb (isDigestOf (categoryRules ALL_DIGEST_CATEGORIES (userOf db a))
                   act)) (actionRows db) /\
    forall r,
      In r (categoryRules ALL_DIGEST_CATEGORIES (userOf db' a)) ->
      hasDigest r = false.
Proof. apply rollback_returned. Qed.

Lemma rulesToUpdate_categoryRules (categories : list string) (user : User)
  (r : Rule) :
  In r (rulesToUpdate categories user) -> In r (categoryRules categories user).
Proof.
  unfold rulesToUpdate, categoryRules. rewrite !in_flat_map.
  intros [c [Hc Hr]]. exists c. split; [assumption |].
  unfold ruleToUpdate in Hr.
  destruct (find (isCategory c) (rules user)) as [rule |]; [| contradiction].
  destruct (hasDigest rule || hasCustomActions rule); [contradiction |].
  exact Hr.
Qed.

Lemma filter_none {A : Type} (p : A -> bool) (l : list A) :
  (forall x, In x l -> p x = false) -> filter p l = [].
Proof.
  induction l as [| x l IH]; intros H; simpl; [reflexivity |].
  rewrite (H x) by (left; reflexivity).
  apply IH. intros y Hy. apply H. right. assumption.
Qed.

End Script.

(** Two runs in a row that both return, each with its own failures. *)
Section TwoRuns.
Variable createCanonicalTimeOfDay : Z -> Z -> Date.
Variables throws1 throws2 : Call -> bool.
Variables messageOf1 messageOf2 : Call -> string.

(** The migration is idempotent when it returns: if a real run returns and
    a second real run on the same account, reading the database the first
    one left, returns too, the second updates no rule and adds no action,
    and when the account has a schedule by then it changes nothing at all
    and reports no schedule created.  Each run has failures of its own (a
    schedule creation that throws is caught and the run still returns). *)
Theorem migrateUserDigestDefaults_second_run
  (a : AccountRow) (db db1 db2 : DB) (res1 res2 : MigrationResult) :
  migrateUserDigestDefaults createCanonicalTimeOfDay throws1 messageOf1
    (userOf db a) false db = Returned res1 db1 ->
  migrateUserDigestDefaults createCanonicalTimeOfDay throws2 messageOf2
    (userOf db1 a) false db1 = Returned res2 db2 ->
  rulesUpdated res2 = [] /\
  actionRows db2 = actionRows db1 /\
  ruleRows db2 = ruleRows db1 /\
  accounts db2 = accounts db1 /\
  ((exists s, In s (scheduleRows db1) /\
              scheduleEmailAccountId s = accountId a) ->
   scheduleCreated res2 = Some false /\ db2 = db1).
Proof.
  intros H1 H2.
  apply migrate_real_returned in H1.
  destruct H1 as [_ [_ [Hr1 [Ha1 [Hacc1 _]]]]].
  apply migrate_real_returned in H2.
  destruct H2 as [_ [Hu2 [Hr2 [Ha2 [Hacc2 Hs2]]]]].
  assert (Hnone : rulesToUpdate ALL_DIGEST_CATEGORIES (userOf db1 a) = []).
  { unfold userOf, includeRules. rewrite Hr1, Ha1.
    apply nothing_left_to_update. }
  rewrite Hnone in *. cbn [map digestRows] in *. rewrite app_nil_r in Ha2.
  assert (Hacc : accounts db2 = accounts db1).
  { rewrite Hacc2. apply (setFlags_twice db). exact Hacc1. }
  split; [exact Hu2 |]. split; [exact Ha2 |]. split; [exact Hr2 |].
  split; [exact Hacc |].
  intros [s [Hin Hs]]. cbv zeta in Hs2. destruct Hs2 as [Hc Hsch].
  destruct (find _ (scheduleRows db1)) as [s0 |] eqn:Hfind.
  - split; [exact Hc |]. destruct db2, db1. cbn in *. congruence.
  - apply (find_none _ _ Hfind) in Hin. cbn [userOf id] in Hin.
    rewrite Hs, String.eqb_refl in Hin. discriminate.
Qed.

(** When a migration returns and the rollback that follows it returns too,
    the action table is as it was before the migration, provided none of the
    rules the categories stand for had a digest action then; the rules are
    untouched, both flags of the account end up false, and the schedule the
    migration created stays. *)
Theorem migrate_then_rollback
  (a : AccountRow) (db db1 db2 : DB) (res : MigrationResult) :
  migrateUserDigestDefaults createCanonicalTimeOfDay throws1 messageOf1
    (userOf db a) false db = Returned res db1 ->
  rollbackUserMigration throws2 messageOf2 (accountId a) db1
  = Returned tt db2 ->
  (forall r, In r (categoryRules ALL_DIGEST_CATEGORIES (userOf db a)) ->
             hasDigest r = false) ->
  actionRows db2 = actionRows db /\
  ruleRows db2 = ruleRows db /\
  scheduleRows db2 = scheduleRows db1 /\
  accounts db2 = accounts (setFlags db (accountId a) false).
Proof.
  intros H1 H2 Hclean.
  apply migrate_real_returned in H1.
  destruct H1 as [_ [_ [Hr1 [Ha1 [Hacc1 _]]]]]. cbn [userOf id] in Hacc1.
  apply rollback_returned in H2.
  destruct H2 as [a1 [Hfind [Hr2 [Hs2 [Hacc2 [Ha2 _]]]]]].
  apply find_some in Hfind. destruct Hfind as [_ Hid].
  apply String.eqb_eq in Hid.
  split; [| split; [congruence | split; [assumption |]]].
  - rewrite Ha2.
    rewrite (filter_ext _
               (fun act => negb (isDigestOf
                  (categoryRules ALL_DIGEST_CATEGORIES (userOf db a)) act))).
    2: { intros act. f_equal. apply isDigestOf_ids.
         unfold userOf, includeRules. rewrite Hr1, Hid.
         apply categoryRules_ids. }
    rewrite Ha1, filter_app.
    rewrite CleanupPstFacts.filter_all, filter_none.
    + apply app_nil_r.
    + intros act Hact. unfold digestRows in Hact. apply in_map_iff in Hact.
      destruct Hact as [r [<- Hr]]. apply Bool.negb_false_iff.
      unfold isDigestOf. cbn [actionType actionRuleId].
      apply andb_true_intro. split; [reflexivity |].
      apply existsb_exists. exists (ruleId r). split.
      * apply in_map. apply rulesToUpdate_categoryRules. exact Hr.
      * apply String.eqb_refl.
    + intros act Hact. apply Bool.negb_true_iff.
      destruct (isDigestOf _ act) eqn:E; [exfalso | reflexivity].
      unfold isDigestOf in E. apply andb_prop in E. destruct E as [Et Ex].
      apply String.eqb_eq in Et. apply existsb_exists in Ex.
      destruct Ex as [rid [Hrid Heq]]. apply String.eqb_eq in Heq.
      apply in_map_iff in Hrid. destruct Hrid as [r [Hr Hin]].
      pose proof (Hclean r Hin) as Hd.
      unfold userOf, includeRules in Hin.
      apply categoryRules_In in Hin. destruct Hin as [row [_ ->]].
      apply Bool.not_true_iff_false in Hd. apply Hd.
      apply hasDigest_In. exists act. cbn [ruleOf ruleId] in Hr.
      repeat split; congruence.
  - rewrite Hacc2. unfold setFlags. cbn [accounts]. rewrite Hacc1.
    unfold setFlags. cbn [accounts]. rewrite map_map.
    apply map_ext. intros x.
    destruct (String.eqb (accountId x) (accountId a)) eqn:Hx;
      cbn [accountId]; rewrite Hx; reflexivity.
Qed.

End TwoRuns.

Lemma migrateUserDigestDefaults_real_run_witness :
  exists res db',
    migrateUserDigestDefaults MultipleSchedules.createCanonicalTimeOfDay
      (fun _ => false) (fun _ => EmptyString)
      (userOf exampleDb exampleAccount) false exampleDb = Returned res db' /\
    rulesUpdated res = ["To Reply"; "Newsletter"]%string /\
    actionRows db'
    = actionRows exampleDb
      ++ [mkActionRow "r1" DIGEST; mkActionRow "r2" DIGEST] /\
    scheduleCreated res = Some true.
Proof.
  eexists _, _. split; [vm_compute; reflexivity |].
  match goal with
  | |- rulesUpdated ?res = _ /\ actionRows ?db' = _ /\ _ =>
      destruct (migrateUserDigestDefaults_real_run
                  MultipleSchedules.createCanonicalTimeOfDay
                  (fun _ => false) (fun _ => EmptyString)
                  (userOf exampleDb exampleAccount) exampleDb db' res)
        as [_ [Hu [_ [Ha _]]]]; [vm_compute; reflexivity |]
  end.
  split; [exact Hu |]. split; [exact Ha | reflexivity].
Defined.

Lemma migrateUserDigestDefaults_second_run_witness :
  exists res1 db1 res2 db2,
    migrateUserDigestDefaults MultipleSchedules.createCanonicalTimeOfDay
      (fun _ => false) (fun _ => EmptyString)
      (userOf exampleDb exampleAccount) false exampleDb = Returned res1 db1 /\
    migrateUserDigestDefaults MultipleSchedules.createCanonicalTimeOfDay
      (fun _ => false) (fun _ => EmptyString)
      (userOf db1 exampleAccount) false db1 = Returned res2 db2 /\
    rulesUpdated res2 = [] /\ actionRows db2 = actionRows db1.
Proof.
  eexists _, _, _, _. split; [vm_compute; reflexivity |].
  split; [vm_compute; reflexivity |].
  match goal with
  | |- rulesUpdated ?res2 = _ /\ actionRows ?db2 = actionRows ?db1 =>
      destruct (migrateUserDigestDefaults_second_run
                  MultipleSchedules.createCanonicalTimeOfDay
                  (fun _ => false) (fun _ => false)
                  (fun _ => EmptyString) (fun _ => EmptyString)
                  exampleAccount exampleDb db1 db2
                  (mkMigrationResult "acc1" "a@example.com" "success"
                     ["To Reply"; "Newsletter"]%string (Some true) None) res2)
        as [Hu [Ha _]]; [vm_compute; reflexivity | vm_compute; reflexivity |]
  end.
  split; [exact Hu | exact Ha].
Defined.

Lemma migrateUsersToDigestDefaults_counts_witness :
  exists summary db',
    migrateUsersToDigestDefaults MultipleSchedules.createCanonicalTimeOfDay
      (fun c => match c with ActionCreate _ => true | _ => false end)
      (fun _ => "P2003"%string) false exampleDb = Returned summary db' /\
    totalUsers summary = Z.of_nat (List.length (results summary)) /\
    migrated summary + errors summary = totalUsers summary /\
    skipped summary = 0 /\ errors summary = 1.
Proof.
  eexists _, _. split; [vm_compute; reflexivity |].
  match goal with
  | |- totalUsers ?sm = _ /\ _ =>
      destruct (migrateUsersToDigestDefaults_counts
                  MultipleSchedules.createCanonicalTimeOfDay
                  (fun c => match c with ActionCreate _ => true | _ => false end)
                  (fun _ => "P2003"%string) false exampleDb exampleDb sm)
        as [Ht [Hs [Hk _]]]; [vm_compute; reflexivity |]
  end.
  split; [exact Ht |]. split; [exact Hs |]. split; [exact Hk | reflexivity].
Defined.

Lemma rollbackUserMigration_effect_witness :
  exists db',
    rollbackUserMigration (fun _ => false) (fun _ => EmptyString) "acc1"
      (addAction exampleDb "r1" DIGEST) = Returned tt db' /\
    actionRows db' = actionRows exampleDb /\
    ruleRows db' = ruleRows exampleDb.
Proof.
  eexists. split; [vm_compute; reflexivity |].
  match goal with
  | |- actionRows ?db' = _ /\ _ =>
      destruct (rollbackUserMigration_effect (fun _ => false)
                  (fun _ => EmptyString) "acc1"
                  (addAction exampleDb "r1" DIGEST) db')
        as [a [_ [Hr [_ [_ [Ha _]]]]]]; [vm_compute; reflexivity |]
  end.
  split; [reflexivity | exact Hr].
Defined.

Lemma migrate_then_rollback_witness :
  exists res db1 db2,
    migrateUserDigestDefaults MultipleSchedules.createCanonicalTimeOfDay
      (fun _ => false) (fun _ => EmptyString)
      (userOf exampleDb exampleAccount) false exampleDb = Returned res db1 /\
    rollbackUserMigration (fun _ => false) (fun _ => EmptyString) "acc1" db1
    = Returned tt db2 /\
    actionRows db2 = actionRows exampleDb /\
    ruleRows db2 = ruleRows exampleDb /\
    scheduleRows db2 = scheduleRows db1 /\
    accounts db2 = accounts (setFlags exampleDb "acc1" false).
Proof.
  eexists _, _, _. split; [vm_compute; reflexivity |].
  split; [vm_compute; reflexivity |].
  eapply (migrate_then_rollback MultipleSchedules.createCanonicalTimeOfDay
            (fun _ => false) (fun _ => false)
            (fun _ => EmptyString) (fun _ => EmptyString)
            exampleAccount exampleDb).
  - vm_compute. reflexivity.
  - vm_compute. reflexivity.
  - intros r Hr. vm_compute in Hr.
    destruct Hr as [<- | [<- | [<- | []]]]; reflexivity.
Defined.

End DigestMigrationFacts.

(** ** Reply tracking *)

Module ReplyTrackingFacts.
Import ReplyTracking.

Lemma fold_filter {A B : Type} (keep : B -> A -> bool) (rs : list B) :
  forall acts : list A,
  fold_left (fun acc r => filter (keep r) acc) rs acts
  = filter (fun a => forallb (fun r => keep r a) rs) acts.
Proof.
  induction rs as [| r rs IH]; intros acts; cbn [fold_left forallb].
  - symmetry. apply CleanupPstFacts.filter_all. reflexivity.
  - rewrite IH, ScheduleTableFacts.filter_twice. reflexivity.
Qed.

Lemma filter_nil_when {A : Type} (p : A -> bool) (l : list A) :
  (forall x, In x l -> p x = false) -> filter p l = [].
Proof.
  induction l as [| x l IH]; intros H; cbn [filter]; [reflexivity |].
  rewrite (H x) by (left; reflexivity).
  apply IH. intros y Hy. apply H. right. exact Hy.
Qed.

Section Action.
Variable NEEDS_REPLY_LABEL_NAME : string.
Variable transactionThrows : bool.

Local Abbreviation run :=
  (updateReplyTrackingAction NEEDS_REPLY_LABEL_NAME transactionThrows).
Local Abbreviation toReply := (toReplyRules NEEDS_REPLY_LABEL_NAME).

(** The action table a successful run leaves. *)
Lemma run_actions (enabled : bool) (account : string) (db db' : DB) :
  run enabled account db = Some db' ->
  rules db' = rules db /\
  accounts db'
  = map (fun a => if String.eqb (accountId a) account
                  then setTracking enabled a else a) (accounts db) /\
  existsb (fun a => String.eqb (accountId a) account) (accounts db) = true /\
  actions db'
  = if enabled
    then actions db
         ++ map (fun r => mkAction (ruleId r) TRACK_THREAD None None)
              (filter (fun r => negb (hasTrackThread db r))
                 (toReply db account))
    else filter
           (fun a =>
              forallb
                (fun r => negb (String.eqb (actionRuleId a) (ruleId r)
                                && String.eqb (actionType a) TRACK_THREAD))
                (filter (hasTrackThread db) (toReply db account)))
           (actions db).
Proof.
  unfold updateReplyTrackingAction.
  destruct transactionThrows; [discriminate |]. cbn [orb].
  destruct (existsb _ (accounts db)) eqn:Hex; [| discriminate].
  cbn [negb]. intros H. injection H as <-.
  cbn [rules accounts actions]. repeat split.
  destruct enabled; cbn [negb andb].
  - rewrite (filter_nil_when (fun _ => false)) by reflexivity. reflexivity.
  - rewrite (filter_nil_when (fun _ => false)) by reflexivity.
    cbn [map]. rewrite app_nil_r, fold_filter. reflexivity.
Qed.

(** A run neither adds nor removes an action of another type than
    TRACK_THREAD. *)
Lemma run_keeps_other_actions (enabled : bool) (account : string)
  (db db' : DB) (a : Action) :
  run enabled account db = Some db' ->
  actionType a <> TRACK_THREAD ->
  (In a (actions db') <-> In a (actions db)).
Proof.
  intros H Ht. apply run_actions in H. destruct H as [_ [_ [_ Ha]]].
  rewrite Ha. destruct enabled.
  - rewrite in_app_iff, in_map_iff. split; [| auto].
    intros [Hin | [r [<- _]]]; [assumption |].
    exfalso. apply Ht. reflexivity.
  - rewrite filter_In. split; [tauto |]. intros Hin. split; [assumption |].
    apply forallb_forall. intros r _.
    apply String.eqb_neq in Ht. rewrite Ht, andb_false_r. reflexivity.
Qed.

Lemma needsReplyLabelOf_run (enabled : bool) (account : string)
  (db db' : DB) :
  run enabled account db = Some db' ->
  needsReplyLabelOf db' account = needsReplyLabelOf db account.
Proof.
  intros H. apply run_actions in H. destruct H as [_ [Hacc _]].
  unfold needsReplyLabelOf. rewrite Hacc.
  rewrite (DigestMigrationFacts.find_map_same _
             (fun a => String.eqb (accountId a) account)).
  - destruct (find _ (accounts db)) as [a |]; [| reflexivity].
    cbn [option_map]. destruct (String.eqb (accountId a) account); reflexivity.
  - intros a. destruct (String.eqb (accountId a) account) eqn:E;
      cbn [accountId]; [exact E | exact E].
Qed.

Lemma isToReplyLabel_type (needs : option string) (a : Action) :
  isToReplyLabel NEEDS_REPLY_LABEL_NAME needs a = true ->
  actionType a <> TRACK_THREAD.
Proof.
  unfold isToReplyLabel. intros H. apply andb_prop in H.
  destruct H as [H _]. apply String.eqb_eq in H. rewrite H. discriminate.
Qed.

Lemma toReply_run (enabled : bool) (account : string) (db db' : DB) :
  run enabled account db = Some db' ->
  toReply db' account = toReply db account.
Proof.
  intros H. unfold toReplyRules.
  rewrite (needsReplyLabelOf_run _ _ _ _ H).
  pose proof (run_actions _ _ _ _ H) as [Hr _]. rewrite Hr.
  apply filter_ext. intros r. f_equal.
  set (needs := needsReplyLabelOf db account).
  destruct (existsb _ (actionsOf db r)) eqn:E.
  - apply existsb_exists in E. destruct E as [a [Hin Ha]].
    apply existsb_exists. exists a. split; [| assumption].
    unfold actionsOf in *. apply filter_In in Hin. apply filter_In.
    split; [| tauto].
    apply (run_keeps_other_actions _ _ _ _ a H);
      [eapply isToReplyLabel_type; eassumption | tauto].
  - apply Bool.not_true_iff_false. intros E'.
    apply Bool.not_true_iff_false in E. apply E.
    apply existsb_exists in E'. destruct E' as [a [Hin Ha]].
    apply existsb_exists. exists a. split; [| assumption].
    unfold actionsOf in *. apply filter_In in Hin. apply filter_In.
    split; [| tauto].
    apply (run_keeps_other_actions _ _ _ _ a H);
      [eapply isToReplyLabel_type; eassumption | tauto].
Qed.

Lemma hasTrackThread_run (enabled : bool) (account : string) (db db' : DB)
  (r : Rule) :
  run enabled account db = Some db' ->
  In r (toReply db account) ->
  hasTrackThread db' r = enabled.
Proof.
  intros H Hr. apply run_actions in H. destruct H as [_ [_ [_ Ha]]].
  unfold hasTrackThread, actionsOf. rewrite Ha. destruct enabled.
  - rewrite filter_app, existsb_app.
    destruct (existsb _ (filter _ (actions db))) eqn:E; [reflexivity |].
    cbn [orb]. apply existsb_exists.
    exists (mkAction (ruleId r) TRACK_THREAD None None).
    split; [| reflexivity]. apply filter_In. split.
    + apply in_map_iff. exists r. split; [reflexivity |].
      apply filter_In. split; [assumption |].
      unfold hasTrackThread, actionsOf. rewrite E. reflexivity.
    + cbn [actionRuleId]. apply String.eqb_refl.
  - apply Bool.not_true_iff_false. intros E.
    apply existsb_exists in E. destruct E as [a [Hin Ht]].
    apply filter_In in Hin. destruct Hin as [Hin Hid].
    apply filter_In in Hin. destruct Hin as [Hin Hkeep].
    rewrite forallb_forall in Hkeep.
    assert (Htrack : hasTrackThread db r = true).
    { unfold hasTrackThread, actionsOf. apply existsb_exists.
      exists a. split; [| assumption]. apply filter_In. auto. }
    specialize (Hkeep r). rewrite Hid, Ht in Hkeep.
    assert (Hin' : In r (filter (hasTrackThread db) (toReply db account)))
      by (apply filter_In; auto).
    specialize (Hkeep Hin'). discriminate.
Qed.

(** A successful run leaves the set of "To Reply" rules as it was and gives
    each of them a TRACK_THREAD action when tracking is enabled, none when
    it is disabled; the account's setting becomes [enabled]; actions of any
    other type are neither added nor removed; and running the action again
    with the same [enabled], its transaction going through, changes
    nothing. *)
Theorem updateReplyTrackingAction_effect
  (enabled : bool) (account : string) (db db' : DB) :
  run enabled account db = Some db' ->
  toReply db' account = toReply db account /\
  (forall r, In r (toReply db account) -> hasTrackThread db' r = enabled) /\
  (forall a, In a (accounts db') -> accountId a = account ->
             outboundReplyTracking a = enabled) /\
  (forall a, actionType a <> TRACK_THREAD ->
             (In a (actions db') <-> In a (actions db))) /\
  updateReplyTrackingAction NEEDS_REPLY_LABEL_NAME false enabled account db'
  = Some db'.
Proof.
  intros H.
  pose proof (toReply_run _ _ _ _ H) as Hsame.
  pose proof (run_actions _ _ _ _ H) as [Hr [Hacc [Hex _]]].
  split; [exact Hsame |].
  split; [intros r Hin; eapply hasTrackThread_run; eassumption |].
  split.
  { intros a Hin Hid. rewrite Hacc in Hin. apply in_map_iff in Hin.
    destruct Hin as [x [Hx _]].
    destruct (String.eqb (accountId x) account) eqn:E.
    - subst a. reflexivity.
    - subst a. apply String.eqb_neq in E. contradiction. }
  split; [intros a; apply (run_keeps_other_actions enabled account); exact H |].
  unfold updateReplyTrackingAction. rewrite Hsame.
  assert (Hex' : existsb (fun a => String.eqb (accountId a) account)
                   (accounts db') = true).
  { rewrite Hacc. apply existsb_exists. apply existsb_exists in Hex.
    destruct Hex as [x [Hx Hid]].
    exists (setTracking enabled x).
    split; [| exact Hid]. apply in_map_iff. exists x.
    rewrite Hid. auto. }
  rewrite Hex'. cbn [orb negb].
  rewrite (filter_nil_when
             (fun r => enabled && negb (hasTrackThread db' r))).
  2: { intros r Hin. rewrite (hasTrackThread_run _ _ _ _ r H Hin).
       destruct enabled; reflexivity. }
  rewrite (filter_nil_when
             (fun r => negb enabled && hasTrackThread db' r)).
  2: { intros r Hin. rewrite (hasTrackThread_run _ _ _ _ r H Hin).
       destruct enabled; reflexivity. }
  cbn [map fold_left]. rewrite app_nil_r. f_equal.
  destruct db' as [accs rs acts]. cbn [accounts rules actions] in *.
  f_equal. rewrite Hacc, map_map. apply map_ext. intros a.
  destruct (String.eqb (accountId a) account) eqn:E;
    cbn [setTracking accountId]; rewrite E; reflexivity.
Qed.

End Action.

Lemma updateReplyTrackingAction_effect_witness :
  let db :=
    mkDB [mkAccount "acc1" (Some "lbl1"%string) None None false]
      [mkRule "r1" "acc1"; mkRule "r2" "acc1"]
      [mkAction "r1" LABEL None (Some "lbl1"%string);
       mkAction "r2" LABEL (Some "Other"%string) None] in
  exists db',
    updateReplyTrackingAction "To Reply" false true "acc1" db = Some db' /\
    toReplyRules "To Reply" db' "acc1" = [mkRule "r1" "acc1"] /\
    hasTrackThread db' (mkRule "r1" "acc1") = true /\
    hasTrackThread db' (mkRule "r2" "acc1") = false /\
    updateReplyTrackingAction "To Reply" false true "acc1" db' = Some db'.
Proof.
  cbv zeta. eexists. split; [vm_compute; reflexivity |].
  match goal with
  | |- toReplyRules _ ?db' _ = _ /\ _ =>
      destruct (updateReplyTrackingAction_effect "To Reply" false true "acc1"
                  (mkDB [mkAccount "acc1" (Some "lbl1"%string) None None false]
                     [mkRule "r1" "acc1"; mkRule "r2" "acc1"]
                     [mkAction "r1" LABEL None (Some "lbl1"%string);
                      mkAction "r2" LABEL (Some "Other"%string) None]) db')
        as [Hsame [Htrack [_ [_ Hagain]]]]; [vm_compute; reflexivity |]
  end.
  split; [rewrite Hsame; reflexivity |].
  split; [apply Htrack; vm_compute; auto |].
  split; [reflexivity | exact Hagain].
Defined.

(** *** [updateSystemLabelsAction] *)

Section SystemLabels.
Variable NEEDS_REPLY_LABEL_NAME : string.
Variable throws : Call -> bool.

Local Abbreviation save :=
  (updateSystemLabelsAction NEEDS_REPLY_LABEL_NAME throws).
Local Abbreviation isToReply := (isToReplyLabel NEEDS_REPLY_LABEL_NAME).

(** The database a run that returns leaves. *)
Lemma save_returned (needs awaiting cold : option string) (account : string)
  (db db' : DB) :
  save needs awaiting cold account db = Returned db' ->
  rules db' = rules db /\
  accounts db'
  = map (fun a => if String.eqb (accountId a) account
                  then setLabelIds needs awaiting cold a else a)
      (accounts db) /\
  existsb (fun a => String.eqb (accountId a) account) (accounts db) = true /\
  actions db'
  = match truthyId needs with
    | None => actions db
    | Some l =>
        map (fun a => if ofAccount db account a
                         && isToReply (needsReplyLabelOf db account) a
                      then relabel l a else a) (actions db)
    end.
Proof.
  unfold updateSystemLabelsAction.
  destruct (throws AccountFindUnique); [discriminate |].
  destruct (throws AccountUpdate); [discriminate |]. cbn [orb].
  destruct (existsb _ (accounts db)) eqn:Hex; [| discriminate].
  cbn [negb].
  destruct (truthyId needs) as [l |].
  - destruct (throws ActionUpdateMany); [discriminate |].
    intros H. injection H as <-. cbn [rules accounts actions]. auto.
  - intros H. injection H as <-. cbn [rules accounts actions]. auto.
Qed.

Lemma ofAccount_relabel (db : DB) (account l : string) (a : Action) :
  ofAccount db account (relabel l a) = ofAccount db account a.
Proof. reflexivity. Qed.

Lemma isToReply_relabel (needs : option string) (l : string) (a : Action) :
  actionType a = LABEL -> isToReply (Some l) (relabel l a) = true.
Proof.
  intros Ht. unfold isToReplyLabel, relabel.
  cbn [actionType labelId label optEqb]. rewrite Ht, !String.eqb_refl.
  reflexivity.
Qed.

Lemma needsReplyLabelOf_saved (needs awaiting cold : option string)
  (account : string) (db db' : DB) :
  save needs awaiting cold account db = Returned db' ->
  needsReplyLabelOf db' account = truthyId needs.
Proof.
  intros H. apply save_returned in H. destruct H as [_ [Hacc [Hex _]]].
  unfold needsReplyLabelOf. rewrite Hacc.
  rewrite (DigestMigrationFacts.find_map_same _
             (fun a => String.eqb (accountId a) account)).
  - apply existsb_exists in Hex. destruct Hex as [x [Hx Hid]].
    destruct (find _ (accounts db)) as [a |] eqn:F.
    + apply find_some in F. destruct F as [_ Ha]. cbn [option_map].
      rewrite Ha. reflexivity.
    + apply (find_none _ _ F) in Hx. congruence.
  - intros a. destruct (String.eqb (accountId a) account) eqn:E;
      cbn [setLabelIds accountId]; exact E.
Qed.

(** A run that returns has stored the three label ids as given.  When
    [needsReplyLabelId] is null, undefined or empty, no action is touched.
    Otherwise every label action of a rule of the account that carried the
    old label id or the legacy label name carries the new id and no name:
    every rule that was a "To Reply" rule still is one for the new id, no
    label action of the account keeps the legacy name, and the actions of
    the rules of other accounts are as they were.  The rules, and the rule
    and type of every action, never change. *)
Theorem updateSystemLabelsAction_effect
  (needs awaiting cold : option string) (account : string) (db db' : DB) :
  save needs awaiting cold account db = Returned db' ->
  rules db' = rules db /\
  map actionRuleId (actions db') = map actionRuleId (actions db) /\
  map actionType (actions db') = map actionType (actions db) /\
  (forall a, In a (accounts db') -> accountId a = account ->
     needsReplyLabelId a = needs /\ awaitingReplyLabelId a = awaiting /\
     coldEmailLabelId a = cold) /\
  (truthyId needs = None -> actions db' = actions db) /\
  (forall l, truthyId needs = Some l ->
     (forall r, In r (toReplyRules NEEDS_REPLY_LABEL_NAME db account) ->
                In r (toReplyRules NEEDS_REPLY_LABEL_NAME db' account)) /\
     (forall a, In a (actions db') -> ofAccount db' account a = true ->
                actionType a = LABEL ->
                label a <> Some NEEDS_REPLY_LABEL_NAME) /\
     (forall a, In a (actions db) -> ofAccount db account a = false ->
                In a (actions db'))).
Proof.
  intros H.
  pose proof (needsReplyLabelOf_saved _ _ _ _ _ _ H) as Hneeds.
  pose proof (save_returned _ _ _ _ _ _ H) as [Hr [Hacc [Hex Hact]]].
  split; [exact Hr |].
  split.
  { rewrite Hact. destruct (truthyId needs) as [l |]; [| reflexivity].
    rewrite map_map. apply map_ext. intros a.
    destruct (ofAccount db account a && _); reflexivity. }
  split.
  { rewrite Hact. destruct (truthyId needs) as [l |]; [| reflexivity].
    rewrite map_map. apply map_ext. intros a.
    destruct (ofAccount db account a && _); reflexivity. }
  split.
  { intros a Hin Hid. rewrite Hacc in Hin. apply in_map_iff in Hin.
    destruct Hin as [x [Hx _]].
    destruct (String.eqb (accountId x) account) eqn:E.
    - subst a. cbn. auto.
    - subst a. apply String.eqb_neq in E. contradiction. }
  split.
  { intros Hnone. rewrite Hact, Hnone. reflexivity. }
  intros l Hl. rewrite Hl in Hact, Hneeds.
  split; [| split].
  - intros r Hin. unfold toReplyRules in *. rewrite Hr, Hneeds.
    apply filter_In in Hin. destruct Hin as [Hin Hc].
    apply filter_In. split; [exact Hin |].
    apply andb_prop in Hc. destruct Hc as [Hown Hsome].
    rewrite Hown. cbn [andb].
    apply existsb_exists in Hsome. destruct Hsome as [a [Ha Hlab]].
    unfold actionsOf in Ha. apply filter_In in Ha. destruct Ha as [Ha Hid].
    apply existsb_exists. exists (relabel l a). split.
    + unfold actionsOf. apply filter_In. split; [| exact Hid].
      rewrite Hact. apply in_map_iff. exists a. split; [| exact Ha].
      assert (Hof : ofAccount db account a = true).
      { unfold ofAccount. apply existsb_exists. exists r.
        split; [exact Hin |]. apply String.eqb_eq in Hid.
        rewrite Hid, String.eqb_refl, Hown. reflexivity. }
      rewrite Hof, Hlab. reflexivity.
    + apply (isToReply_relabel (Some l)).
      unfold isToReplyLabel in Hlab. apply andb_prop in Hlab.
      destruct Hlab as [Ht _]. apply String.eqb_eq. exact Ht.
  - intros a' Hin Hof Ht Hname. rewrite Hact in Hin.
    apply in_map_iff in Hin. destruct Hin as [a [Ha Hin]].
    destruct (ofAccount db account a
              && isToReply (needsReplyLabelOf db account) a) eqn:E.
    + subst a'. discriminate.
    + subst a'. unfold ofAccount in Hof, E. rewrite Hr in Hof.
      rewrite Hof in E.
      cbn [andb] in E. unfold isToReplyLabel in E.
      rewrite Ht, String.eqb_refl, Hname in E. cbn [andb optEqb] in E.
      rewrite String.eqb_refl, orb_true_r in E. discriminate.
  - intros a Hin Hof. rewrite Hact. apply in_map_iff. exists a.
    rewrite Hof. auto.
Qed.

End SystemLabels.

Lemma updateSystemLabelsAction_effect_witness :
  let db :=
    mkDB [mkAccount "acc1" (Some "lbl1"%string) None None false]
      [mkRule "r1" "acc1"; mkRule "r2" "acc1"; mkRule "r3" "acc2"]
      [mkAction "r1" LABEL None (Some "lbl1"%string);
       mkAction "r2" LABEL (Some "To Reply"%string) None;
       mkAction "r3" LABEL (Some "To Reply"%string) None] in
  exists db',
    updateSystemLabelsAction "To Reply" (fun _ => false)
      (Some "lbl2"%string) None None "acc1" db = Returned db' /\
    actions db'
    = [mkAction "r1" LABEL None (Some "lbl2"%string);
       mkAction "r2" LABEL None (Some "lbl2"%string);
       mkAction "r3" LABEL (Some "To Reply"%string) None] /\
    (forall r, In r (toReplyRules "To Reply" db "acc1") ->
               In r (toReplyRules "To Reply" db' "acc1")).
Proof.
  cbv zeta. eexists. split; [vm_compute; reflexivity |].
  split; [reflexivity |].
  match goal with
  | |- forall r, In r (toReplyRules _ ?db _) -> In r (toReplyRules _ ?db' _) =>
      destruct (updateSystemLabelsAction_effect "To Reply" (fun _ => false)
                  (Some "lbl2"%string) None None "acc1" db db')
        as [_ [_ [_ [_ [_ Hsome]]]]]; [vm_compute; reflexivity |];
      destruct (Hsome "lbl2"%string) as [Hkeep _]; [reflexivity |];
      exact Hkeep
  end.
Defined.

End ReplyTrackingFacts.
